(** * systemd fstab-generator: a shallow embedding and its properties

    The development follows [src/fstab-generator/fstab-generator.c].
    C strings are [string]; a nullable [char *] is an [option string];
    [int] results are [Z] (negative errno values on failure); the global
    [arg_*] variables, the generated files, the symbolic links and the
    log form one explicit state that every function threads. *)

From Stdlib Require Import String Ascii List ZArith Bool Lia DecimalString.
Import ListNotations.

Local Open Scope string_scope.
Local Open Scope Z_scope.

(** ** Constants of the C environment *)

Definition EEXIST : Z := 17.
Definition EINVAL : Z := 22.
Definition ERANGE : Z := 34.

Definition EXIT_SUCCESS : Z := 0.
Definition EXIT_FAILURE : Z := 1.

(** [unsigned long] is 64 bits wide and [int] 32 bits wide (LP64). *)
Definition ULONG_BITS : Z := 64.
Definition INT_BITS : Z := 32.
Definition ULONG_MAX : Z := 2 ^ ULONG_BITS - 1.
Definition INT_MAX : Z := 2 ^ (INT_BITS - 1) - 1.

(** The conversion [(int) r] of an [unsigned long]: reduction modulo
    [2^32], read as a two's complement number. *)
Definition int_of_ulong (r : Z) : Z :=
  let m := r mod 2 ^ INT_BITS in
  if m <? 2 ^ (INT_BITS - 1) then m else m - 2 ^ INT_BITS.

(** special.h *)
Definition SPECIAL_SWAP_TARGET := "swap.target".
Definition SPECIAL_INITRD_FS_TARGET := "initrd-fs.target".
Definition SPECIAL_INITRD_ROOT_FS_TARGET := "initrd-root-fs.target".
Definition SPECIAL_REMOTE_FS_TARGET := "remote-fs.target".
Definition SPECIAL_LOCAL_FS_TARGET := "local-fs.target".

(** ** C string helpers *)

Definition streq (a b : string) : bool := String.eqb a b.

Definition streq_ptr (a b : option string) : bool :=
  match a, b with
  | Some x, Some y => streq x y
  | None, None => true
  | _, _ => false
  end.

Definition isempty (s : option string) : bool :=
  match s with
  | None => true
  | Some x => streq x ""
  end.

(** [strna]: the string, or "n/a" for a null pointer. *)
Definition strna (s : option string) : string :=
  match s with
  | None => "n/a"
  | Some x => x
  end.

(** [*p] for a pointer into a string: the first character, or NUL at the
    end of the string. *)
Definition deref (s : string) : ascii :=
  match s with
  | EmptyString => zero
  | String c _ => c
  end.

(** [p + 1] for a pointer that is not at the terminating NUL. *)
Definition advance (s : string) : string :=
  match s with
  | EmptyString => EmptyString
  | String _ r => r
  end.

Fixpoint advance_by (n : nat) (s : string) : string :=
  match n with
  | O => s
  | S k => advance_by k (advance s)
  end.

(** [startswith s prefix]: the rest of [s] after [prefix], if any. *)
Fixpoint startswith (s p : string) {struct p} : option string :=
  match p with
  | EmptyString => Some s
  | String c p' =>
      match s with
      | EmptyString => None
      | String d s' => if Ascii.eqb c d then startswith s' p' else None
      end
  end.

(** [strjoin(a, b, ..., NULL)]: the arguments are concatenated up to the
    first null pointer. *)
Fixpoint strjoin (l : list (option string)) : string :=
  match l with
  | Some x :: r => x ++ strjoin r
  | _ => ""
  end.

Definition yes_no (b : bool) : string := if b then "yes" else "no".

(** ** The C library: mntent and strtoul *)

Record mntent := {
  mnt_fsname : string;
  mnt_dir : string;
  mnt_type : string;
  mnt_opts : string;
  mnt_freq : Z;
  mnt_passno : Z
}.

(** Does the option [opt] start here, ended by NUL, '=' or ','? *)
Definition opt_here (opt s : string) : bool :=
  match startswith s opt with
  | Some r =>
      match r with
      | EmptyString => true
      | String c _ => Ascii.eqb c "=" || Ascii.eqb c ","
      end
  | None => false
  end.

(** [hasmntopt] of the C library, for an option name without a comma:
    the options are separated by commas, and the result points at the
    first one that is [opt] or [opt=...]; here the result is the rest of
    [mnt_opts] from that option on, [None] for the null pointer.
    [at_start] says that [s] begins an option. *)
Fixpoint hasmntopt_scan (opt : string) (at_start : bool) (s : string)
  : option string :=
  if at_start && opt_here opt s then Some s
  else
    match s with
    | EmptyString => None
    | String c r => hasmntopt_scan opt (Ascii.eqb c ",") r
    end.

Definition hasmntopt (me : mntent) (opt : string) : option string :=
  hasmntopt_scan opt true (mnt_opts me).

Definition has_opt (me : mntent) (opt : string) : bool :=
  match hasmntopt me opt with
  | Some _ => true
  | None => false
  end.

Definition isspace (c : ascii) : bool :=
  let n := nat_of_ascii c in
  (Nat.eqb n 32 || (Nat.leb 9 n && Nat.leb n 13))%bool.

Definition digit_value (c : ascii) : option Z :=
  let n := nat_of_ascii c in
  if (Nat.leb 48 n && Nat.leb n 57)%bool
  then Some (Z.of_nat n - 48) else None.

Fixpoint skip_spaces (s : string) : string :=
  match s with
  | String c r => if isspace c then skip_spaces r else s
  | EmptyString => s
  end.

(** The longest run of decimal digits at the head of [s]: its value on
    top of [acc], and the rest of the string. *)
Fixpoint scan_digits (acc : Z) (s : string) : Z * string :=
  match s with
  | String c r =>
      match digit_value c with
      | Some d => scan_digits (10 * acc + d) r
      | None => (acc, s)
      end
  | EmptyString => (acc, s)
  end.

(** [strtoul(nptr, &end, 10)] called with [errno = 0]: the value, the
    end pointer and the resulting [errno].  White space is skipped, one
    sign is accepted, a negative number is negated in [unsigned long]
    arithmetic, and a magnitude above [ULONG_MAX] gives [ULONG_MAX] with
    [ERANGE].  Without any digit the end pointer is [nptr] itself. *)
Definition strtoul (nptr : string) : Z * string * Z :=
  let s := skip_spaces nptr in
  let '(neg, s1) :=
    match s with
    | String c r =>
        if Ascii.eqb c "-" then (true, r)
        else if Ascii.eqb c "+" then (false, r)
        else (false, s)
    | EmptyString => (false, s)
    end in
  match digit_value (deref s1) with
  | None => (0, nptr, 0)
  | Some _ =>
      let '(v, rest) := scan_digits 0 s1 in
      if v >? ULONG_MAX then (ULONG_MAX, rest, ERANGE)
      else ((if neg then (- v) mod 2 ^ ULONG_BITS else v), rest, 0)
  end.

(** ** mount_find_pri (lines 50-75)

    [ret] is the value [*ret] holds on entry; the result is the return
    value and the value of [*ret] afterwards.  The two end pointers
    compared in line 70 point into the same string, so they are equal
    exactly when the two suffixes are. *)
Definition mount_find_pri (me : mntent) (ret : Z) : Z * Z :=
  match hasmntopt me "pri" with
  | None => (0, ret)
  | Some opt =>
      let opt := advance_by (String.length "pri") opt in
      if negb (Ascii.eqb (deref opt) "=") then (- EINVAL, ret)
      else
        let '(r, end_, errno) := strtoul (advance opt) in
        if errno >? 0 then (- errno, ret)
        else if String.eqb end_ (advance opt)
                || (negb (Ascii.eqb (deref end_) ",")
                    && negb (Ascii.eqb (deref end_) zero))
        then (- EINVAL, ret)
        else (1, int_of_ulong r)
  end.

(** ** The environment

    Functions and oracles the generator calls that are declared in the
    headers it includes (util.h, path-util.h, unit-name.h, mount-setup.h,
    virt.h, generator.h) but defined elsewhere, and the inputs it reads.
    They are parameters of the development.  The two [generator_write_*]
    helpers are taken with the part of their effect the generator itself
    uses: their return value, the lines [generator_write_fsck_deps]
    prints into the unit file and the filtered options
    [generator_write_timeouts] hands back. *)
Class Env := {
  detect_container : Z;
  in_initrd : bool;
  fstab_node_to_udev_node : string -> string;
  is_device_path : string -> bool;
  is_path : string -> bool;
  path_is_absolute : string -> bool;
  path_kill_slashes : string -> string;
  path_equal : string -> string -> bool;
  mount_point_is_api : string -> bool;
  mount_point_ignore : string -> bool;
  fstype_is_network : string -> bool;
  unit_name_from_path : string -> string -> string;
  mount_test_option : string -> string -> bool;
  parse_boolean : string -> Z;
  generator_write_fsck_deps :
    string -> string -> string -> option string -> Z * list string;
  generator_write_timeouts :
    string -> string -> string -> string -> Z * option string;
  (** [setmntent] and the entries [getmntent] then yields, or the errno
      of a failed open *)
  setmntent : string -> Z + list mntent;
  (** the words of the kernel command line, split at the first '=' *)
  proc_cmdline : list (string * option string)
}.

Definition ENOENT : Z := 2.

(** ** Program state *)

(** The [arg_*] variables of lines 40-48. *)
Record globals := {
  arg_dest : string;
  arg_fstab_enabled : bool;
  arg_root_what : option string;
  arg_root_fstype : option string;
  arg_root_options : option string;
  arg_root_rw : Z;
  arg_usr_what : option string;
  arg_usr_fstype : option string;
  arg_usr_options : option string
}.

Definition initial_globals : globals :=
  {| arg_dest := "/tmp"; arg_fstab_enabled := true;
     arg_root_what := None; arg_root_fstype := None;
     arg_root_options := None; arg_root_rw := -1;
     arg_usr_what := None; arg_usr_fstype := None;
     arg_usr_options := None |}.

Definition set_dest (v : string) (g : globals) : globals :=
  {| arg_dest := v; arg_fstab_enabled := arg_fstab_enabled g;
     arg_root_what := arg_root_what g; arg_root_fstype := arg_root_fstype g;
     arg_root_options := arg_root_options g; arg_root_rw := arg_root_rw g;
     arg_usr_what := arg_usr_what g; arg_usr_fstype := arg_usr_fstype g;
     arg_usr_options := arg_usr_options g |}.

Definition set_fstab_enabled (v : bool) (g : globals) : globals :=
  {| arg_dest := arg_dest g; arg_fstab_enabled := v;
     arg_root_what := arg_root_what g; arg_root_fstype := arg_root_fstype g;
     arg_root_options := arg_root_options g; arg_root_rw := arg_root_rw g;
     arg_usr_what := arg_usr_what g; arg_usr_fstype := arg_usr_fstype g;
     arg_usr_options := arg_usr_options g |}.

Definition set_root_what (v : option string) (g : globals) : globals :=
  {| arg_dest := arg_dest g; arg_fstab_enabled := arg_fstab_enabled g;
     arg_root_what := v; arg_root_fstype := arg_root_fstype g;
     arg_root_options := arg_root_options g; arg_root_rw := arg_root_rw g;
     arg_usr_what := arg_usr_what g; arg_usr_fstype := arg_usr_fstype g;
     arg_usr_options := arg_usr_options g |}.

Definition set_root_fstype (v : option string) (g : globals) : globals :=
  {| arg_dest := arg_dest g; arg_fstab_enabled := arg_fstab_enabled g;
     arg_root_what := arg_root_what g; arg_root_fstype := v;
     arg_root_options := arg_root_options g; arg_root_rw := arg_root_rw g;
     arg_usr_what := arg_usr_what g; arg_usr_fstype := arg_usr_fstype g;
     arg_usr_options := arg_usr_options g |}.

Definition set_root_options (v : option string) (g : globals) : globals :=
  {| arg_dest := arg_dest g; arg_fstab_enabled := arg_fstab_enabled g;
     arg_root_what := arg_root_what g; arg_root_fstype := arg_root_fstype g;
     arg_root_options := v; arg_root_rw := arg_root_rw g;
     arg_usr_what := arg_usr_what g; arg_usr_fstype := arg_usr_fstype g;
     arg_usr_options := arg_usr_options g |}.

Definition set_root_rw (v : Z) (g : globals) : globals :=
  {| arg_dest := arg_dest g; arg_fstab_enabled := arg_fstab_enabled g;
     arg_root_what := arg_root_what g; arg_root_fstype := arg_root_fstype g;
     arg_root_options := arg_root_options g; arg_root_rw := v;
     arg_usr_what := arg_usr_what g; arg_usr_fstype := arg_usr_fstype g;
     arg_usr_options := arg_usr_options g |}.

Definition set_usr_what (v : option string) (g : globals) : globals :=
  {| arg_dest := arg_dest g; arg_fstab_enabled := arg_fstab_enabled g;
     arg_root_what := arg_root_what g; arg_root_fstype := arg_root_fstype g;
     arg_root_options := arg_root_options g; arg_root_rw := arg_root_rw g;
     arg_usr_what := v; arg_usr_fstype := arg_usr_fstype g;
     arg_usr_options := arg_usr_options g |}.

Definition set_usr_fstype (v : option string) (g : globals) : globals :=
  {| arg_dest := arg_dest g; arg_fstab_enabled := arg_fstab_enabled g;
     arg_root_what := arg_root_what g; arg_root_fstype := arg_root_fstype g;
     arg_root_options := arg_root_options g; arg_root_rw := arg_root_rw g;
     arg_usr_what := arg_usr_what g; arg_usr_fstype := v;
     arg_usr_options := arg_usr_options g |}.

Definition set_usr_options (v : option string) (g : globals) : globals :=
  {| arg_dest := arg_dest g; arg_fstab_enabled := arg_fstab_enabled g;
     arg_root_what := arg_root_what g; arg_root_fstype := arg_root_fstype g;
     arg_root_options := arg_root_options g; arg_root_rw := arg_root_rw g;
     arg_usr_what := arg_usr_what g; arg_usr_fstype := arg_usr_fstype g;
     arg_usr_options := v |}.

Inductive log_level := LOG_ERR | LOG_WARNING | LOG_INFO | LOG_DEBUG.

(** What the generator leaves behind: the files it created, each with
    the lines printed into it so far, the symbolic links (link path,
    then target) in the order of their creation, and the log.  Memory
    allocation and the writes to an open file ([fflush], [ferror]) are
    taken to succeed; creating a file or a link fails when the path is
    taken. *)
Record world := {
  files : list (string * list string);
  links : list (string * string);
  log : list (log_level * string)
}.

Definition empty_world : world := {| files := []; links := []; log := [] |}.

Definition log_msg (l : log_level) (m : string) (w : world) : world :=
  {| files := files w; links := links w; log := log w ++ [(l, m)] |}.

Definition log_error := log_msg LOG_ERR.
Definition log_warning := log_msg LOG_WARNING.
Definition log_info := log_msg LOG_INFO.
Definition log_debug := log_msg LOG_DEBUG.

Definition path_exists (w : world) (p : string) : bool :=
  existsb (String.eqb p) (map fst (files w) ++ map fst (links w)).

(** [fopen(path, "wxe")]: exclusive creation.  The only failure the
    model knows is [EEXIST]; [None] stands for it. *)
Definition fopen_wx (path : string) (w : world) : option world :=
  if path_exists w path then None
  else Some {| files := files w ++ [(path, [])];
               links := links w; log := log w |}.

(** [fprintf] to the stream opened on [path]. *)
Definition fprintf (path : string) (lines : list string) (w : world) : world :=
  {| files := map (fun e => if String.eqb (fst e) path
                            then (fst e, (snd e ++ lines)%list) else e) (files w);
     links := links w; log := log w |}.

(** [symlink(target, lnk)]; again [None] stands for [EEXIST].
    [mkdir_parents_label] before it only creates directories, which the
    model does not keep. *)
Definition symlink (target lnk : string) (w : world) : option world :=
  if path_exists w lnk then None
  else Some {| files := files w; links := links w ++ [(lnk, target)];
               log := log w |}.

(** [%i] *)
Definition fmt_int (z : Z) : string := NilZero.string_of_int (Z.to_int z).

Definition is_null (s : option string) : bool :=
  match s with
  | None => true
  | Some _ => false
  end.

Definition generated_header : string :=
  "# Automatically generated by systemd-fstab-generator".

Definition documentation_line : string :=
  "Documentation=man:fstab(5) man:systemd-fstab-generator(8)".

Section Generator.

Context {E : Env}.

(** ** add_swap (lines 77-160) *)
Definition add_swap (g : globals) (what : string) (me : mntent)
    (noauto nofail : bool) (w : world) : Z * world :=
  if detect_container >? 0 then
    (0, log_info ("Running in a container, ignoring fstab swap entry for "
                  ++ what ++ ".") w)
  else
    let '(r, pri) := mount_find_pri me (-1) in
    if r <? 0 then (r, log_error "Failed to parse priority" w)
    else
      let name := unit_name_from_path what ".swap" in
      let unit := strjoin [Some (arg_dest g); Some "/"; Some name] in
      match fopen_wx unit w with
      | None =>
          (- EEXIST,
           log_error ("Failed to create swap unit file " ++ unit
                      ++ ", as it already exists. Duplicate entry in /etc/fstab?") w)
      | Some w =>
          let w := fprintf unit
                     [generated_header; ""; "[Unit]";
                      "SourcePath=/etc/fstab"; documentation_line; "";
                      "[Swap]"; "What=" ++ what] w in
          let w := if pri >=? 0
                   then fprintf unit ["Priority=" ++ fmt_int pri] w else w in
          let w := if negb (isempty (Some (mnt_opts me)))
                      && negb (streq (mnt_opts me) "defaults")
                   then fprintf unit ["Options=" ++ mnt_opts me] w else w in
          let '(r, _) :=
            generator_write_timeouts (arg_dest g) what what (mnt_opts me) in
          if r <? 0 then (r, w)
          else if negb noauto then
            let lnk := strjoin [Some (arg_dest g);
                                Some ("/" ++ SPECIAL_SWAP_TARGET);
                                Some (if nofail then ".wants/" else ".requires/");
                                Some name] in
            match symlink unit lnk w with
            | None =>
                (- EEXIST, log_error ("Failed to create symlink " ++ lnk) w)
            | Some w => (0, w)
            end
          else (0, w)
      end.

(** ** mount_is_network, mount_in_initrd (lines 162-176) *)
Definition mount_is_network (me : mntent) : bool :=
  has_opt me "_netdev" || fstype_is_network (mnt_type me).

Definition mount_in_initrd (me : mntent) : bool :=
  has_opt me "x-initrd.mount" || streq (mnt_dir me) "/usr".

(** ** add_mount (lines 178-342) *)
Definition add_mount (g : globals) (what where_ : string)
    (fstype : option string) (opts : string) (passno : Z)
    (noauto nofail automount : bool) (post : option string)
    (source : string) (w : world) : Z * world :=
  if streq_ptr fstype (Some "autofs") then (0, w)
  else if negb (is_path where_) then
    (0, log_warning ("Mount point " ++ where_
                     ++ " is not a valid path, ignoring.") w)
  else if mount_point_is_api where_ || mount_point_ignore where_ then (0, w)
  else
    (* The root disk is not an option *)
    let '(automount, noauto, nofail) :=
      if path_equal where_ "/" then (false, false, false)
      else (automount, noauto, nofail) in
    let name := unit_name_from_path where_ ".mount" in
    let unit := strjoin [Some (arg_dest g); Some "/"; Some name] in
    match fopen_wx unit w with
    | None =>
        (- EEXIST,
         log_error ("Failed to create mount unit file " ++ unit
                    ++ ", as it already exists. Duplicate entry in /etc/fstab?") w)
    | Some w =>
        let w := fprintf unit
                   [generated_header; ""; "[Unit]";
                    "SourcePath=" ++ source; documentation_line] w in
        let w := match post with
                 | Some p =>
                     if negb noauto && negb nofail && negb automount
                     then fprintf unit ["Before=" ++ p] w else w
                 | None => w
                 end in
        let '(r, fsck) :=
          if negb (passno =? 0)
          then generator_write_fsck_deps (arg_dest g) what where_ fstype
          else (0, []) in
        let w := fprintf unit fsck w in
        if r <? 0 then (r, w)
        else
          let w := fprintf unit
                     [""; "[Mount]"; "What=" ++ what; "Where=" ++ where_] w in
          let w := if negb (isempty fstype)
                      && negb (streq_ptr fstype (Some "auto"))
                   then fprintf unit ["Type=" ++ strna fstype] w else w in
          let '(r, filtered) :=
            generator_write_timeouts (arg_dest g) what where_ opts in
          if r <? 0 then (r, w)
          else
            let w := if negb (isempty filtered)
                        && negb (streq_ptr filtered (Some "defaults"))
                     then fprintf unit ["Options=" ++ strna filtered] w
                     else w in
            let lnk := strjoin [Some (arg_dest g); Some "/"; post;
                                Some (if nofail || automount
                                      then ".wants/" else ".requires/");
                                Some name] in
            match (if negb noauto && negb (is_null post)
                   then symlink unit lnk w else Some w) with
            | None =>
                (- EEXIST, log_error ("Failed to create symlink " ++ lnk) w)
            | Some w =>
                if automount then
                  let automount_name :=
                    unit_name_from_path where_ ".automount" in
                  let automount_unit :=
                    strjoin [Some (arg_dest g); Some "/";
                             Some automount_name] in
                  match fopen_wx automount_unit w with
                  | None =>
                      (- EEXIST,
                       log_error ("Failed to create unit file "
                                  ++ automount_unit) w)
                  | Some w =>
                      let w := fprintf automount_unit
                                 [generated_header; ""; "[Unit]";
                                  "SourcePath=" ++ source;
                                  documentation_line] w in
                      let w := match post with
                               | Some p =>
                                   fprintf automount_unit ["Before=" ++ p] w
                               | None => w
                               end in
                      let w := fprintf automount_unit
                                 ["[Automount]"; "Where=" ++ where_] w in
                      let lnk := strjoin [Some (arg_dest g); Some "/"; post;
                                          Some (if nofail
                                                then ".wants/"
                                                else ".requires/");
                                          Some automount_name] in
                      match symlink automount_unit lnk w with
                      | None =>
                          (- EEXIST,
                           log_error ("Failed to create symlink " ++ lnk) w)
                      | Some w => (0, w)
                      end
                  end
                else (0, w)
            end
    end.

(** ** parse_fstab (lines 344-426) *)

(** The mount point handed on (lines 377-382). *)
Definition fstab_where (initrd : bool) (me : mntent) : string :=
  let where_ := if initrd then "/sysroot/" ++ mnt_dir me else mnt_dir me in
  if is_path where_ then path_kill_slashes where_ else where_.

(** The ordering target (lines 400-407). *)
Definition fstab_post (initrd : bool) (me : mntent) : string :=
  if initrd then SPECIAL_INITRD_FS_TARGET
  else if mount_in_initrd me then SPECIAL_INITRD_ROOT_FS_TARGET
  else if mount_is_network me then SPECIAL_REMOTE_FS_TARGET
  else SPECIAL_LOCAL_FS_TARGET.

(** One turn of the loop of lines 360-423: the value of [k], where an
    entry left by [continue] counts as 0 since it leaves [r] alone. *)
Definition parse_fstab_entry (g : globals) (initrd : bool)
    (fstab_path : string) (me : mntent) (w : world) : Z * world :=
  if initrd && negb (mount_in_initrd me) then (0, w)
  else
    let what := fstab_node_to_udev_node (mnt_fsname me) in
    if (detect_container >? 0) && is_device_path what then
      (0, log_info ("Running in a container, ignoring fstab device entry for "
                    ++ what ++ ".") w)
    else
      let where_ := fstab_where initrd me in
      let noauto := has_opt me "noauto" in
      let nofail := has_opt me "nofail" in
      let w := log_debug ("Found entry what=" ++ what ++ " where=" ++ where_
                          ++ " type=" ++ mnt_type me
                          ++ " nofail=" ++ yes_no noauto
                          ++ " noauto=" ++ yes_no nofail) w in
      if streq (mnt_type me) "swap" then add_swap g what me noauto nofail w
      else
        let automount :=
          has_opt me "comment=systemd.automount"
          || has_opt me "x-systemd.automount" in
        let post := fstab_post initrd me in
        add_mount g what where_ (Some (mnt_type me)) (mnt_opts me)
          (mnt_passno me) noauto nofail automount (Some post) fstab_path w.

Fixpoint parse_fstab_loop (g : globals) (initrd : bool) (fstab_path : string)
    (entries : list mntent) (r : Z) (w : world) : Z * world :=
  match entries with
  | [] => (r, w)
  | me :: rest =>
      let '(k, w) := parse_fstab_entry g initrd fstab_path me w in
      parse_fstab_loop g initrd fstab_path rest (if k <? 0 then k else r) w
  end.

Definition parse_fstab (g : globals) (initrd : bool) (w : world) : Z * world :=
  let fstab_path := if initrd then "/sysroot/etc/fstab" else "/etc/fstab" in
  match setmntent fstab_path with
  | inl errno =>
      if errno =? ENOENT then (0, w)
      else (- errno, log_error ("Failed to open " ++ fstab_path) w)
  | inr entries => parse_fstab_loop g initrd fstab_path entries 0 w
  end.

(** ** add_root_mount (lines 428-463) *)
Definition add_root_mount (g : globals) (w : world) : Z * world :=
  match arg_root_what g with
  | None =>
      (0, log_debug "Could not find a root= entry on the kernel command line." w)
  | Some root_what =>
      if streq root_what "" then
        (0, log_debug "Could not find a root= entry on the kernel command line." w)
      else
        let what := fstab_node_to_udev_node root_what in
        if negb (path_is_absolute what) then
          (0, log_debug ("Skipping entry what=" ++ what
                         ++ " where=/sysroot type="
                         ++ strna (arg_root_fstype g)) w)
        else
          let rw := if arg_root_rw g >? 0 then "rw" else "ro" in
          let opts :=
            match arg_root_options g with
            | None => rw
            | Some o =>
                if (arg_root_rw g >=? 0)
                   || (negb (mount_test_option o "ro")
                       && negb (mount_test_option o "rw"))
                then o ++ "," ++ rw
                else o
            end in
          let w := log_debug ("Found entry what=" ++ what
                              ++ " where=/sysroot type="
                              ++ strna (arg_root_fstype g)) w in
          add_mount g what "/sysroot" (arg_root_fstype g) opts 1
            false false false (Some SPECIAL_INITRD_ROOT_FS_TARGET)
            "/proc/cmdline" w
  end.

(** ** add_usr_mount (lines 465-515) *)
Definition add_usr_mount (g : globals) (w : world) : Z * globals * world :=
  if is_null (arg_usr_what g) && is_null (arg_usr_fstype g)
     && is_null (arg_usr_options g)
  then (0, g, w)
  else
    let g := if negb (is_null (arg_root_what g)) && is_null (arg_usr_what g)
             then set_usr_what (arg_root_what g) g else g in
    let g := if negb (is_null (arg_root_fstype g)) && is_null (arg_usr_fstype g)
             then set_usr_fstype (arg_root_fstype g) g else g in
    let g := if negb (is_null (arg_root_options g))
                && is_null (arg_usr_options g)
             then set_usr_options (arg_root_options g) g else g in
    match arg_usr_what g, arg_usr_options g with
    | Some usr_what, Some usr_options =>
        let what := fstab_node_to_udev_node usr_what in
        if negb (path_is_absolute what) then
          (-1, g, log_debug ("Skipping entry what=" ++ what
                             ++ " where=/sysroot/usr type="
                             ++ strna (arg_usr_fstype g)) w)
        else
          let opts := usr_options in
          let w := log_debug ("Found entry what=" ++ what
                              ++ " where=/sysroot/usr type="
                              ++ strna (arg_usr_fstype g)) w in
          let '(r, w) :=
            add_mount g what "/sysroot/usr" (arg_usr_fstype g) opts 1
              false false false (Some SPECIAL_INITRD_ROOT_FS_TARGET)
              "/proc/cmdline" w in
          (r, g, w)
    | _, _ => (0, g, w)
    end.

(** ** parse_proc_cmdline_item (lines 517-582)

    Every branch of the chain tests whether [value] is null, so the
    chain is split on that first; the order of the keys is kept. *)
Definition parse_proc_cmdline_item (key : string) (value : option string)
    (g : globals) (w : world) : Z * globals * world :=
  match value with
  | Some v =>
      if streq key "fstab" || streq key "rd.fstab" then
        let r := parse_boolean v in
        if r <? 0 then
          (0, g, log_warning ("Failed to parse fstab switch " ++ v
                              ++ ". Ignoring.") w)
        else (0, set_fstab_enabled (negb (r =? 0)) g, w)
      else if streq key "root" then (0, set_root_what (Some v) g, w)
      else if streq key "rootfstype" then (0, set_root_fstype (Some v) g, w)
      else if streq key "rootflags" then
        let o := match arg_root_options g with
                 | Some old => strjoin [Some old; Some ","; Some v]
                 | None => v
                 end in
        (0, set_root_options (Some o) g, w)
      else if streq key "mount.usr" then (0, set_usr_what (Some v) g, w)
      else if streq key "mount.usrfstype" then
        (0, set_usr_fstype (Some v) g, w)
      else if streq key "mount.usrflags" then
        let o := match arg_usr_options g with
                 | Some old => strjoin [Some old; Some ","; Some v]
                 | None => v
                 end in
        (0, set_usr_options (Some o) g, w)
      else (0, g, w)
  | None =>
      if streq key "rw" then (0, set_root_rw 1 g, w)
      else if streq key "ro" then (0, set_root_rw 0 g, w)
      else (0, g, w)
  end.

(** Modelled from the spec: [parse_proc_cmdline] of util.c is missing;
    it is the reader of "an ordered list of boot parameters, each either
    a bare flag or a key=value pair", which the collector "processes
    once", in order.  It stops at the first parameter the callback
    fails on. *)
Fixpoint parse_proc_cmdline_from (items : list (string * option string))
    (g : globals) (w : world) : Z * globals * world :=
  match items with
  | [] => (0, g, w)
  | (key, value) :: rest =>
      let '(r, g, w) := parse_proc_cmdline_item key value g w in
      if r <? 0 then (r, g, w) else parse_proc_cmdline_from rest g w
  end.

Definition parse_proc_cmdline (g : globals) (w : world)
  : Z * globals * world :=
  parse_proc_cmdline_from proc_cmdline g w.

(** ** main (lines 584-636)

    The boot-override pass of lines 606-610. *)
Definition add_boot_mounts (g : globals) (w : world) : Z * globals * world :=
  let '(r, w) := add_root_mount g w in
  if r =? 0 then add_usr_mount g w else (r, g, w).

Definition main (argv : list string) (w : world) : Z * globals * world :=
  let argc := Z.of_nat (length argv) in
  let g := initial_globals in
  if (argc >? 1) && negb (argc =? 4) then
    (EXIT_FAILURE, g,
     log_error "This program takes three or no arguments." w)
  else
    let g := if argc >? 1 then set_dest (nth 1 argv "") g else g in
    let '(r, g, w) := parse_proc_cmdline g w in
    let w := if r <? 0
             then log_warning "Failed to parse kernel command line, ignoring" w
             else w in
    (* Always honour root= and usr= in the kernel command line if we are
       in an initrd *)
    let '(r, g, w) := if in_initrd then add_boot_mounts g w else (r, g, w) in
    (* Honour /etc/fstab only when that's enabled *)
    let '(r, w) :=
      if arg_fstab_enabled g then
        let w := log_debug "Parsing /etc/fstab" w in
        let '(k, w) := parse_fstab g false w in
        let r := if k <? 0 then k else r in
        if in_initrd then
          let w := log_debug "Parsing /sysroot/etc/fstab" w in
          let '(k, w) := parse_fstab g true w in
          ((if k <? 0 then k else r), w)
        else (r, w)
      else (r, w) in
    ((if r <? 0 then EXIT_FAILURE else EXIT_SUCCESS), g, w).

End Generator.

(** ** A reference environment

    One environment to run the generator in: the helpers behave as
    systemd's own do on plain inputs (absolute paths, device nodes,
    comma-separated option lists).  It is a parameter of no theorem; the
    general statements hold in every environment, and the examples are
    evaluated in this one. *)
Module Reference.

Fixpoint contains_slash (s : string) : bool :=
  match s with
  | EmptyString => false
  | String c r => Ascii.eqb c "/" || contains_slash r
  end.

(** The components of a path: the non-empty pieces between slashes.
    [cur] is the component being read, in reverse. *)
Fixpoint components_from (cur : string) (s : string) : list string :=
  match s with
  | EmptyString => if String.eqb cur "" then [] else [cur]
  | String c r =>
      if Ascii.eqb c "/" then
        if String.eqb cur "" then components_from "" r
        else cur :: components_from "" r
      else components_from (cur ++ String c "") r
  end.

Definition components (s : string) : list string := components_from "" s.

Definition absolute (s : string) : bool := Ascii.eqb (deref s) "/".

(** ///foo///bar/ becomes /foo/bar; the root directory keeps its slash *)
Definition kill_slashes (s : string) : string :=
  match components s with
  | [] => if contains_slash s then "/" else ""
  | c :: cs =>
      (if absolute s then "/" else "")
      ++ fold_left (fun acc x => acc ++ "/" ++ x) cs c
  end.

Definition same_path (a b : string) : bool :=
  Bool.eqb (absolute a) (absolute b)
  && if list_eq_dec string_dec (components a) (components b)
     then true else false.

Definition device_path (s : string) : bool :=
  negb (is_null (startswith s "/dev/"))
  || negb (is_null (startswith s "/sys/")).

Definition api_mount_points : list string :=
  ["/sys"; "/proc"; "/dev"; "/sys/kernel/security"; "/dev/shm"; "/dev/pts";
   "/run"; "/sys/fs/cgroup"; "/sys/fs/pstore"].

Definition ignored_mount_points : list string :=
  ["/sys/fs/selinux"; "/selinux"; "/proc/bus/usb"].

Definition network_fstypes : list string :=
  ["cifs"; "smbfs"; "sshfs"; "ncpfs"; "ncp"; "nfs"; "nfs4"; "gfs"; "gfs2";
   "glusterfs"].

Definition hex_digit (n : nat) : ascii :=
  if Nat.ltb n 10 then ascii_of_nat (48 + n) else ascii_of_nat (87 + n).

Definition valid_unit_char (c : ascii) : bool :=
  let n := nat_of_ascii c in
  ((Nat.leb 48 n && Nat.leb n 57) || (Nat.leb 65 n && Nat.leb n 90)
   || (Nat.leb 97 n && Nat.leb n 122)
   || Ascii.eqb c ":" || Ascii.eqb c "_" || Ascii.eqb c ".")%bool.

Fixpoint name_escape (s : string) : string :=
  match s with
  | EmptyString => EmptyString
  | String c r =>
      if Ascii.eqb c "/" then String "-" (name_escape r)
      else if valid_unit_char c then String c (name_escape r)
      else
        let n := nat_of_ascii c in
        String "\" (String "x" (String (hex_digit (Nat.div n 16))
          (String (hex_digit (Nat.modulo n 16)) (name_escape r))))
  end.

Definition name_from_path (path suffix : string) : string :=
  let p := kill_slashes path in
  (if String.eqb p "/" || String.eqb p "" then "-"
   else name_escape (if absolute p then advance p else p)) ++ suffix.

Definition tagged_node (s : string) : string :=
  match startswith s "LABEL=" with
  | Some l => "/dev/disk/by-label/" ++ l
  | None =>
      match startswith s "UUID=" with
      | Some u => "/dev/disk/by-uuid/" ++ u
      | None => s
      end
  end.

Definition test_option (opts name : string) : bool :=
  match hasmntopt_scan name true opts with
  | Some _ => true
  | None => false
  end.

Definition boolean (v : string) : Z :=
  if existsb (String.eqb v) ["1"; "yes"; "y"; "true"; "t"; "on"] then 1
  else if existsb (String.eqb v) ["0"; "no"; "n"; "false"; "f"; "off"] then 0
  else - EINVAL.

Definition fsck_deps (dest what where_ : string) (fstype : option string)
  : Z * list string :=
  if negb (device_path what) then (0, [])
  else if String.eqb where_ "/" then (0, [])
  else
    let fsck := "systemd-fsck@" ++ name_from_path what ".service" in
    (0, ["RequiresOverridable=" ++ fsck; "After=" ++ fsck]).

Definition timeouts (dest what where_ opts : string) : Z * option string :=
  (0, Some opts).

Definition env (container : Z) (initrd : bool)
    (fstab : string -> Z + list mntent)
    (cmdline : list (string * option string)) : Env :=
  {| detect_container := container;
     in_initrd := initrd;
     fstab_node_to_udev_node := tagged_node;
     is_device_path := device_path;
     is_path := contains_slash;
     path_is_absolute := absolute;
     path_kill_slashes := kill_slashes;
     path_equal := same_path;
     mount_point_is_api := fun p => existsb (same_path p) api_mount_points;
     mount_point_ignore := fun p => existsb (same_path p) ignored_mount_points;
     fstype_is_network := fun t => existsb (String.eqb t) network_fstypes;
     unit_name_from_path := name_from_path;
     mount_test_option := test_option;
     parse_boolean := boolean;
     generator_write_fsck_deps := fsck_deps;
     generator_write_timeouts := timeouts;
     setmntent := fstab;
     proc_cmdline := cmdline |}.

Definition no_fstab (path : string) : Z + list mntent := inl ENOENT.

(** An /etc/fstab with the given entries, and no /sysroot/etc/fstab. *)
Definition etc_fstab (entries : list mntent) (path : string)
  : Z + list mntent :=
  if String.eqb path "/etc/fstab" then inr entries else inl ENOENT.

(** The full system, outside a container. *)
Definition host (entries : list mntent) : Env :=
  env 0 false (etc_fstab entries) [].

(** The initrd, booted with the given command line. *)
Definition initrd (cmdline : list (string * option string)) : Env :=
  env 0 true no_fstab cmdline.

Definition entry (fsname dir type opts : string) (passno : Z) : mntent :=
  {| mnt_fsname := fsname; mnt_dir := dir; mnt_type := type;
     mnt_opts := opts; mnt_freq := 0; mnt_passno := passno |}.

End Reference.

(** ** Vocabulary of the properties *)

Definition is_digit (c : ascii) : bool :=
  match digit_value c with
  | Some _ => true
  | None => false
  end.

Fixpoint all_digits (s : string) : bool :=
  match s with
  | EmptyString => true
  | String c r => is_digit c && all_digits r
  end.

(** The number a string of decimal digits denotes. *)
Definition decimal (ds : string) : Z := fst (scan_digits 0 ds).

(** What may follow a complete option: the end of the string or the
    separator. *)
Definition ends_option (rest : string) : bool :=
  match rest with
  | EmptyString => true
  | String c _ => Ascii.eqb c ","
  end.

(** The options of an option string: the pieces between the commas. *)
Fixpoint option_tokens (s : string) : list string :=
  match s with
  | EmptyString => [""]
  | String c r =>
      if Ascii.eqb c "," then "" :: option_tokens r
      else
        match option_tokens r with
        | t :: ts => String c t :: ts
        | [] => [String c ""]
        end
  end.

(** Is [tok] the option [opt], bare or with a value? *)
Definition names_option (opt tok : string) : bool :=
  String.eqb tok opt || negb (is_null (startswith tok (opt ++ "="))).

Fixpoint no_comma (s : string) : bool :=
  match s with
  | EmptyString => true
  | String c r => negb (Ascii.eqb c ",") && no_comma r
  end.

(** A swap entry with the given option string. *)
Definition swap_entry (what opts : string) : mntent :=
  {| mnt_fsname := what; mnt_dir := "none"; mnt_type := "swap";
     mnt_opts := opts; mnt_freq := 0; mnt_passno := 0 |}.

(** Priority extraction as the specification words it for a well-formed
    option: [pri=<digits>] followed by a separator or the end yields the
    number the digits denote. *)
Definition priority_as_stated (ds rest : string) : Prop :=
  all_digits ds = true -> ds <> "" -> ends_option rest = true ->
  forall ret,
    mount_find_pri (swap_entry "/dev/sda2" ("pri=" ++ ds ++ rest)) ret
    = (1, decimal ds).

(** Does a line of a unit file set [Priority=]? *)
Definition is_priority_line (l : string) : bool :=
  negb (is_null (startswith l "Priority=")).

(** The lines of the file at [path], if the generator has created it. *)
Definition file_lines (w : world) (path : string) : option (list string) :=
  option_map snd (find (fun e => String.eqb (fst e) path) (files w)).

(** The path of a unit file in the destination directory. *)
Definition unit_path (dest name : string) : string := dest ++ "/" ++ name.

(** The path of an activation link: [weak] chooses [.wants/] over
    [.requires/]. *)
Definition link_path (dest target : string) (weak : bool) (name : string)
  : string :=
  dest ++ "/" ++ target ++ (if weak then ".wants/" else ".requires/") ++ name.

(** The activation links of one unit as the specification words them:
    none with no-auto-start, else one, weak if fail-ignored or automount
    is set. *)
Definition links_as_stated (dest target name unit : string)
    (no_auto_start fail_ignored automount : bool) : list (string * string) :=
  if no_auto_start then []
  else [(link_path dest target (fail_ignored || automount) name, unit)].

(** The links that point at [unit]. *)
Definition links_to (unit : string) (w : world) : list (string * string) :=
  filter (fun l => String.eqb (snd l) unit) (links w).

(** The first non-zero status of a list, 0 if there is none. *)
Fixpoint first_nonzero (ks : list Z) : Z :=
  match ks with
  | [] => 0
  | k :: rest => if k =? 0 then first_nonzero rest else k
  end.

(** The last negative status of a list, [r] if there is none. *)
Definition last_negative (r : Z) (ks : list Z) : Z :=
  fold_left (fun r k => if k <? 0 then k else r) ks r.

(** The rule of lines 472-491 for one field of the secondary volume. *)
Definition default_from (root usr : option string) : option string :=
  match usr with
  | None => root
  | Some _ => usr
  end.

(** Secondary-volume defaulting as the specification words it: with
    every secondary field unset, each takes the root field's value. *)
Definition usr_defaults_as_stated (g g' : globals) : Prop :=
  arg_usr_what g = None -> arg_usr_fstype g = None ->
  arg_usr_options g = None -> arg_root_what g <> None ->
  arg_usr_what g' = arg_root_what g
  /\ arg_usr_fstype g' = arg_root_fstype g
  /\ arg_usr_options g' = arg_root_options g.

(** The values given to [key] on the command line, in order. *)
Fixpoint values_of (key : string) (items : list (string * option string))
  : list string :=
  match items with
  | [] => []
  | (k, Some v) :: rest =>
      if String.eqb k key then v :: values_of key rest
      else values_of key rest
  | (_, None) :: rest => values_of key rest
  end.

(** The last of the values, [old] if there is none. *)
Definition last_of (old : option string) (vs : list string)
  : option string :=
  fold_left (fun _ v => Some v) vs old.

(** The values joined by commas on top of [acc]. *)
Definition join_flags (acc : option string) (vs : list string)
  : option string :=
  fold_left (fun a v => match a with
                        | Some old => Some (old ++ "," ++ v)
                        | None => Some v
                        end) vs acc.

(** The lines of a swap unit (lines 118-133) for a device, the priority
    [add_swap] holds and the option string. *)
Definition swap_unit_lines (what : string) (pri : Z) (opts : string)
  : list string :=
  [generated_header; ""; "[Unit]"; "SourcePath=/etc/fstab";
   documentation_line; ""; "[Swap]"; "What=" ++ what]
  ++ (if pri >=? 0 then ["Priority=" ++ fmt_int pri] else [])
  ++ (if negb (streq opts "") && negb (streq opts "defaults")
      then ["Options=" ++ opts] else []).

Section Traces.

Context {E : Env}.

(** The [arg_*] variables after the given boot parameters. *)
Definition collected (items : list (string * option string))
    (g : globals) (w : world) : globals :=
  snd (fst (parse_proc_cmdline_from items g w)).

(** The statuses [k] of the entries of one pass, each entry run in the
    world its predecessors left, and the world after the last. *)
Fixpoint entry_statuses (g : globals) (initrd : bool) (fstab_path : string)
    (entries : list mntent) (w : world) : list Z :=
  match entries with
  | [] => []
  | me :: rest =>
      let '(k, w) := parse_fstab_entry g initrd fstab_path me w in
      k :: entry_statuses g initrd fstab_path rest w
  end.

Definition entries_world (g : globals) (initrd : bool) (fstab_path : string)
    (entries : list mntent) (w : world) : world :=
  fold_left (fun w me => snd (parse_fstab_entry g initrd fstab_path me w))
    entries w.

(** The status of a pass as the specification words it: the first
    non-zero status among its entries. *)
Definition first_status_as_stated (g : globals) (initrd : bool)
    (fstab_path : string) (entries : list mntent) (w : world) : Prop :=
  fst (parse_fstab_loop g initrd fstab_path entries 0 w)
  = first_nonzero (entry_statuses g initrd fstab_path entries w).

(** The links of a unit as the specification words them, for a step
    from the empty world to [w']. *)
Definition unit_links_as_stated (w' : world) (dest target name unit : string)
    (no_auto_start fail_ignored automount : bool) : Prop :=
  links_to unit w'
  = links_as_stated dest target name unit no_auto_start fail_ignored automount.

(** Skipping a boot-override mount as the specification words it: no
    failure, nothing generated, and a message at warning level. *)
Definition skipped_with_warning (r : Z) (w w' : world) : Prop :=
  r = 0 /\ files w' = files w /\ links w' = links w
  /\ exists m, In (LOG_WARNING, m) (log w').

(** The root rule as the specification words it, read on the mount
    point of the entry itself: an entry for "/" is handed on with the
    three flags false. *)
Definition root_entry_as_stated (g : globals) (initrd : bool)
    (fstab_path : string) (me : mntent) (w : world) : Prop :=
  mnt_dir me = "/" -> mnt_type me <> "swap" ->
  exists w0,
    files w0 = files w /\ links w0 = links w
    /\ parse_fstab_entry g initrd fstab_path me w
       = add_mount g (fstab_node_to_udev_node (mnt_fsname me))
           (fstab_where initrd me) (Some (mnt_type me)) (mnt_opts me)
           (mnt_passno me) false false false
           (Some (fstab_post initrd me)) fstab_path w0.

End Traces.

(** ** Worlds compared *)

(** [w'] is [w] with files, links and messages added after the old
    ones: every new file and every new link is at a path that did not
    exist, and every new link points to a new file. *)
Definition grows (w w' : world) : Prop :=
  exists fa la lg,
    files w' = (files w ++ fa)%list
    /\ links w' = (links w ++ la)%list
    /\ log w' = (log w ++ lg)%list
    /\ (forall p, In p (map fst fa) -> path_exists w p = false)
    /\ (forall l t, In (l, t) la ->
                    path_exists w l = false /\ In t (map fst fa)).

(** Every path of [w] is a path of [w']. *)
Definition below (w w' : world) : Prop :=
  forall p, path_exists w p = true -> path_exists w' p = true.

(** The same files and links, whatever was logged. *)
Definition same_paths (w w' : world) : Prop :=
  files w' = files w /\ links w' = links w.

(** ** Entries and parameters read off *)

Section Readings.
Context {E : Env}.

(** The entries [parse_fstab] makes nothing of (lines 371-415, 96-99,
    202-213): not for the initrd in the initrd pass, a device or a swap
    in a container, or a mount that [add_mount] passes over. *)
Definition entry_ignored (initrd : bool) (me : mntent) : bool :=
  (initrd && negb (mount_in_initrd me))
  || ((detect_container >? 0)
      && (is_device_path (fstab_node_to_udev_node (mnt_fsname me))
          || streq (mnt_type me) "swap"))
  || (negb (streq (mnt_type me) "swap")
      && (streq (mnt_type me) "autofs"
          || negb (is_path (fstab_where initrd me))
          || mount_point_is_api (fstab_where initrd me)
          || mount_point_ignore (fstab_where initrd me))).

(** The switch of the mount table after the command line (lines
    524-532): the last [fstab=] or [rd.fstab=] with a boolean value. *)
Definition switch_after (old : bool) (items : list (string * option string))
  : bool :=
  fold_left (fun b kv =>
               match kv with
               | (k, Some v) =>
                   if String.eqb k "fstab" || String.eqb k "rd.fstab"
                   then if parse_boolean v <? 0 then b
                        else negb (parse_boolean v =? 0)
                   else b
               | (_, None) => b
               end) items old.
End Readings.

(** The root's write mode after the command line (lines 572-575): the
    last bare [rw] or [ro]. *)
Definition rw_after (old : Z) (items : list (string * option string)) : Z :=
  fold_left (fun z kv =>
               match kv with
               | (k, None) =>
                   if String.eqb k "rw" then 1
                   else if String.eqb k "ro" then 0 else z
               | (_, Some _) => z
               end) items old.

(** ** The text of mount units *)

(** The head of every generated unit (lines 106-110, 238-244,
    306-311). *)
Definition unit_header (source : string) : list string :=
  [generated_header; ""; "[Unit]"; "SourcePath=" ++ source;
   documentation_line].

Definition before_lines (required : bool) (post : string) : list string :=
  if required then ["Before=" ++ post] else [].

Definition mount_section (what where_ : string) : list string :=
  [""; "[Mount]"; "What=" ++ what; "Where=" ++ where_].

Definition type_lines (fstype : option string) : list string :=
  if negb (isempty fstype) && negb (streq_ptr fstype (Some "auto"))
  then ["Type=" ++ strna fstype] else [].

Definition options_lines (filtered : option string) : list string :=
  if negb (isempty filtered) && negb (streq_ptr filtered (Some "defaults"))
  then ["Options=" ++ strna filtered] else [].

(** The lines of a mount unit (lines 238-270), where [required] says
    that none of noauto, nofail and automount is in force, [fsck] is
    what [generator_write_fsck_deps] printed and [filtered] the options
    [generator_write_timeouts] handed back. *)
Definition mount_unit_lines (source : string) (required : bool)
    (post : string) (fsck : list string) (what where_ : string)
    (fstype filtered : option string) : list string :=
  (unit_header source ++ before_lines required post ++ fsck
   ++ mount_section what where_ ++ type_lines fstype
   ++ options_lines filtered)%list.

(** The lines of an automount unit (lines 306-321). *)
Definition automount_section (post where_ : string) : list string :=
  ["Before=" ++ post; "[Automount]"; "Where=" ++ where_].

Definition automount_unit_lines (source post where_ : string)
  : list string :=
  (unit_header source ++ automount_section post where_)%list.

(** * Properties *)

(** ** Characters and digit strings *)

Lemma is_digit_range (c : ascii) :
  is_digit c = true ->
  (48 <= nat_of_ascii c <= 57)%nat.
Proof.
  unfold is_digit, digit_value.
  destruct (Nat.leb 48 (nat_of_ascii c)) eqn:Hlo;
    destruct (Nat.leb (nat_of_ascii c) 57) eqn:Hhi;
    simpl; try discriminate.
  intros _. apply Nat.leb_le in Hlo. apply Nat.leb_le in Hhi.
  split; assumption.
Qed.

Lemma digit_not_space (c : ascii) : is_digit c = true -> isspace c = false.
Proof.
  intros H. apply is_digit_range in H. unfold isspace.
  destruct (Nat.eqb_spec (nat_of_ascii c) 32); [lia|].
  destruct (Nat.leb_spec 9 (nat_of_ascii c)); [|reflexivity].
  destruct (Nat.leb_spec (nat_of_ascii c) 13); [lia|reflexivity].
Qed.

Lemma digit_not_char (c d : ascii) :
  is_digit c = true -> is_digit d = false -> Ascii.eqb c d = false.
Proof.
  intros Hc Hd. destruct (Ascii.eqb_spec c d); [|reflexivity].
  subst. congruence.
Qed.

Lemma digit_value_bounds (c : ascii) (d : Z) :
  digit_value c = Some d -> 0 <= d <= 9.
Proof.
  unfold digit_value.
  destruct (Nat.leb 48 (nat_of_ascii c)) eqn:Hlo;
    destruct (Nat.leb (nat_of_ascii c) 57) eqn:Hhi;
    simpl; try discriminate.
  intros [= <-]. apply Nat.leb_le in Hlo. apply Nat.leb_le in Hhi. lia.
Qed.

Lemma scan_digits_nonneg (s : string) :
  forall acc, 0 <= acc -> 0 <= fst (scan_digits acc s).
Proof.
  induction s as [|c r IH]; intros acc Hacc; cbn [scan_digits fst];
    [exact Hacc|].
  destruct (digit_value c) as [d|] eqn:Hd; [|exact Hacc].
  apply IH. apply digit_value_bounds in Hd. lia.
Qed.

Lemma decimal_nonneg (ds : string) : 0 <= decimal ds.
Proof. apply scan_digits_nonneg. lia. Qed.

Lemma scan_digits_stop (rest : string) (acc : Z) :
  is_digit (deref rest) = false -> scan_digits acc rest = (acc, rest).
Proof.
  destruct rest as [|c r]; simpl; [reflexivity|].
  unfold is_digit. destruct (digit_value c); [discriminate|reflexivity].
Qed.

Lemma scan_digits_app (ds rest : string) :
  all_digits ds = true -> is_digit (deref rest) = false ->
  forall acc,
    scan_digits acc (ds ++ rest) = (fst (scan_digits acc ds), rest).
Proof.
  intros Hds Hrest. induction ds as [|c r IH]; intros acc.
  - simpl. apply scan_digits_stop. exact Hrest.
  - simpl in Hds. apply andb_true_iff in Hds as [Hc Hr].
    cbn [append scan_digits]. unfold is_digit in Hc.
    destruct (digit_value c) as [d|]; [|discriminate].
    apply IH. exact Hr.
Qed.

Lemma ends_option_not_digit (rest : string) :
  ends_option rest = true -> is_digit (deref rest) = false.
Proof.
  destruct rest as [|c r]; simpl; [reflexivity|].
  intros H. apply Ascii.eqb_eq in H. subst. reflexivity.
Qed.

Lemma ends_option_deref (rest : string) :
  ends_option rest = true ->
  negb (Ascii.eqb (deref rest) ",") && negb (Ascii.eqb (deref rest) zero)
  = false.
Proof.
  destruct rest as [|c r]; simpl; [reflexivity|].
  intros ->. reflexivity.
Qed.

Lemma length_append (a b : string) :
  String.length (a ++ b) = (String.length a + String.length b)%nat.
Proof. induction a as [|c a IH]; simpl; [reflexivity|]. now rewrite IH. Qed.

Lemma suffix_neq (ds rest : string) :
  ds <> "" -> String.eqb rest (ds ++ rest) = false.
Proof.
  intros Hne. apply String.eqb_neq. intros Heq.
  apply (f_equal String.length) in Heq. rewrite length_append in Heq.
  destruct ds; [congruence|]. simpl in Heq. lia.
Qed.

(** [strtoul] on a number written with digits only. *)
Lemma strtoul_digits (ds rest : string) :
  all_digits ds = true -> ds <> "" -> is_digit (deref rest) = false ->
  strtoul (ds ++ rest)
  = if decimal ds >? ULONG_MAX then (ULONG_MAX, rest, ERANGE)
    else (decimal ds, rest, 0).
Proof.
  intros Hds Hne Hrest.
  destruct ds as [|c r]; [congruence|].
  pose proof Hds as Hall. simpl in Hds.
  apply andb_true_iff in Hds as [Hc Hr].
  unfold strtoul. simpl skip_spaces. rewrite (digit_not_space c Hc).
  rewrite (digit_not_char c "-" Hc eq_refl).
  rewrite (digit_not_char c "+" Hc eq_refl).
  cbn [deref].
  pose proof Hc as Hc'. unfold is_digit in Hc'.
  destruct (digit_value c) as [d|] eqn:Hd; [|discriminate].
  change (String c (r ++ rest)) with (String c r ++ rest).
  rewrite (scan_digits_app (String c r) rest Hall Hrest 0).
  fold (decimal (String c r)).
  destruct (decimal (String c r) >? ULONG_MAX); reflexivity.
Qed.

Lemma int_of_ulong_small (v : Z) :
  0 <= v <= INT_MAX -> int_of_ulong v = v.
Proof.
  unfold int_of_ulong, INT_MAX, INT_BITS. intros H.
  change (2 ^ 32) with 4294967296. change (2 ^ (32 - 1)) with 2147483648 in *.
  rewrite Z.mod_small by lia.
  destruct (Z.ltb_spec v 2147483648); [reflexivity|lia].
Qed.

(** The result of [mount_find_pri] when the first [pri] option of the
    entry is [pri=<digits>], complete. *)
Lemma mount_find_pri_digits (me : mntent) (ds rest : string) (ret : Z) :
  hasmntopt me "pri" = Some ("pri=" ++ ds ++ rest) ->
  all_digits ds = true -> ds <> "" -> ends_option rest = true ->
  mount_find_pri me ret
  = if decimal ds >? ULONG_MAX then (- ERANGE, ret)
    else (1, int_of_ulong (decimal ds)).
Proof.
  intros Hopt Hds Hne Hrest. unfold mount_find_pri. rewrite Hopt.
  cbn [String.length advance_by advance append deref].
  change (Ascii.eqb "=" "=") with true. cbn [negb].
  rewrite (strtoul_digits ds rest Hds Hne (ends_option_not_digit _ Hrest)).
  destruct (decimal ds >? ULONG_MAX) eqn:Hbig.
  - reflexivity.
  - change (0 >? 0) with false. cbv iota.
    rewrite (suffix_neq ds rest Hne), (ends_option_deref rest Hrest).
    reflexivity.
Qed.

Lemma mount_find_pri_absent (me : mntent) (ret : Z) :
  has_opt me "pri" = false -> mount_find_pri me ret = (0, ret).
Proof.
  unfold has_opt, mount_find_pri.
  destruct (hasmntopt me "pri"); [discriminate|reflexivity].
Qed.

(** ** Options as tokens *)

Lemma option_tokens_cons (s : string) :
  exists t ts, option_tokens s = t :: ts.
Proof.
  induction s as [|c r (t & ts & IH)]; cbn [option_tokens].
  - eauto.
  - destruct (Ascii.eqb c ","); [eauto|]. rewrite IH. eauto.
Qed.

Lemma opt_here_first_token (opt : string) :
  no_comma opt = true ->
  forall s, opt_here opt s = names_option opt (hd "" (option_tokens s)).
Proof.
  induction opt as [|a o IH]; intros Hc s.
  - unfold opt_here, names_option. cbn [startswith append].
    destruct s as [|c r]; [reflexivity|]. cbn [option_tokens].
    destruct (Ascii.eqb_spec c ",") as [->|Hne]; [reflexivity|].
    destruct (option_tokens_cons r) as (t & ts & ->). cbn [hd].
    cbn [String.eqb startswith orb]. rewrite orb_false_r.
    rewrite (Ascii.eqb_sym "=" c).
    destruct (Ascii.eqb c "="); reflexivity.
  - cbn [no_comma] in Hc. apply andb_true_iff in Hc as [Ha Ho].
    specialize (IH Ho). destruct s as [|c r]; [reflexivity|].
    cbn [option_tokens].
    destruct (Ascii.eqb_spec c ",") as [->|Hne].
    + cbn [hd]. unfold opt_here, names_option. cbn [startswith append].
      apply negb_true_iff in Ha.
      rewrite Ha. reflexivity.
    + destruct (option_tokens_cons r) as (t & ts & Ht).
      specialize (IH r). rewrite Ht in IH |- *. cbn [hd] in *.
      unfold opt_here, names_option in *. cbn [startswith append String.eqb].
      rewrite (Ascii.eqb_sym a c).
      destruct (Ascii.eqb c a); [exact IH|reflexivity].
Qed.

Lemma hasmntopt_scan_tokens (opt : string) :
  no_comma opt = true ->
  forall s,
    negb (is_null (hasmntopt_scan opt true s))
    = existsb (names_option opt) (option_tokens s)
    /\ negb (is_null (hasmntopt_scan opt false s))
       = existsb (names_option opt) (tl (option_tokens s)).
Proof.
  intros Hc. induction s as [|c r [IHt IHf]].
  - cbn [hasmntopt_scan andb option_tokens existsb tl].
    rewrite (opt_here_first_token opt Hc ""). cbn [option_tokens hd].
    destruct (names_option opt ""); split; reflexivity.
  - assert (Hf : negb (is_null (hasmntopt_scan opt false (String c r)))
                 = existsb (names_option opt) (tl (option_tokens (String c r)))).
    { cbn [hasmntopt_scan andb option_tokens].
      destruct (Ascii.eqb c ","); cbn [tl]; [exact IHt|].
      destruct (option_tokens_cons r) as (t & ts & Ht).
      rewrite Ht in IHf |- *. exact IHf. }
    split; [|exact Hf].
    cbn [hasmntopt_scan andb] in Hf |- *.
    rewrite (opt_here_first_token opt Hc (String c r)).
    destruct (option_tokens_cons (String c r)) as (t & ts & Ht).
    rewrite Ht in Hf |- *. cbn [hd tl existsb] in *.
    destruct (names_option opt t); [reflexivity|]. exact Hf.
Qed.

(** [hasmntopt] finds an option exactly when one of the comma-separated
    options of the entry is it, bare or with a value. *)
Lemma has_opt_tokens (me : mntent) (opt : string) :
  no_comma opt = true ->
  has_opt me opt = existsb (names_option opt) (option_tokens (mnt_opts me)).
Proof.
  intros Hc. unfold has_opt, hasmntopt.
  rewrite <- (proj1 (hasmntopt_scan_tokens opt Hc (mnt_opts me))).
  destruct (hasmntopt_scan opt true (mnt_opts me)); reflexivity.
Qed.

(** ** The generated files and links *)

Lemma append_empty_r (s : string) : s ++ "" = s.
Proof. induction s as [|c s IH]; cbn [append]; [reflexivity|]. now rewrite IH. Qed.

Lemma append_assoc (a b c : string) : (a ++ b) ++ c = a ++ b ++ c.
Proof. induction a as [|x a IH]; cbn [append]; [reflexivity|]. now rewrite IH. Qed.

Lemma files_log_msg (l : log_level) (m : string) (w : world) :
  files (log_msg l m w) = files w.
Proof. reflexivity. Qed.

Lemma links_log_msg (l : log_level) (m : string) (w : world) :
  links (log_msg l m w) = links w.
Proof. reflexivity. Qed.

Lemma links_fprintf (p : string) (ls : list string) (w : world) :
  links (fprintf p ls w) = links w.
Proof. reflexivity. Qed.

Lemma keys_fprintf (p : string) (ls : list string) (w : world) :
  map fst (files (fprintf p ls w)) = map fst (files w).
Proof.
  unfold fprintf. cbn [files]. rewrite map_map. apply map_ext.
  intros [q c]. cbn [fst]. destruct (String.eqb q p); reflexivity.
Qed.

Lemma path_exists_fprintf (p : string) (ls : list string) (w : world)
    (q : string) :
  path_exists (fprintf p ls w) q = path_exists w q.
Proof. unfold path_exists. now rewrite keys_fprintf, links_fprintf. Qed.

Lemma path_exists_log_msg (l : log_level) (m : string) (w : world)
    (q : string) :
  path_exists (log_msg l m w) q = path_exists w q.
Proof. reflexivity. Qed.

Lemma fopen_wx_inv (p : string) (w w1 : world) :
  fopen_wx p w = Some w1 ->
  path_exists w p = false
  /\ files w1 = (files w ++ [(p, [])])%list
  /\ links w1 = links w /\ log w1 = log w.
Proof.
  unfold fopen_wx. destruct (path_exists w p); [discriminate|].
  intros [= <-]. repeat split.
Qed.

Lemma symlink_inv (t l : string) (w w1 : world) :
  symlink t l w = Some w1 ->
  path_exists w l = false
  /\ files w1 = files w
  /\ links w1 = (links w ++ [(l, t)])%list /\ log w1 = log w.
Proof.
  unfold symlink. destruct (path_exists w l); [discriminate|].
  intros [= <-]. repeat split.
Qed.

Lemma path_exists_files (w : world) (p : string) :
  path_exists w p = false ->
  existsb (String.eqb p) (map fst (files w)) = false.
Proof.
  unfold path_exists. rewrite existsb_app.
  intros H. apply orb_false_iff in H. tauto.
Qed.

Lemma find_fresh (fs : list (string * list string)) (p : string)
    (c : list string) :
  existsb (String.eqb p) (map fst fs) = false ->
  find (fun e => String.eqb (fst e) p) (fs ++ [(p, c)]) = Some (p, c).
Proof.
  induction fs as [|[q d] fs IH]; cbn [map existsb find app fst].
  - intros _. now rewrite String.eqb_refl.
  - intros H. apply orb_false_iff in H as [Hq Hfs].
    rewrite String.eqb_sym, Hq. apply IH. exact Hfs.
Qed.

Lemma file_lines_fopen (p : string) (w w1 : world) :
  fopen_wx p w = Some w1 -> file_lines w1 p = Some [].
Proof.
  intros H. apply fopen_wx_inv in H as (Hfresh & Hfiles & _).
  unfold file_lines. rewrite Hfiles.
  rewrite find_fresh by (apply path_exists_files; exact Hfresh).
  reflexivity.
Qed.

Lemma file_lines_fprintf (p : string) (ls : list string) (w : world) :
  file_lines (fprintf p ls w) p
  = option_map (fun c => (c ++ ls)%list) (file_lines w p).
Proof.
  unfold file_lines, fprintf. cbn [files].
  induction (files w) as [|[q c] fs IH]; cbn [map find fst]; [reflexivity|].
  destruct (String.eqb q p) eqn:Hq; cbn [fst]; rewrite Hq; [reflexivity|].
  exact IH.
Qed.

Lemma file_lines_log_msg (l : log_level) (m : string) (w : world)
    (p : string) :
  file_lines (log_msg l m w) p = file_lines w p.
Proof. reflexivity. Qed.

Lemma file_lines_symlink (t l : string) (w w1 : world) (p : string) :
  symlink t l w = Some w1 -> file_lines w1 p = file_lines w p.
Proof.
  intros H. apply symlink_inv in H as (_ & Hfiles & _).
  unfold file_lines. now rewrite Hfiles.
Qed.

(** Reading a file through the steps that do not touch it. *)
Ltac file_lines_steps :=
  unfold log_error, log_warning, log_info, log_debug;
  repeat first
    [ rewrite file_lines_log_msg
    | rewrite file_lines_fprintf
    | erewrite file_lines_symlink by eassumption ].

Section SwapUnit.

Context {E : Env}.

(** Outside a container, a swap entry whose priority parses and whose
    unit does not exist yet gets its unit file, whatever happens to the
    link afterwards. *)
Lemma add_swap_unit (g : globals) (what : string) (me : mntent)
    (noauto nofail : bool) (w : world) (r pri : Z) :
  (detect_container >? 0) = false ->
  mount_find_pri me (-1) = (r, pri) -> (r <? 0) = false ->
  path_exists w (arg_dest g ++ "/" ++ unit_name_from_path what ".swap")
  = false ->
  file_lines (snd (add_swap g what me noauto nofail w))
    (arg_dest g ++ "/" ++ unit_name_from_path what ".swap")
  = Some (swap_unit_lines what pri (mnt_opts me)).
Proof.
  intros Hc Hpri Hr Hfresh. unfold add_swap. rewrite Hc, Hpri, Hr.
  cbn [strjoin]. rewrite !append_empty_r.
  set (unit := arg_dest g ++ "/" ++ unit_name_from_path what ".swap") in *.
  destruct (fopen_wx unit w) as [w1|] eqn:Hopen.
  2:{ unfold fopen_wx in Hopen. rewrite Hfresh in Hopen. discriminate. }
  apply file_lines_fopen in Hopen.
  unfold swap_unit_lines, isempty, streq.
  destruct (generator_write_timeouts (arg_dest g) what what (mnt_opts me))
    as [rt filtered].
  destruct (negb (mnt_opts me =? "")%string
            && negb (mnt_opts me =? "defaults")%string);
    destruct (pri >=? 0);
    destruct (rt <? 0); cbn [snd];
    try (file_lines_steps; rewrite Hopen; reflexivity);
    destruct noauto; cbn [negb snd];
    try (file_lines_steps; rewrite Hopen; reflexivity);
    match goal with
    | |- context [symlink ?t ?l ?w0] =>
        destruct (symlink t l w0) as [w3|] eqn:Hlink
    end; cbn [snd];
    file_lines_steps; rewrite Hopen; reflexivity.
Qed.

End SwapUnit.

(** ** Priority extraction *)

(** An empty value: [pri=] at the end of the options or before a
    separator is rejected. *)
Lemma mount_find_pri_empty (me : mntent) (rest : string) (ret : Z) :
  hasmntopt me "pri" = Some ("pri=" ++ rest) -> ends_option rest = true ->
  mount_find_pri me ret = (- EINVAL, ret).
Proof.
  intros Hopt Hrest. unfold mount_find_pri. rewrite Hopt.
  cbn [String.length advance_by advance append deref].
  change (Ascii.eqb "=" "=") with true. cbn [negb].
  destruct rest as [|c r].
  - reflexivity.
  - cbn [ends_option] in Hrest. apply Ascii.eqb_eq in Hrest. subst c.
    change (strtoul (String "," r)) with (0, String "," r, 0).
    cbv beta iota. change (0 >? 0) with false. cbv iota.
    rewrite String.eqb_refl. reflexivity.
Qed.

(** Trailing garbage: digits followed by anything but a digit, the
    separator or the end are rejected. *)
Lemma mount_find_pri_garbage (me : mntent) (ds : string) (c : ascii)
    (rest : string) (ret : Z) :
  hasmntopt me "pri" = Some ("pri=" ++ ds ++ String c rest) ->
  all_digits ds = true -> ds <> "" ->
  is_digit c = false -> c <> ","%char -> c <> zero ->
  decimal ds <= ULONG_MAX ->
  mount_find_pri me ret = (- EINVAL, ret).
Proof.
  intros Hopt Hds Hne Hc Hsep Hnul Hsmall. unfold mount_find_pri.
  rewrite Hopt.
  cbn [String.length advance_by advance append deref].
  change (Ascii.eqb "=" "=") with true. cbn [negb].
  rewrite (strtoul_digits ds (String c rest) Hds Hne Hc).
  destruct (Z.gtb_spec (decimal ds) ULONG_MAX) as [Hbig|_]; [lia|].
  change (0 >? 0) with false. cbv iota.
  rewrite (suffix_neq ds (String c rest) Hne). cbn [deref orb].
  apply Ascii.eqb_neq in Hsep, Hnul. rewrite Hsep, Hnul. reflexivity.
Qed.

(** C2, as the code has it: an entry without a [pri] option has no priority and
    no error; [pri=10] yields 10; [pri=] and [pri=10abc] are rejected
    with [-EINVAL]; when the first [pri] option of an entry is
    [pri=<digits>] followed by a separator or the end of the options,
    the result is the number the digits denote if it is at most
    [INT_MAX], and the error [-ERANGE] if it is above [ULONG_MAX]. *)
Theorem mount_find_pri_contract (absent present huge : mntent)
    (ds rest big rest' : string) (ret : Z) :
  has_opt absent "pri" = false ->
  hasmntopt present "pri" = Some ("pri=" ++ ds ++ rest) ->
  all_digits ds = true -> ds <> "" -> ends_option rest = true ->
  decimal ds <= INT_MAX ->
  hasmntopt huge "pri" = Some ("pri=" ++ big ++ rest') ->
  all_digits big = true -> big <> "" -> ends_option rest' = true ->
  ULONG_MAX < decimal big ->
  mount_find_pri absent ret = (0, ret)
  /\ mount_find_pri (swap_entry "/dev/sda2" "pri=10") ret = (1, 10)
  /\ mount_find_pri (swap_entry "/dev/sda2" "pri=") ret = (- EINVAL, ret)
  /\ mount_find_pri (swap_entry "/dev/sda2" "pri=10abc") ret
     = (- EINVAL, ret)
  /\ mount_find_pri present ret = (1, decimal ds)
  /\ mount_find_pri huge ret = (- ERANGE, ret).
Proof.
  intros Habs Hopt Hds Hne Hrest Hsmall Hopt' Hbig Hne' Hrest' Hhuge.
  split; [apply mount_find_pri_absent; exact Habs|].
  split; [reflexivity|]. split; [reflexivity|]. split; [reflexivity|].
  split.
  - rewrite (mount_find_pri_digits present ds rest ret Hopt Hds Hne Hrest).
    assert (HIU : INT_MAX < ULONG_MAX) by reflexivity.
    destruct (Z.gtb_spec (decimal ds) ULONG_MAX) as [H|_]; [lia|].
    rewrite int_of_ulong_small; [reflexivity|].
    split; [apply decimal_nonneg|exact Hsmall].
  - rewrite (mount_find_pri_digits huge big rest' ret Hopt' Hbig Hne' Hrest').
    destruct (Z.gtb_spec (decimal big) ULONG_MAX) as [_|H]; [reflexivity|lia].
Qed.

(** C2 in the specification's wording fails: the digits of 2^64 are well
    formed and end the option string, yet the result is [-ERANGE], not
    the number; and 4294967295 is parsed with success but comes out as
    -1. *)
Lemma priority_as_stated_fails :
  mount_find_pri (swap_entry "/dev/sda2" "pri=18446744073709551616") (-1)
  = (- ERANGE, -1)
  /\ ~ priority_as_stated "18446744073709551616" ""
  /\ mount_find_pri (swap_entry "/dev/sda2" "pri=4294967295") (-1) = (1, -1)
  /\ ~ priority_as_stated "4294967295" "".
Proof.
  split; [reflexivity|]. split.
  - unfold priority_as_stated. intros H.
    specialize (H eq_refl ltac:(discriminate) eq_refl (-1)).
    vm_compute in H. discriminate H.
  - split; [reflexivity|].
    unfold priority_as_stated. intros H.
    specialize (H eq_refl ltac:(discriminate) eq_refl (-1)).
    vm_compute in H. discriminate H.
Qed.

Lemma mount_find_pri_contract_witness :
  mount_find_pri (swap_entry "/swapfile" "defaults") (-1) = (0, -1)
  /\ mount_find_pri (swap_entry "/dev/sda2" "sw,pri=10,nofail") (-1)
     = (1, 10)
  /\ mount_find_pri (swap_entry "/dev/sda2" "pri=18446744073709551616") (-1)
     = (- ERANGE, -1).
Proof.
  pose proof (mount_find_pri_contract
                (swap_entry "/swapfile" "defaults")
                (swap_entry "/dev/sda2" "sw,pri=10,nofail")
                (swap_entry "/dev/sda2" "pri=18446744073709551616")
                "10" ",nofail" "18446744073709551616" "" (-1)
                eq_refl eq_refl eq_refl ltac:(discriminate) eq_refl
                ltac:(vm_compute; discriminate)
                eq_refl eq_refl ltac:(discriminate) eq_refl eq_refl)
    as (H0 & _ & _ & _ & H1 & H2).
  exact (conj H0 (conj H1 H2)).
Defined.

Section SwapPriority.

Context {E : Env}.

(** C10: when the first [pri] option of a swap entry is [pri=<digits>],
    complete, with a number within [unsigned long] whose conversion to
    [int] is negative, the priority is parsed with success and, outside
    a container and with no unit of that name present, the swap unit is
    written without a [Priority=] line. *)
Theorem negative_priority_not_emitted (g : globals) (what : string)
    (me : mntent) (noauto nofail : bool) (w : world) (ds rest : string) :
  (detect_container >? 0) = false ->
  hasmntopt me "pri" = Some ("pri=" ++ ds ++ rest) ->
  all_digits ds = true -> ds <> "" -> ends_option rest = true ->
  decimal ds <= ULONG_MAX -> int_of_ulong (decimal ds) < 0 ->
  path_exists w (arg_dest g ++ "/" ++ unit_name_from_path what ".swap")
  = false ->
  mount_find_pri me (-1) = (1, int_of_ulong (decimal ds))
  /\ exists lines,
       file_lines (snd (add_swap g what me noauto nofail w))
         (arg_dest g ++ "/" ++ unit_name_from_path what ".swap")
       = Some lines
       /\ existsb is_priority_line lines = false.
Proof.
  intros Hc Hopt Hds Hne Hrest Hrange Hneg Hfresh.
  assert (Hpri : mount_find_pri me (-1) = (1, int_of_ulong (decimal ds))).
  { rewrite (mount_find_pri_digits me ds rest (-1) Hopt Hds Hne Hrest).
    destruct (Z.gtb_spec (decimal ds) ULONG_MAX) as [H|_]; [lia|reflexivity]. }
  split; [exact Hpri|].
  exists (swap_unit_lines what (int_of_ulong (decimal ds)) (mnt_opts me)).
  split.
  - apply (add_swap_unit g what me noauto nofail w 1 _ Hc Hpri eq_refl Hfresh).
  - unfold swap_unit_lines.
    destruct (Z.geb_spec (int_of_ulong (decimal ds)) 0) as [H|_]; [lia|].
    destruct (negb (streq (mnt_opts me) "")
              && negb (streq (mnt_opts me) "defaults")); reflexivity.
Qed.

End SwapPriority.

Lemma negative_priority_not_emitted_witness :
  mount_find_pri (swap_entry "/dev/sda2" "pri=4294967295") (-1) = (1, -1)
  /\ exists lines,
       file_lines
         (snd (@add_swap (Reference.host []) initial_globals "/dev/sda2"
                 (swap_entry "/dev/sda2" "pri=4294967295") false false
                 empty_world))
         "/tmp/dev-sda2.swap"
       = Some lines
       /\ existsb is_priority_line lines = false.
Proof.
  exact (@negative_priority_not_emitted (Reference.host []) initial_globals
           "/dev/sda2" (swap_entry "/dev/sda2" "pri=4294967295")
           false false empty_world "4294967295" ""
           eq_refl eq_refl eq_refl ltac:(discriminate) eq_refl
           ltac:(vm_compute; discriminate) eq_refl eq_refl).
Defined.

(** ** Boot parameters *)

Section BootParameters.

Context {E : Env}.

Ltac split_key k :=
  repeat match goal with
         | |- context [String.eqb k ?c] =>
             destruct (String.eqb_spec k c); [subst k; cbn|]
         end.

Lemma parse_proc_cmdline_item_root_what (k : string) (v : option string)
    (g : globals) (w : world) :
  arg_root_what (snd (fst (parse_proc_cmdline_item k v g w)))
  = last_of (arg_root_what g) (values_of "root" [(k, v)])
  /\ fst (fst (parse_proc_cmdline_item k v g w)) = 0.
Proof.
  unfold parse_proc_cmdline_item, streq, last_of.
  destruct v as [v|]; cbn [values_of]; split_key k;
    try (split; reflexivity).
  destruct (parse_boolean v <? 0); split; reflexivity.
  destruct (parse_boolean v <? 0); split; reflexivity.
Qed.

Lemma parse_proc_cmdline_item_root_options (k : string) (v : option string)
    (g : globals) (w : world) :
  arg_root_options (snd (fst (parse_proc_cmdline_item k v g w)))
  = join_flags (arg_root_options g) (values_of "rootflags" [(k, v)]).
Proof.
  unfold parse_proc_cmdline_item, streq, join_flags.
  destruct v as [v|]; cbn [values_of]; split_key k; try reflexivity.
  - destruct (parse_boolean v <? 0); reflexivity.
  - destruct (parse_boolean v <? 0); reflexivity.
  - destruct (arg_root_options g); cbn; [|reflexivity].
    now rewrite append_empty_r.
Qed.

Lemma values_of_cons (key k : string) (v : option string)
    (items : list (string * option string)) :
  values_of key ((k, v) :: items)
  = (values_of key [(k, v)] ++ values_of key items)%list.
Proof.
  cbn [values_of]. destruct v as [v|]; [|reflexivity].
  destruct (String.eqb k key); reflexivity.
Qed.

Lemma collected_cons (k : string) (v : option string)
    (items : list (string * option string)) (g : globals) (w : world) :
  collected ((k, v) :: items) g w
  = collected items (snd (fst (parse_proc_cmdline_item k v g w)))
      (snd (parse_proc_cmdline_item k v g w)).
Proof.
  unfold collected. cbn [parse_proc_cmdline_from].
  pose proof (parse_proc_cmdline_item_root_what k v g w) as [_ Hr].
  destruct (parse_proc_cmdline_item k v g w) as [[r g1] w1].
  cbn [fst snd] in *. subst r. reflexivity.
Qed.

Lemma collected_root_what (items : list (string * option string)) :
  forall g w,
    arg_root_what (collected items g w)
    = last_of (arg_root_what g) (values_of "root" items).
Proof.
  induction items as [|[k v] items IH]; intros g w; [reflexivity|].
  rewrite collected_cons, IH, values_of_cons.
  pose proof (parse_proc_cmdline_item_root_what k v g w) as [-> _].
  unfold last_of. now rewrite fold_left_app.
Qed.

Lemma collected_root_options (items : list (string * option string)) :
  forall g w,
    arg_root_options (collected items g w)
    = join_flags (arg_root_options g) (values_of "rootflags" items).
Proof.
  induction items as [|[k v] items IH]; intros g w; [reflexivity|].
  rewrite collected_cons, IH, values_of_cons.
  rewrite parse_proc_cmdline_item_root_options.
  unfold join_flags. now rewrite fold_left_app.
Qed.

(** C6: folding the boot parameters in order, the last [root=] gives
    the root device ([root=A] then [root=B] yields B, and so does any
    list in which no [root=] follows [root=B]) and the [rootflags=]
    values are joined by commas in their order ([rootflags=noatime] then
    [rootflags=ro] yields "noatime,ro"); in general the root device is
    the last value of [root], and the root options are the comma-joined
    values of [rootflags] on top of what was there. *)
Theorem boot_parameter_folding (A B : string)
    (before after items : list (string * option string))
    (g : globals) (w : world) :
  values_of "root" after = [] ->
  arg_root_what (collected [("root", Some A); ("root", Some B)] g w)
  = Some B
  /\ arg_root_what (collected (before ++ ("root", Some B) :: after) g w)
     = Some B
  /\ arg_root_options
       (collected [("root", Some A); ("rootflags", Some "noatime");
                   ("rootflags", Some "ro")] initial_globals w)
     = Some "noatime,ro"
  /\ arg_root_what (collected items g w)
     = last_of (arg_root_what g) (values_of "root" items)
  /\ arg_root_options (collected items g w)
     = join_flags (arg_root_options g) (values_of "rootflags" items).
Proof.
  intros Hafter.
  split; [reflexivity|]. split.
  - rewrite collected_root_what.
    assert (Happ : forall l1 l2,
               values_of "root" (l1 ++ l2)
               = (values_of "root" l1 ++ values_of "root" l2)%list).
    { induction l1 as [|[k v] l1 IH]; intros l2; [reflexivity|].
      cbn [app]. rewrite (values_of_cons "root" k v (l1 ++ l2)).
      rewrite (values_of_cons "root" k v l1), IH.
      now rewrite app_assoc. }
    rewrite Happ, (values_of_cons "root" "root" (Some B) after), Hafter.
    unfold last_of. rewrite fold_left_app. reflexivity.
  - split; [reflexivity|].
    split; [apply collected_root_what|apply collected_root_options].
Qed.

End BootParameters.

Lemma boot_parameter_folding_witness :
  let E := Reference.initrd [] in
  arg_root_what
    (@collected E [("root", Some "/dev/sda1"); ("rw", None);
                   ("root", Some "/dev/sdb1"); ("rootflags", Some "noatime");
                   ("quiet", None)] initial_globals empty_world)
  = Some "/dev/sdb1".
Proof.
  exact (proj1 (proj2
           (@boot_parameter_folding (Reference.initrd [])
              "/dev/sda1" "/dev/sdb1"
              [("root", Some "/dev/sda1"); ("rw", None)]
              [("rootflags", Some "noatime"); ("quiet", None)] []
              initial_globals empty_world eq_refl))).
Defined.

(** ** The secondary volume *)

Section SecondaryVolume.

Context {E : Env}.

Lemma add_usr_mount_unset (g : globals) (w : world) :
  arg_usr_what g = None -> arg_usr_fstype g = None ->
  arg_usr_options g = None ->
  add_usr_mount g w = (0, g, w).
Proof.
  intros Hw Hf Ho. unfold add_usr_mount. rewrite Hw, Hf, Ho. reflexivity.
Qed.

Lemma add_usr_mount_defaults (g : globals) (w : world) :
  (is_null (arg_usr_what g) && is_null (arg_usr_fstype g)
   && is_null (arg_usr_options g)) = false ->
  let g' := snd (fst (add_usr_mount g w)) in
  arg_usr_what g' = default_from (arg_root_what g) (arg_usr_what g)
  /\ arg_usr_fstype g' = default_from (arg_root_fstype g) (arg_usr_fstype g)
  /\ arg_usr_options g'
     = default_from (arg_root_options g) (arg_usr_options g)
  /\ arg_root_what g' = arg_root_what g
  /\ arg_root_fstype g' = arg_root_fstype g
  /\ arg_root_options g' = arg_root_options g.
Proof.
  intros Hset. unfold add_usr_mount. rewrite Hset.
  cbv zeta.
  match goal with
  | |- context [match arg_usr_what ?x with _ => _ end] =>
      set (g3 := x)
  end.
  assert (Hg3 :
    arg_usr_what g3 = default_from (arg_root_what g) (arg_usr_what g)
    /\ arg_usr_fstype g3 = default_from (arg_root_fstype g) (arg_usr_fstype g)
    /\ arg_usr_options g3
       = default_from (arg_root_options g) (arg_usr_options g)
    /\ arg_root_what g3 = arg_root_what g
    /\ arg_root_fstype g3 = arg_root_fstype g
    /\ arg_root_options g3 = arg_root_options g).
  { subst g3. clear Hset. destruct g as [dest en rw rf ro rrw uw uf uo].
    destruct rw, rf, ro, uw, uf, uo; cbn; repeat split. }
  clearbody g3.
  match goal with
  | |- context [snd (fst ?M)] => assert (Hres : snd (fst M) = g3)
  end.
  { destruct (arg_usr_what g3) as [uw|]; [|reflexivity].
    destruct (arg_usr_options g3) as [uo|]; [|reflexivity].
    destruct (negb (path_is_absolute (fstab_node_to_udev_node uw)));
      [reflexivity|].
    destruct (add_mount _ _ _ _ _ _ _ _ _ _ _ _). reflexivity. }
  rewrite Hres. exact Hg3.
Qed.

(** C8, as the code has it: with every secondary-volume field unset nothing is
    defaulted and no secondary-volume mount is made, whatever the root
    fields hold; as soon as one secondary-volume field is set, each unset
    secondary-volume field takes the value of the corresponding root
    field, and each set one keeps its own. *)
Theorem usr_fields_default_from_root (unset partly : globals) (w : world) :
  arg_usr_what unset = None -> arg_usr_fstype unset = None ->
  arg_usr_options unset = None ->
  (is_null (arg_usr_what partly) && is_null (arg_usr_fstype partly)
   && is_null (arg_usr_options partly)) = false ->
  add_usr_mount unset w = (0, unset, w)
  /\ arg_usr_what (snd (fst (add_usr_mount partly w)))
     = default_from (arg_root_what partly) (arg_usr_what partly)
  /\ arg_usr_fstype (snd (fst (add_usr_mount partly w)))
     = default_from (arg_root_fstype partly) (arg_usr_fstype partly)
  /\ arg_usr_options (snd (fst (add_usr_mount partly w)))
     = default_from (arg_root_options partly) (arg_usr_options partly).
Proof.
  intros Hw Hf Ho Hset.
  split; [apply add_usr_mount_unset; assumption|].
  pose proof (add_usr_mount_defaults partly w Hset) as (H1 & H2 & H3 & _).
  auto.
Qed.

End SecondaryVolume.

(** C8 in the specification's wording fails: with [root=/dev/sda1
    rootfstype=ext4 rootflags=ro] and nothing for the secondary volume,
    the secondary-volume fields stay unset; with [mount.usrfstype=btrfs]
    added, so that they are no longer wholly unset, the device and the
    options do come from the root. *)
Lemma usr_defaults_as_stated_fails :
  let g := set_root_options (Some "ro")
             (set_root_fstype (Some "ext4")
                (set_root_what (Some "/dev/sda1") initial_globals)) in
  let g' := snd (fst (@add_usr_mount (Reference.initrd []) g empty_world)) in
  let h' := snd (fst (@add_usr_mount (Reference.initrd [])
                        (set_usr_fstype (Some "btrfs") g) empty_world)) in
  (arg_usr_what g', arg_usr_fstype g', arg_usr_options g')
  = (None, None, None)
  /\ ~ usr_defaults_as_stated g g'
  /\ (arg_usr_what h', arg_usr_fstype h', arg_usr_options h')
     = (Some "/dev/sda1", Some "btrfs", Some "ro").
Proof.
  cbv zeta. split; [vm_compute; reflexivity|]. split.
  - unfold usr_defaults_as_stated. intros H.
    destruct (H eq_refl eq_refl eq_refl ltac:(discriminate)) as [Hw _].
    vm_compute in Hw. discriminate Hw.
  - vm_compute. reflexivity.
Qed.

Lemma usr_fields_default_from_root_witness :
  let unset := set_root_what (Some "/dev/sda1") initial_globals in
  let partly := set_usr_fstype (Some "btrfs")
                  (set_root_options (Some "ro") unset) in
  @add_usr_mount (Reference.initrd []) unset empty_world
  = (0, unset, empty_world)
  /\ arg_usr_what
       (snd (fst (@add_usr_mount (Reference.initrd []) partly empty_world)))
     = Some "/dev/sda1"
  /\ arg_usr_fstype
       (snd (fst (@add_usr_mount (Reference.initrd []) partly empty_world)))
     = Some "btrfs"
  /\ arg_usr_options
       (snd (fst (@add_usr_mount (Reference.initrd []) partly empty_world)))
     = Some "ro".
Proof.
  exact (@usr_fields_default_from_root (Reference.initrd [])
           (set_root_what (Some "/dev/sda1") initial_globals)
           (set_usr_fstype (Some "btrfs")
              (set_root_options (Some "ro")
                 (set_root_what (Some "/dev/sda1") initial_globals)))
           empty_world eq_refl eq_refl eq_refl eq_refl).
Defined.

(** ** The entries of the mount table *)

Section Entries.

Context {E : Env}.

(** C9: in a container every swap entry is skipped, whatever its device
    is: the entry has status 0 and neither a file nor a link is made,
    both in [add_swap] itself and in the turn of the loop that reads
    the entry. *)
Theorem swap_skipped_in_container (g : globals) (initrd : bool)
    (fstab_path what : string) (me : mntent) (noauto nofail : bool)
    (w : world) :
  0 < detect_container -> mnt_type me = "swap" ->
  (fst (add_swap g what me noauto nofail w) = 0
   /\ files (snd (add_swap g what me noauto nofail w)) = files w
   /\ links (snd (add_swap g what me noauto nofail w)) = links w)
  /\ fst (parse_fstab_entry g initrd fstab_path me w) = 0
  /\ files (snd (parse_fstab_entry g initrd fstab_path me w)) = files w
  /\ links (snd (parse_fstab_entry g initrd fstab_path me w)) = links w.
Proof.
  intros Hc Hswap.
  assert (Hgt : (detect_container >? 0) = true).
  { destruct (Z.gtb_spec detect_container 0); [reflexivity|lia]. }
  assert (Hadd : forall what noauto nofail w,
             fst (add_swap g what me noauto nofail w) = 0
             /\ files (snd (add_swap g what me noauto nofail w)) = files w
             /\ links (snd (add_swap g what me noauto nofail w)) = links w).
  { intros. unfold add_swap. rewrite Hgt. repeat split. }
  split; [apply Hadd|].
  unfold parse_fstab_entry. rewrite Hgt.
  destruct (initrd && negb (mount_in_initrd me)); [repeat split|].
  cbn [andb].
  destruct (is_device_path (fstab_node_to_udev_node (mnt_fsname me)));
    [repeat split|].
  unfold streq. rewrite Hswap. cbn [String.eqb Ascii.eqb Bool.eqb].
  match goal with
  | |- context [add_swap g ?what me ?na ?nf ?w0] =>
      destruct (Hadd what na nf w0) as (H1 & H2 & H3)
  end.
  rewrite H1, H2, H3. repeat split.
Qed.

(** C4: a non-swap entry that is neither left out of the initrd pass
    nor suppressed in a container is handed to [add_mount] with an
    ordering target chosen in this order: the initrd pass gives
    initrd-fs.target; else the x-initrd.mount option or the mount point
    /usr gives initrd-root-fs.target; else the _netdev option or a
    network file system type gives remote-fs.target; else it is
    local-fs.target. *)
Theorem ordering_target_priority (g : globals) (initrd : bool)
    (fstab_path : string) (me : mntent) (w : world) :
  mnt_type me <> "swap" ->
  (initrd && negb (mount_in_initrd me)) = false ->
  ((detect_container >? 0)
   && is_device_path (fstab_node_to_udev_node (mnt_fsname me))) = false ->
  exists target w0,
    parse_fstab_entry g initrd fstab_path me w
    = add_mount g (fstab_node_to_udev_node (mnt_fsname me))
        (fstab_where initrd me) (Some (mnt_type me)) (mnt_opts me)
        (mnt_passno me) (has_opt me "noauto") (has_opt me "nofail")
        (has_opt me "comment=systemd.automount"
         || has_opt me "x-systemd.automount")
        (Some target) fstab_path w0
    /\ files w0 = files w /\ links w0 = links w
    /\ (initrd = true -> target = "initrd-fs.target")
    /\ (initrd = false ->
        has_opt me "x-initrd.mount" = true \/ mnt_dir me = "/usr" ->
        target = "initrd-root-fs.target")
    /\ (initrd = false ->
        has_opt me "x-initrd.mount" = false -> mnt_dir me <> "/usr" ->
        has_opt me "_netdev" = true \/ fstype_is_network (mnt_type me) = true ->
        target = "remote-fs.target")
    /\ (initrd = false ->
        has_opt me "x-initrd.mount" = false -> mnt_dir me <> "/usr" ->
        has_opt me "_netdev" = false ->
        fstype_is_network (mnt_type me) = false ->
        target = "local-fs.target").
Proof.
  intros Hswap Hin Hdev.
  exists (fstab_post initrd me). eexists.
  split.
  - unfold parse_fstab_entry. rewrite Hin, Hdev.
    apply String.eqb_neq in Hswap. unfold streq at 1. rewrite Hswap.
    reflexivity.
  - split; [reflexivity|]. split; [reflexivity|].
    unfold fstab_post, mount_in_initrd, mount_is_network, streq.
    repeat split.
    + intros ->. reflexivity.
    + intros -> [Hx|Hd].
      * rewrite Hx. reflexivity.
      * rewrite Hd, orb_true_r. reflexivity.
    + intros -> Hx Hd [Hn|Hn]; apply String.eqb_neq in Hd;
        rewrite Hx, Hd, Hn; cbn; [reflexivity|].
      rewrite orb_true_r. reflexivity.
    + intros -> Hx Hd Hn Hf. apply String.eqb_neq in Hd.
      rewrite Hx, Hd, Hn, Hf. reflexivity.
Qed.

End Entries.

Lemma swap_skipped_in_container_witness :
  let E := Reference.env 1 false Reference.no_fstab [] in
  let me := Reference.entry "/swapfile" "none" "swap" "defaults" 0 in
  (fst (@add_swap E initial_globals "/swapfile" me false false empty_world)
   = 0
   /\ files (snd (@add_swap E initial_globals "/swapfile" me false false
                    empty_world)) = []
   /\ links (snd (@add_swap E initial_globals "/swapfile" me false false
                    empty_world)) = [])
  /\ fst (@parse_fstab_entry E initial_globals false "/etc/fstab" me
            empty_world) = 0
  /\ files (snd (@parse_fstab_entry E initial_globals false "/etc/fstab" me
                   empty_world)) = []
  /\ links (snd (@parse_fstab_entry E initial_globals false "/etc/fstab" me
                   empty_world)) = [].
Proof.
  exact (@swap_skipped_in_container
           (Reference.env 1 false Reference.no_fstab [])
           initial_globals false "/etc/fstab" "/swapfile"
           (Reference.entry "/swapfile" "none" "swap" "defaults" 0)
           false false empty_world eq_refl eq_refl).
Defined.

Lemma ordering_target_priority_witness :
  let E := Reference.host [] in
  let me := Reference.entry "srv:/export" "/srv" "nfs" "defaults" 0 in
  exists target w0,
    @parse_fstab_entry E initial_globals false "/etc/fstab" me empty_world
    = @add_mount E initial_globals "srv:/export" "/srv" (Some "nfs")
        "defaults" 0 false false false (Some target) "/etc/fstab" w0
    /\ target = "remote-fs.target".
Proof.
  destruct (@ordering_target_priority (Reference.host []) initial_globals
              false "/etc/fstab"
              (Reference.entry "srv:/export" "/srv" "nfs" "defaults" 0)
              empty_world ltac:(discriminate) eq_refl eq_refl)
    as (target & w0 & Hcall & _ & _ & _ & _ & Hnet & _).
  exists target, w0. split; [exact Hcall|].
  apply Hnet; [reflexivity|reflexivity|discriminate|right; reflexivity].
Defined.

(** ** Which files and links a call leaves *)

Lemma links_if_fprintf (c : bool) (p : string) (ls : list string) (w : world) :
  links (if c then fprintf p ls w else w) = links w.
Proof. destruct c; reflexivity. Qed.

Lemma keys_if_fprintf (c : bool) (p : string) (ls : list string) (w : world) :
  map fst (files (if c then fprintf p ls w else w)) = map fst (files w).
Proof. destruct c; [apply keys_fprintf|reflexivity]. Qed.

Lemma fopen_wx_shape (p : string) (w w1 : world) :
  fopen_wx p w = Some w1 ->
  path_exists w p = false
  /\ map fst (files w1) = (map fst (files w) ++ [p])%list
  /\ links w1 = links w.
Proof.
  intros H. apply fopen_wx_inv in H as (Hp & Hf & Hl & _).
  rewrite Hf, map_app. auto.
Qed.

Lemma symlink_shape (t l : string) (w w1 : world) :
  symlink t l w = Some w1 ->
  map fst (files w1) = map fst (files w)
  /\ links w1 = (links w ++ [(l, t)])%list.
Proof.
  intros H. apply symlink_inv in H as (_ & Hf & Hl & _).
  rewrite Hf. auto.
Qed.

Ltac shape_steps :=
  unfold log_error, log_warning, log_info, log_debug in *;
  repeat first
    [ rewrite links_if_fprintf | rewrite links_fprintf
    | rewrite links_log_msg
    | rewrite keys_if_fprintf | rewrite keys_fprintf
    | rewrite files_log_msg ].

Section Emission.

Context {E : Env}.

(** A call of [add_swap] that succeeds and creates the unit. *)
Lemma add_swap_emitted (g : globals) (what : string) (me : mntent)
    (noauto nofail : bool) (w w' : world) :
  let unit := arg_dest g ++ "/" ++ unit_name_from_path what ".swap" in
  add_swap g what me noauto nofail w = (0, w') ->
  path_exists w unit = false -> path_exists w' unit = true ->
  links w'
  = (links w
     ++ (if noauto then []
         else [(link_path (arg_dest g) SPECIAL_SWAP_TARGET nofail
                  (unit_name_from_path what ".swap"), unit)]))%list
  /\ map fst (files w') = (map fst (files w) ++ [unit])%list.
Proof.
  intros unit Hrun Hfresh Hnew. unfold add_swap in Hrun.
  destruct (detect_container >? 0).
  { injection Hrun as <-. unfold log_info in Hnew.
    rewrite path_exists_log_msg in Hnew. congruence. }
  destruct (mount_find_pri me (-1)) as [r pri].
  destruct (Z.ltb_spec r 0) as [Hr|_].
  { injection Hrun as Hr0 _. lia. }
  cbv beta iota zeta in Hrun.
  cbn [strjoin] in Hrun. rewrite !append_empty_r in Hrun.
  fold unit in Hrun. unfold link_path.
  assert (Herr : forall (x : world), (- EEXIST, x) = (0, w') -> False).
  { intros x H. injection H as H _. discriminate H. }
  destruct (fopen_wx unit w) as [w1|] eqn:Hopen;
    [|exfalso; exact (Herr _ Hrun)].
  apply fopen_wx_shape in Hopen as (_ & Hk1 & Hl1).
  destruct (generator_write_timeouts (arg_dest g) what what (mnt_opts me))
    as [r0 filtered].
  destruct (Z.ltb_spec r0 0) as [Hr|_].
  { injection Hrun as Hr0 _. lia. }
  destruct noauto; cbn [negb] in Hrun.
  - injection Hrun as <-. shape_steps. rewrite Hk1, Hl1, app_nil_r.
    split; reflexivity.
  - match type of Hrun with
    | context [symlink ?t ?l ?W] =>
        destruct (symlink t l W) as [w2|] eqn:Hs;
          [apply symlink_shape in Hs as [Hk2 Hl2]
          |exfalso; exact (Herr _ Hrun)]
    end.
    injection Hrun as <-. rewrite Hk2, Hl2. shape_steps.
    rewrite Hk1, Hl1. split; reflexivity.
Qed.

(** A call of [add_mount] that succeeds and creates the mount unit:
    the flags in force are those of lines 214-219. *)
Lemma add_mount_emitted (g : globals) (what where_ : string)
    (fstype : option string) (opts : string) (passno : Z)
    (noauto nofail automount : bool) (p source : string) (w w' : world) :
  let unit := arg_dest g ++ "/" ++ unit_name_from_path where_ ".mount" in
  let aunit := arg_dest g ++ "/" ++ unit_name_from_path where_ ".automount" in
  add_mount g what where_ fstype opts passno noauto nofail automount
    (Some p) source w = (0, w') ->
  path_exists w unit = false -> path_exists w' unit = true ->
  let root := path_equal where_ "/" in
  let na := negb root && noauto in
  let nf := negb root && nofail in
  let am := negb root && automount in
  links w'
  = (links w
     ++ (if na then []
         else [(link_path (arg_dest g) p (nf || am)
                  (unit_name_from_path where_ ".mount"), unit)])
     ++ (if am
         then [(link_path (arg_dest g) p nf
                  (unit_name_from_path where_ ".automount"), aunit)]
         else []))%list
  /\ map fst (files w')
     = (map fst (files w) ++ [unit] ++ (if am then [aunit] else []))%list.
Proof.
  intros unit aunit Hrun Hfresh Hnew root na nf am.
  unfold add_mount in Hrun.
  destruct (streq_ptr fstype (Some "autofs")).
  { injection Hrun as <-. congruence. }
  destruct (negb (is_path where_)).
  { injection Hrun as <-. unfold log_warning in Hnew.
    rewrite path_exists_log_msg in Hnew. congruence. }
  destruct (mount_point_is_api where_ || mount_point_ignore where_).
  { injection Hrun as <-. congruence. }
  assert (Hflags :
    (if path_equal where_ "/" then (false, false, false)
     else (automount, noauto, nofail)) = (am, na, nf)).
  { unfold am, na, nf, root. destruct (path_equal where_ "/"); reflexivity. }
  rewrite Hflags in Hrun. clear Hflags.
  generalize dependent am. generalize dependent na. generalize dependent nf.
  clear root. intros nf na am Hrun.
  cbv beta iota zeta in Hrun.
  cbn [strjoin is_null negb] in Hrun. rewrite !append_empty_r in Hrun.
  fold unit in Hrun. fold aunit in Hrun. unfold link_path.
  destruct (fopen_wx unit w) as [w1|] eqn:Hopen; [|discriminate Hrun].
  apply fopen_wx_shape in Hopen as (_ & Hk1 & Hl1).
  destruct (if negb (passno =? 0)
            then generator_write_fsck_deps (arg_dest g) what where_ fstype
            else (0, [])) as [r fsck].
  destruct (Z.ltb_spec r 0) as [Hr|_].
  { injection Hrun as Hr0 _. lia. }
  destruct (generator_write_timeouts (arg_dest g) what where_ opts)
    as [r0 filtered].
  destruct (Z.ltb_spec r0 0) as [Hr|_].
  { injection Hrun as Hr0 _. lia. }
  assert (Herr : forall (x : world), (- EEXIST, x) = (0, w') -> False).
  { intros x H. injection H as H _. discriminate H. }
  destruct na, am; cbn [negb andb orb] in Hrun |- *;
    repeat match type of Hrun with
           | context [symlink ?t ?l ?W] =>
               let w2 := fresh "w" in
               let Hs := fresh "Hs" in
               destruct (symlink t l W) as [w2|] eqn:Hs;
               [apply symlink_shape in Hs as [? ?]
               |exfalso; exact (Herr _ Hrun)]
           | context [fopen_wx ?q ?W] =>
               let w2 := fresh "w" in
               let Hs := fresh "Ho" in
               destruct (fopen_wx q W) as [w2|] eqn:Hs;
               [apply fopen_wx_shape in Hs as (_ & ? & ?)
               |exfalso; exact (Herr _ Hrun)]
           end;
    injection Hrun as <-; shape_steps;
    repeat match goal with
           | H : links _ = _ |- _ => rewrite H; clear H
           | H : map fst (files _) = _ |- _ => rewrite H; clear H
           | _ => progress shape_steps
           end.
  all: rewrite <- ?app_assoc; cbn [app]; rewrite ?app_nil_r; split; reflexivity.
Qed.

(** C5, as the code has it: a mount unit gets an activation link if and
    only if no-auto-start is not in force, weak (.wants) if fail-ignored
    or automount is in force and strong (.requires) otherwise; a swap
    unit gets one if and only if no-auto-start is not set, weak if
    fail-ignored is set and strong otherwise; the companion automount
    unit, emitted exactly when automount is in force, always gets one,
    whatever no-auto-start says, weak if fail-ignored is in force and
    strong otherwise.  For a mount point equal to the root the three
    flags in force are false.  The part on mount and automount units
    and the part on swap units each hold of every call that succeeds
    and creates its unit, independently of one another. *)
Theorem activation_links (g : globals) (what where_ : string)
    (fstype : option string) (opts : string) (passno : Z)
    (noauto nofail automount : bool) (post source : string) (w w' : world)
    (swap_what : string) (me : mntent) (swap_noauto swap_nofail : bool)
    (ws ws' : world) :
  let name := unit_name_from_path where_ ".mount" in
  let automount_name := unit_name_from_path where_ ".automount" in
  let swap_name := unit_name_from_path swap_what ".swap" in
  let root := path_equal where_ "/" in
  let no_auto_start := negb root && noauto in
  let fail_ignored := negb root && nofail in
  let on_demand := negb root && automount in
  (add_mount g what where_ fstype opts passno noauto nofail automount
     (Some post) source w = (0, w') ->
   path_exists w (unit_path (arg_dest g) name) = false ->
   path_exists w' (unit_path (arg_dest g) name) = true ->
   links w'
   = (links w
      ++ (if no_auto_start then []
          else [(link_path (arg_dest g) post (fail_ignored || on_demand) name,
                 unit_path (arg_dest g) name)])
      ++ (if on_demand
          then [(link_path (arg_dest g) post fail_ignored automount_name,
                 unit_path (arg_dest g) automount_name)]
          else []))%list
   /\ map fst (files w')
      = (map fst (files w) ++ [unit_path (arg_dest g) name]
         ++ (if on_demand then [unit_path (arg_dest g) automount_name]
             else []))%list)
  /\ (add_swap g swap_what me swap_noauto swap_nofail ws = (0, ws') ->
      path_exists ws (unit_path (arg_dest g) swap_name) = false ->
      path_exists ws' (unit_path (arg_dest g) swap_name) = true ->
      links ws'
      = (links ws
         ++ (if swap_noauto then []
             else [(link_path (arg_dest g) SPECIAL_SWAP_TARGET swap_nofail
                      swap_name,
                    unit_path (arg_dest g) swap_name)]))%list
      /\ map fst (files ws')
         = (map fst (files ws) ++ [unit_path (arg_dest g) swap_name])%list).
Proof.
  intros name automount_name swap_name root no_auto_start fail_ignored
    on_demand.
  split.
  - intros Hm Hmf Hmn.
    exact (add_mount_emitted g what where_ fstype opts passno noauto nofail
             automount post source w w' Hm Hmf Hmn).
  - intros Hs Hsf Hsn.
    exact (add_swap_emitted g swap_what me swap_noauto swap_nofail ws ws'
             Hs Hsf Hsn).
Qed.

(** C1, as the code has it: a mount point that [path_equal] finds equal
    to the root makes [add_mount] behave as if noauto, nofail and
    automount were all false, whatever flags the options gave: the call
    is the call with the three flags false, and when the unit is made,
    it is the only file, and its only link is the strong one in the
    target's .requires directory; and an entry of the mount table whose
    resolved mount point (the mount point itself in the pass over
    /etc/fstab, prefixed with /sysroot in the initrd pass) equals the
    root is handed on that way. *)
Theorem root_mount_not_optional (g : globals) (initrd : bool)
    (fstab_path : string) (me : mntent) (w : world)
    (what where_ : string) (fstype : option string) (opts : string)
    (passno : Z) (noauto nofail automount : bool) (post : option string)
    (source : string) :
  (path_equal where_ "/" = true ->
   add_mount g what where_ fstype opts passno noauto nofail automount
     post source w
   = add_mount g what where_ fstype opts passno false false false
       post source w
   /\ (forall p w',
         post = Some p ->
         add_mount g what where_ fstype opts passno noauto nofail automount
           post source w = (0, w') ->
         path_exists w
           (unit_path (arg_dest g) (unit_name_from_path where_ ".mount"))
         = false ->
         path_exists w'
           (unit_path (arg_dest g) (unit_name_from_path where_ ".mount"))
         = true ->
         links w'
         = (links w
            ++ [(link_path (arg_dest g) p false
                   (unit_name_from_path where_ ".mount"),
                 unit_path (arg_dest g)
                   (unit_name_from_path where_ ".mount"))])%list
         /\ map fst (files w')
            = (map fst (files w)
               ++ [unit_path (arg_dest g)
                     (unit_name_from_path where_ ".mount")])%list))
  /\ (path_equal (fstab_where initrd me) "/" = true ->
      mnt_type me <> "swap" ->
      (initrd && negb (mount_in_initrd me)) = false ->
      ((detect_container >? 0)
       && is_device_path (fstab_node_to_udev_node (mnt_fsname me))) = false ->
      exists w0,
        files w0 = files w /\ links w0 = links w
        /\ parse_fstab_entry g initrd fstab_path me w
           = add_mount g (fstab_node_to_udev_node (mnt_fsname me))
               (fstab_where initrd me) (Some (mnt_type me)) (mnt_opts me)
               (mnt_passno me) false false false
               (Some (fstab_post initrd me)) fstab_path w0).
Proof.
  assert (Hcall : forall what where_ fstype opts passno noauto nofail
                         automount post source w,
             path_equal where_ "/" = true ->
             add_mount g what where_ fstype opts passno noauto nofail
               automount post source w
             = add_mount g what where_ fstype opts passno false false false
                 post source w).
  { intros. unfold add_mount.
    match goal with H : path_equal _ _ = true |- _ => rewrite H end.
    reflexivity. }
  split.
  - intros Hroot. split; [apply Hcall; exact Hroot|].
    intros p w' -> Hrun Hfresh Hnew.
    pose proof (add_mount_emitted g what where_ fstype opts passno noauto
                  nofail automount p source w w' Hrun Hfresh Hnew) as H.
    cbv zeta in H. rewrite Hroot in H. cbn [negb andb orb] in H.
    rewrite app_nil_r in H. exact H.
  - intros Hentry Hswap Hin Hdev.
    eexists. split; [|split]; cycle 2.
    + unfold parse_fstab_entry. rewrite Hin, Hdev.
      apply String.eqb_neq in Hswap. unfold streq at 1. rewrite Hswap.
      apply Hcall. exact Hentry.
    + reflexivity.
    + reflexivity.
Qed.

End Emission.

(** C5 in the specification's wording fails: the entry
    [/dev/sda3 /home ext4 noauto,x-systemd.automount 0 0] has
    no-auto-start set, and its automount unit is linked all the same;
    and the automount unit of
    [/dev/sda3 /home ext4 x-systemd.automount 0 0] is linked from the
    .requires directory although automount is set. *)
Lemma automount_links_as_stated_fails :
  let w1 := snd (@parse_fstab_entry (Reference.host []) initial_globals false
                   "/etc/fstab"
                   (Reference.entry "/dev/sda3" "/home" "ext4"
                      "noauto,x-systemd.automount" 0)
                   empty_world) in
  let w2 := snd (@parse_fstab_entry (Reference.host []) initial_globals false
                   "/etc/fstab"
                   (Reference.entry "/dev/sda3" "/home" "ext4"
                      "x-systemd.automount" 0)
                   empty_world) in
  (links_to "/tmp/home.automount" w1
   = [("/tmp/local-fs.target.requires/home.automount", "/tmp/home.automount")]
   /\ ~ unit_links_as_stated w1 "/tmp" "local-fs.target" "home.automount"
          "/tmp/home.automount" true false true)
  /\ links_to "/tmp/home.automount" w2
     = [("/tmp/local-fs.target.requires/home.automount",
         "/tmp/home.automount")]
  /\ ~ unit_links_as_stated w2 "/tmp" "local-fs.target" "home.automount"
         "/tmp/home.automount" false false true.
Proof.
  cbv zeta. split; [split|split].
  - vm_compute. reflexivity.
  - unfold unit_links_as_stated. vm_compute. discriminate.
  - vm_compute. reflexivity.
  - unfold unit_links_as_stated. vm_compute. discriminate.
Qed.

Lemma activation_links_witness :
  let E := Reference.host [] in
  let w' := snd (@add_mount E initial_globals "/dev/sda3" "/home"
                   (Some "ext4") "noauto,nofail,x-systemd.automount" 0
                   true true true (Some "local-fs.target") "/etc/fstab"
                   empty_world) in
  let ws' := snd (@add_swap E initial_globals "/swapfile"
                    (swap_entry "/swapfile" "defaults") false false
                    empty_world) in
  (links w'
   = [("/tmp/local-fs.target.wants/home.automount", "/tmp/home.automount")]
   /\ map fst (files w') = ["/tmp/home.mount"; "/tmp/home.automount"])
  /\ links ws'
     = [("/tmp/swap.target.requires/swapfile.swap", "/tmp/swapfile.swap")]
  /\ map fst (files ws') = ["/tmp/swapfile.swap"].
Proof.
  intros E w' ws'.
  destruct (@activation_links E initial_globals
              "/dev/sda3" "/home" (Some "ext4")
              "noauto,nofail,x-systemd.automount" 0 true true true
              "local-fs.target" "/etc/fstab" empty_world w'
              "/swapfile" (swap_entry "/swapfile" "defaults") false false
              empty_world ws') as [Hm Hs].
  split.
  - apply Hm; vm_compute; reflexivity.
  - apply Hs; vm_compute; reflexivity.
Defined.

(** C1 in the specification's wording fails: in the initrd pass the
    entry [/dev/sda1 / ext4 noauto,x-initrd.mount 0 1] of
    /sysroot/etc/fstab has the mount point "/", which resolves to
    /sysroot; its unit is made, and noauto stays in force: no link is
    made, where the call with the three flags false makes one. *)
Lemma root_entry_as_stated_fails :
  let E := Reference.env 0 true Reference.no_fstab [] in
  let me := Reference.entry "/dev/sda1" "/" "ext4" "noauto,x-initrd.mount" 1 in
  let w' := snd (@parse_fstab_entry E initial_globals true
                   "/sysroot/etc/fstab" me empty_world) in
  (@fstab_where E true me = "/sysroot"
   /\ map fst (files w') = ["/tmp/sysroot.mount"]
   /\ links w' = [])
  /\ links (snd (@add_mount E initial_globals "/dev/sda1" "/sysroot"
                   (Some "ext4") "noauto,x-initrd.mount" 1 false false false
                   (Some "initrd-fs.target") "/sysroot/etc/fstab"
                   empty_world))
     = [("/tmp/initrd-fs.target.requires/sysroot.mount",
         "/tmp/sysroot.mount")]
  /\ ~ @root_entry_as_stated E initial_globals true "/sysroot/etc/fstab" me
         empty_world.
Proof.
  cbv zeta. split; [repeat split; vm_compute; reflexivity|].
  split; [vm_compute; reflexivity|].
  unfold root_entry_as_stated. intros H.
  destruct (H eq_refl ltac:(discriminate)) as (w0 & Hf & Hl & Heq).
  destruct w0 as [fs ls lg]. cbn [files links empty_world] in Hf, Hl.
  subst fs ls.
  apply (f_equal (fun r => links (snd r))) in Heq.
  vm_compute in Heq. discriminate Heq.
Qed.

Lemma root_mount_not_optional_witness :
  let E := Reference.host [] in
  let me := Reference.entry "/dev/sda1" "/" "ext4"
              "noauto,nofail,x-systemd.automount" 1 in
  let w' := snd (@parse_fstab_entry E initial_globals false "/etc/fstab" me
                   empty_world) in
  (links w' = [("/tmp/local-fs.target.requires/-.mount", "/tmp/-.mount")]
   /\ map fst (files w') = ["/tmp/-.mount"])
  /\ exists w0,
       files w0 = [] /\ links w0 = []
       /\ @parse_fstab_entry E initial_globals false "/etc/fstab" me
            empty_world
          = @add_mount E initial_globals "/dev/sda1" "/" (Some "ext4")
              "noauto,nofail,x-systemd.automount" 1 false false false
              (Some "local-fs.target") "/etc/fstab" w0.
Proof.
  destruct (@root_mount_not_optional (Reference.host []) initial_globals
              false "/etc/fstab"
              (Reference.entry "/dev/sda1" "/" "ext4"
                 "noauto,nofail,x-systemd.automount" 1)
              empty_world
              "/dev/sda1" "/" (Some "ext4")
              "noauto,nofail,x-systemd.automount" 1 true true true
              (Some "local-fs.target") "/etc/fstab")
    as [Hcall Hentry].
  split.
  - destruct (@root_mount_not_optional (Reference.host []) initial_globals
                false "/etc/fstab"
                (Reference.entry "/dev/sda1" "/" "ext4"
                   "noauto,nofail,x-systemd.automount" 1)
                (log_debug "Found entry what=/dev/sda1 where=/ type=ext4 nofail=yes noauto=yes" empty_world)
                "/dev/sda1" "/" (Some "ext4")
                "noauto,nofail,x-systemd.automount" 1 true true true
                (Some "local-fs.target") "/etc/fstab")
      as [Hcall' _].
    destruct (Hcall' eq_refl) as [_ H].
    exact (H "local-fs.target" _ eq_refl eq_refl eq_refl eq_refl).
  - exact (Hentry eq_refl ltac:(discriminate) eq_refl eq_refl).
Defined.

(** ** The passes *)

Section Passes.

Context {E : Env}.

Lemma parse_fstab_loop_trace (g : globals) (initrd : bool)
    (fstab_path : string) (entries : list mntent) :
  forall r w,
    parse_fstab_loop g initrd fstab_path entries r w
    = (last_negative r (entry_statuses g initrd fstab_path entries w),
       entries_world g initrd fstab_path entries w).
Proof.
  induction entries as [|me rest IH]; intros r w; [reflexivity|].
  cbn [parse_fstab_loop entry_statuses entries_world fold_left].
  destruct (parse_fstab_entry g initrd fstab_path me w) as [k w1].
  rewrite IH. reflexivity.
Qed.

Lemma entry_statuses_length (g : globals) (initrd : bool)
    (fstab_path : string) (entries : list mntent) :
  forall w,
    length (entry_statuses g initrd fstab_path entries w) = length entries.
Proof.
  induction entries as [|me rest IH]; intros w; [reflexivity|].
  cbn [entry_statuses].
  destruct (parse_fstab_entry g initrd fstab_path me w) as [k w1].
  cbn [length]. now rewrite IH.
Qed.

Lemma last_negative_failure (ks : list Z) :
  forall r, last_negative r ks < 0 <-> r < 0 \/ exists k, In k ks /\ k < 0.
Proof.
  unfold last_negative.
  induction ks as [|k ks IH]; intros r; cbn [fold_left In].
  - split; [auto|]. intros [H|(k & [] & _)]. exact H.
  - rewrite IH. destruct (Z.ltb_spec k 0) as [Hk|Hk].
    + split; [|auto]. intros _. right. exists k. auto.
    + split.
      * intros [H|(k' & Hin & Hk')]; [auto|]. right. exists k'. auto.
      * intros [H|(k' & [->|Hin] & Hk')]; [auto|lia|].
        right. exists k'. auto.
Qed.

Lemma parse_proc_cmdline_from_status (items : list (string * option string)) :
  forall g w, fst (fst (parse_proc_cmdline_from items g w)) = 0.
Proof.
  induction items as [|[k v] items IH]; intros g w; [reflexivity|].
  cbn [parse_proc_cmdline_from].
  pose proof (parse_proc_cmdline_item_root_what k v g w) as [_ Hr].
  destruct (parse_proc_cmdline_item k v g w) as [[r g1] w1].
  cbn [fst] in Hr. subst r. apply IH.
Qed.

(** The whole run, pass by pass: each pass starts in the world the one
    before left, whatever that one returned. *)
Lemma main_passes (argv : list string) (w : world) :
  main argv w
  = let argc := Z.of_nat (length argv) in
    if (argc >? 1) && negb (argc =? 4) then
      (EXIT_FAILURE, initial_globals,
       log_error "This program takes three or no arguments." w)
    else
      let g0 := if argc >? 1 then set_dest (nth 1 argv "") initial_globals
                else initial_globals in
      let g1 := collected proc_cmdline g0 w in
      let w1 := snd (parse_proc_cmdline g0 w) in
      let boot := if in_initrd then add_boot_mounts g1 w1 else (0, g1, w1) in
      let g2 := snd (fst boot) in
      let first :=
        parse_fstab g2 false (log_debug "Parsing /etc/fstab" (snd boot)) in
      let second :=
        parse_fstab g2 true
          (log_debug "Parsing /sysroot/etc/fstab" (snd first)) in
      (if (fst (fst boot) <? 0)
          || (arg_fstab_enabled g2
              && ((fst first <? 0) || (in_initrd && (fst second <? 0))))
       then EXIT_FAILURE else EXIT_SUCCESS,
       g2,
       if arg_fstab_enabled g2
       then if in_initrd then snd second else snd first
       else snd boot).
Proof.
  unfold main. cbv zeta.
  destruct ((Z.of_nat (length argv) >? 1)
            && negb (Z.of_nat (length argv) =? 4)); [reflexivity|].
  set (g0 := if Z.of_nat (length argv) >? 1
             then set_dest (nth 1 argv "") initial_globals
             else initial_globals).
  unfold parse_proc_cmdline, collected.
  pose proof (parse_proc_cmdline_from_status proc_cmdline g0 w) as Hr.
  destruct (parse_proc_cmdline_from proc_cmdline g0 w) as [[r0 g1] w1].
  cbn [fst snd] in *. subst r0. change (0 <? 0) with false. cbv iota.
  destruct in_initrd.
  - destruct (add_boot_mounts g1 w1) as [[rb g2] w2]. cbn [fst snd andb].
    destruct (arg_fstab_enabled g2); cbn [andb].
    + destruct (parse_fstab g2 false (log_debug "Parsing /etc/fstab" w2))
        as [k1 w3]. cbn [fst snd].
      destruct (parse_fstab g2 true
                  (log_debug "Parsing /sysroot/etc/fstab" w3)) as [k2 w4].
      cbn [fst snd].
      destruct (Z.ltb_spec k2 0), (Z.ltb_spec k1 0), (Z.ltb_spec rb 0);
        cbn [orb];
        repeat match goal with
               | |- context [?x <? 0] => destruct (Z.ltb_spec x 0); try lia
               end; reflexivity.
    + rewrite orb_false_r. reflexivity.
  - cbn [fst snd andb]. change (0 <? 0) with false. cbn [orb].
    destruct (arg_fstab_enabled g1); cbn [andb]; [|reflexivity].
    destruct (parse_fstab g1 false (log_debug "Parsing /etc/fstab" w1))
      as [k1 w3]. cbn [fst snd]. rewrite orb_false_r.
    destruct (Z.ltb_spec k1 0);
      repeat match goal with
             | |- context [?x <? 0] => destruct (Z.ltb_spec x 0); try lia
             end; reflexivity.
Qed.

(** C3, as the code has it: every entry of a pass is run, each in the
    world its predecessors left, whatever they returned; a pass over a
    table that opens returns the last negative status among its entries
    (0 if there is none), hence a negative one exactly when some entry
    failed; a table that is absent makes the pass return 0, and one that
    cannot be opened for another reason makes it return the negated
    error number after an error message; the boot-override pass runs
    the secondary-volume mount only if the root mount returned 0; every
    enabled pass of the mount table is run whatever the passes before
    returned, and the exit status is a failure exactly when the
    boot-override pass or an enabled pass returned a negative status. *)
Theorem passes_record_last_failure (g : globals) (initrd : bool)
    (fstab_path : string) (entries : list mntent) (w : world)
    (argv : list string) :
  parse_fstab_loop g initrd fstab_path entries 0 w
  = (last_negative 0 (entry_statuses g initrd fstab_path entries w),
     entries_world g initrd fstab_path entries w)
  /\ length (entry_statuses g initrd fstab_path entries w) = length entries
  /\ (fst (parse_fstab_loop g initrd fstab_path entries 0 w) < 0
      <-> exists k,
            In k (entry_statuses g initrd fstab_path entries w) /\ k < 0)
  /\ (let table := if initrd then "/sysroot/etc/fstab" else "/etc/fstab" in
      match setmntent table with
      | inl errno =>
          parse_fstab g initrd w
          = (if errno =? ENOENT then (0, w)
             else (- errno, log_error ("Failed to open " ++ table) w))
      | inr listed =>
          parse_fstab g initrd w
          = (last_negative 0 (entry_statuses g initrd table listed w),
             entries_world g initrd table listed w)
          /\ length (entry_statuses g initrd table listed w) = length listed
          /\ (fst (parse_fstab g initrd w) < 0
              <-> exists k,
                    In k (entry_statuses g initrd table listed w) /\ k < 0)
      end)
  /\ add_boot_mounts g w
     = (if fst (add_root_mount g w) =? 0
        then add_usr_mount g (snd (add_root_mount g w))
        else (fst (add_root_mount g w), g, snd (add_root_mount g w)))
  /\ main argv w
     = let argc := Z.of_nat (length argv) in
       if (argc >? 1) && negb (argc =? 4) then
         (EXIT_FAILURE, initial_globals,
          log_error "This program takes three or no arguments." w)
       else
         let g0 := if argc >? 1 then set_dest (nth 1 argv "") initial_globals
                   else initial_globals in
         let g1 := collected proc_cmdline g0 w in
         let w1 := snd (parse_proc_cmdline g0 w) in
         let boot :=
           if in_initrd then add_boot_mounts g1 w1 else (0, g1, w1) in
         let g2 := snd (fst boot) in
         let first :=
           parse_fstab g2 false (log_debug "Parsing /etc/fstab" (snd boot)) in
         let second :=
           parse_fstab g2 true
             (log_debug "Parsing /sysroot/etc/fstab" (snd first)) in
         (if (fst (fst boot) <? 0)
             || (arg_fstab_enabled g2
                 && ((fst first <? 0) || (in_initrd && (fst second <? 0))))
          then EXIT_FAILURE else EXIT_SUCCESS,
          g2,
          if arg_fstab_enabled g2
          then if in_initrd then snd second else snd first
          else snd boot).
Proof.
  assert (Hneg : forall path listed w0,
             fst (parse_fstab_loop g initrd path listed 0 w0) < 0
             <-> exists k,
                   In k (entry_statuses g initrd path listed w0) /\ k < 0).
  { intros path listed w0. rewrite parse_fstab_loop_trace. cbn [fst].
    rewrite last_negative_failure. split; [|auto].
    intros [H|H]; [lia|exact H]. }
  split; [apply parse_fstab_loop_trace|].
  split; [apply entry_statuses_length|].
  split; [apply Hneg|].
  split.
  - cbv zeta. unfold parse_fstab.
    destruct (setmntent (if initrd then "/sysroot/etc/fstab"
                         else "/etc/fstab")) as [errno|listed];
      [reflexivity|].
    split; [apply parse_fstab_loop_trace|].
    split; [apply entry_statuses_length|apply Hneg].
  - split; [|apply main_passes].
    unfold add_boot_mounts. destruct (add_root_mount g w) as [r w1].
    reflexivity.
Qed.

Lemma add_root_mount_relative (g : globals) (w : world) (root_what : string) :
  arg_root_what g = Some root_what -> root_what <> "" ->
  path_is_absolute (fstab_node_to_udev_node root_what) = false ->
  add_root_mount g w
  = (0, log_debug ("Skipping entry what=" ++ fstab_node_to_udev_node root_what
                   ++ " where=/sysroot type=" ++ strna (arg_root_fstype g)) w).
Proof.
  intros Hroot Hne Hrel. unfold add_root_mount. rewrite Hroot.
  apply String.eqb_neq in Hne. unfold streq. rewrite Hne, Hrel.
  reflexivity.
Qed.

Lemma add_usr_mount_relative (g : globals) (w : world)
    (usr_what usr_options : string) :
  (is_null (arg_usr_what g) && is_null (arg_usr_fstype g)
   && is_null (arg_usr_options g)) = false ->
  default_from (arg_root_what g) (arg_usr_what g) = Some usr_what ->
  default_from (arg_root_options g) (arg_usr_options g) = Some usr_options ->
  path_is_absolute (fstab_node_to_udev_node usr_what) = false ->
  fst (fst (add_usr_mount g w)) = -1
  /\ snd (add_usr_mount g w)
     = log_debug ("Skipping entry what=" ++ fstab_node_to_udev_node usr_what
                  ++ " where=/sysroot/usr type="
                  ++ strna (default_from (arg_root_fstype g)
                              (arg_usr_fstype g))) w.
Proof.
  intros Hset Hw Ho Hrel. unfold add_usr_mount. rewrite Hset.
  destruct g as [dest en rw rf ro rrw uw uf uo].
  cbn [arg_usr_what arg_usr_options arg_root_fstype arg_usr_fstype
       arg_root_what arg_root_options] in *.
  destruct rw, rf, ro, uw, uf, uo; cbn [default_from is_null andb] in *;
    try discriminate;
    injection Hw as ->; injection Ho as ->;
    cbn -[add_mount append]; rewrite Hrel; split; reflexivity.
Qed.

(** C7, as the code has it: a root device that does not resolve to an
    absolute path makes [add_root_mount] skip the root mount with a
    message at debug level and status 0; the secondary-volume mount is
    then tried as usual and every enabled pass of the mount table is
    run, and the exit status of the run is the one the secondary-volume
    mount and the passes give: with no secondary-volume field set it is
    the one the passes give.  A secondary-volume device, given or
    inherited from the root, that does not resolve to an absolute path
    makes [add_usr_mount] leave the world as it was but for a message
    at debug level, and every enabled pass of the mount table is run
    after it. *)
Theorem relative_boot_device_skipped (argv : list string) (w : world)
    (g gu : globals) (wg wu : world)
    (root_what usr_what usr_options : string) :
  let argc := Z.of_nat (length argv) in
  let g0 := if argc >? 1 then set_dest (nth 1 argv "") initial_globals
            else initial_globals in
  let g1 := collected proc_cmdline g0 w in
  let w1 := snd (parse_proc_cmdline g0 w) in
  let root_skipped (g : globals) (w : world) :=
    log_debug ("Skipping entry what=" ++ fstab_node_to_udev_node root_what
               ++ " where=/sysroot type=" ++ strna (arg_root_fstype g)) w in
  let usr_skipped (g : globals) (w : world) :=
    log_debug ("Skipping entry what=" ++ fstab_node_to_udev_node usr_what
               ++ " where=/sysroot/usr type="
               ++ strna (default_from (arg_root_fstype g)
                           (arg_usr_fstype g))) w in
  let passes (g : globals) (w : world) :=
    let first := parse_fstab g false (log_debug "Parsing /etc/fstab" w) in
    let second :=
      parse_fstab g true
        (log_debug "Parsing /sysroot/etc/fstab" (snd first)) in
    (arg_fstab_enabled g && ((fst first <? 0) || (fst second <? 0)),
     if arg_fstab_enabled g then snd second else w) in
  (arg_root_what g = Some root_what -> root_what <> "" ->
   path_is_absolute (fstab_node_to_udev_node root_what) = false ->
   add_root_mount g wg = (0, root_skipped g wg)
   /\ add_boot_mounts g wg = add_usr_mount g (root_skipped g wg))
  /\ (((argc >? 1) && negb (argc =? 4)) = false -> in_initrd = true ->
      arg_root_what g1 = Some root_what -> root_what <> "" ->
      path_is_absolute (fstab_node_to_udev_node root_what) = false ->
      let usr := add_usr_mount g1 (root_skipped g1 w1) in
      main argv w
      = (if (fst (fst usr) <? 0) || fst (passes (snd (fst usr)) (snd usr))
         then EXIT_FAILURE else EXIT_SUCCESS,
         snd (fst usr),
         snd (passes (snd (fst usr)) (snd usr))))
  /\ (((argc >? 1) && negb (argc =? 4)) = false -> in_initrd = true ->
      arg_root_what g1 = Some root_what -> root_what <> "" ->
      path_is_absolute (fstab_node_to_udev_node root_what) = false ->
      arg_usr_what g1 = None -> arg_usr_fstype g1 = None ->
      arg_usr_options g1 = None ->
      main argv w
      = (if fst (passes g1 (root_skipped g1 w1))
         then EXIT_FAILURE else EXIT_SUCCESS,
         g1,
         snd (passes g1 (root_skipped g1 w1))))
  /\ ((is_null (arg_usr_what gu) && is_null (arg_usr_fstype gu)
       && is_null (arg_usr_options gu)) = false ->
      default_from (arg_root_what gu) (arg_usr_what gu) = Some usr_what ->
      default_from (arg_root_options gu) (arg_usr_options gu)
      = Some usr_options ->
      path_is_absolute (fstab_node_to_udev_node usr_what) = false ->
      snd (add_usr_mount gu wu) = usr_skipped gu wu)
  /\ (((argc >? 1) && negb (argc =? 4)) = false -> in_initrd = true ->
      fst (add_root_mount g1 w1) = 0 ->
      (is_null (arg_usr_what g1) && is_null (arg_usr_fstype g1)
       && is_null (arg_usr_options g1)) = false ->
      default_from (arg_root_what g1) (arg_usr_what g1) = Some usr_what ->
      default_from (arg_root_options g1) (arg_usr_options g1)
      = Some usr_options ->
      path_is_absolute (fstab_node_to_udev_node usr_what) = false ->
      let rooted := snd (add_root_mount g1 w1) in
      snd (main argv w)
      = snd (passes (snd (fst (add_usr_mount g1 rooted)))
               (usr_skipped g1 rooted))).
Proof.
  intros argc g0 g1 w1 root_skipped usr_skipped passes.
  assert (Hrun : ((argc >? 1) && negb (argc =? 4)) = false ->
                 in_initrd = true ->
                 main argv w
                 = (let boot := add_boot_mounts g1 w1 in
                    (if (fst (fst boot) <? 0)
                        || fst (passes (snd (fst boot)) (snd boot))
                     then EXIT_FAILURE else EXIT_SUCCESS,
                     snd (fst boot),
                     snd (passes (snd (fst boot)) (snd boot))))).
  { intros Hargc Hin. rewrite main_passes. cbv zeta.
    fold argc. rewrite Hargc. fold g0. fold g1. fold w1. rewrite Hin.
    subst passes. cbn [fst snd andb]. reflexivity. }
  assert (Hboot : forall g w,
             arg_root_what g = Some root_what -> root_what <> "" ->
             path_is_absolute (fstab_node_to_udev_node root_what) = false ->
             add_boot_mounts g w = add_usr_mount g (root_skipped g w)).
  { intros g' w' Hroot Hne Hrel. unfold add_boot_mounts.
    rewrite (add_root_mount_relative g' w' root_what Hroot Hne Hrel).
    reflexivity. }
  split; [|split; [|split; [|split]]].
  - intros Hroot Hne Hrel. split.
    + exact (add_root_mount_relative g wg root_what Hroot Hne Hrel).
    + exact (Hboot g wg Hroot Hne Hrel).
  - intros Hargc Hin Hroot Hne Hrel usr.
    rewrite (Hrun Hargc Hin). cbv zeta.
    rewrite (Hboot g1 w1 Hroot Hne Hrel). reflexivity.
  - intros Hargc Hin Hroot Hne Hrel Huw Huf Huo.
    rewrite (Hrun Hargc Hin). cbv zeta.
    rewrite (Hboot g1 w1 Hroot Hne Hrel).
    rewrite (add_usr_mount_unset g1 (root_skipped g1 w1) Huw Huf Huo).
    reflexivity.
  - intros Hset Hw Ho Hrel.
    exact (proj2 (add_usr_mount_relative gu wu usr_what usr_options
                    Hset Hw Ho Hrel)).
  - intros Hargc Hin Hr0 Hset Hw Ho Hrel rooted.
    rewrite (Hrun Hargc Hin). cbv zeta. cbn [snd].
    assert (Hb : add_boot_mounts g1 w1 = add_usr_mount g1 rooted).
    { unfold add_boot_mounts. subst rooted.
      destruct (add_root_mount g1 w1) as [r0 wr]. cbn [fst snd] in *.
      subst r0. reflexivity. }
    rewrite Hb.
    rewrite (proj2 (add_usr_mount_relative g1 rooted usr_what usr_options
                      Hset Hw Ho Hrel)).
    reflexivity.
Qed.
End Passes.

(** C3 in the specification's wording fails: two swap entries fail, the
    first with [-EINVAL] and the second with [-ERANGE], and the pass
    returns the second status, not the first; and a root mount that
    fails keeps the secondary-volume mount from being tried: with the
    unit of /sysroot in the way, [root=/dev/sda1 mount.usr=/dev/sda2
    mount.usrflags=ro] makes no unit at all, while it makes both in the
    empty world. *)
Lemma first_status_as_stated_fails :
  let entries := [swap_entry "/dev/sda2" "pri=";
                  swap_entry "/dev/sda3" "pri=18446744073709551616"] in
  let E := Reference.initrd [] in
  let g := @collected E
             [("root", Some "/dev/sda1"); ("mount.usr", Some "/dev/sda2");
              ("mount.usrflags", Some "ro")] initial_globals empty_world in
  let w := {| files := [("/tmp/sysroot.mount", [])]; links := [];
              log := [] |} in
  (@entry_statuses (Reference.host entries) initial_globals false "/etc/fstab"
     entries empty_world = [- EINVAL; - ERANGE]
   /\ fst (@parse_fstab (Reference.host entries) initial_globals false
             empty_world) = - ERANGE
   /\ ~ @first_status_as_stated (Reference.host entries) initial_globals false
          "/etc/fstab" entries empty_world)
  /\ fst (fst (@add_boot_mounts E g w)) = - EEXIST
  /\ files (snd (@add_boot_mounts E g w)) = files w
  /\ map fst (files (snd (@add_boot_mounts E g empty_world)))
     = ["/tmp/sysroot.mount"; "/tmp/sysroot-usr.mount"].
Proof.
  cbv zeta. split.
  - split; [vm_compute; reflexivity|].
    split; [vm_compute; reflexivity|].
    unfold first_status_as_stated. vm_compute. discriminate.
  - repeat split; vm_compute; reflexivity.
Qed.

(** C7 in the specification's wording fails: [root=sda1] does not resolve
    to an absolute path; the root mount is skipped with a message at
    debug level, no warning is logged, and the run succeeds as it does
    without any parameter; [mount.usr=sda2 mount.usrflags=ro] does not
    resolve to an absolute path either, and the run fails. *)
Lemma skipped_with_warning_fails :
  let E := Reference.initrd [("root", Some "sda1")] in
  let g := set_root_what (Some "sda1") initial_globals in
  (@add_root_mount E g empty_world
   = (0, log_debug "Skipping entry what=sda1 where=/sysroot type=n/a"
           empty_world)
   /\ ~ skipped_with_warning (fst (@add_root_mount E g empty_world))
          empty_world (snd (@add_root_mount E g empty_world)))
  /\ fst (fst (@main (Reference.initrd [("root", Some "sda1")])
                 ["systemd-fstab-generator"] empty_world)) = EXIT_SUCCESS
  /\ fst (fst (@main (Reference.initrd [])
                 ["systemd-fstab-generator"] empty_world)) = EXIT_SUCCESS
  /\ fst (fst (@main (Reference.initrd [("mount.usr", Some "sda2");
                                        ("mount.usrflags", Some "ro")])
                 ["systemd-fstab-generator"] empty_world)) = EXIT_FAILURE.
Proof.
  cbv zeta. split.
  - split; [vm_compute; reflexivity|].
    unfold skipped_with_warning. intros (_ & _ & _ & m & Hin).
    vm_compute in Hin. destruct Hin as [Hin|[]]. discriminate Hin.
  - repeat split; vm_compute; reflexivity.
Qed.

Lemma relative_boot_device_skipped_witness :
  let E1 := Reference.initrd [("root", Some "sda1")] in
  let E2 := Reference.initrd [("root", Some "sda1");
                              ("mount.usrflags", Some "ro")] in
  let g := set_root_what (Some "sda1") initial_globals in
  let gu := set_usr_options (Some "ro") g in
  let root_skipped :=
    (LOG_DEBUG, "Skipping entry what=sda1 where=/sysroot type=n/a") in
  let usr_skipped :=
    (LOG_DEBUG, "Skipping entry what=sda1 where=/sysroot/usr type=n/a") in
  let passes := [(LOG_DEBUG, "Parsing /etc/fstab");
                 (LOG_DEBUG, "Parsing /sysroot/etc/fstab")] in
  (@add_root_mount E1 g empty_world
   = (0, {| files := []; links := []; log := [root_skipped] |})
   /\ @add_boot_mounts E1 g empty_world
      = @add_usr_mount E1 g
          {| files := []; links := []; log := [root_skipped] |})
  /\ (fst (@main E1 ["systemd-fstab-generator"] empty_world)
      = (EXIT_SUCCESS, g)
      /\ snd (@main E1 ["systemd-fstab-generator"] empty_world)
         = {| files := []; links := []; log := root_skipped :: passes |})
  /\ @main E1 ["systemd-fstab-generator"] empty_world
     = (EXIT_SUCCESS, g,
        {| files := []; links := []; log := root_skipped :: passes |})
  /\ snd (@add_usr_mount E2 gu empty_world)
     = {| files := []; links := []; log := [usr_skipped] |}
  /\ snd (@main E2 ["systemd-fstab-generator"] empty_world)
     = {| files := []; links := [];
          log := root_skipped :: usr_skipped :: passes |}.
Proof.
  intros E1 E2 g gu root_skipped usr_skipped passes.
  destruct (@relative_boot_device_skipped E1 ["systemd-fstab-generator"]
              empty_world g gu empty_world empty_world "sda1" "sda1" "ro")
    as (Hroot & Hrun & Hunset & _ & _).
  destruct (@relative_boot_device_skipped E2 ["systemd-fstab-generator"]
              empty_world g gu empty_world empty_world "sda1" "sda1" "ro")
    as (_ & _ & _ & Husr & Hlater).
  split; [|split; [|split; [|split]]].
  - exact (Hroot eq_refl ltac:(discriminate) eq_refl).
  - rewrite (Hrun eq_refl eq_refl eq_refl ltac:(discriminate) eq_refl).
    split; vm_compute; reflexivity.
  - rewrite (Hunset eq_refl eq_refl eq_refl ltac:(discriminate) eq_refl
               eq_refl eq_refl eq_refl).
    vm_compute. reflexivity.
  - rewrite (Husr eq_refl eq_refl eq_refl eq_refl). reflexivity.
  - rewrite (Hlater eq_refl eq_refl eq_refl eq_refl eq_refl eq_refl eq_refl).
    vm_compute. reflexivity.
Defined.

(** * Further properties *)

(** ** More on priority extraction *)

Lemma strtoul_errno (s : string) :
  snd (strtoul s) = 0 \/ snd (strtoul s) = ERANGE.
Proof.
  unfold strtoul.
  destruct (match skip_spaces s with
            | String c r =>
                if Ascii.eqb c "-" then (true, r)
                else if Ascii.eqb c "+" then (false, r)
                else (false, skip_spaces s)
            | EmptyString => (false, skip_spaces s)
            end) as [neg s1].
  destruct (digit_value (deref s1)); [|left; reflexivity].
  destruct (scan_digits 0 s1) as [v rest].
  destruct (v >? ULONG_MAX); [right|left]; reflexivity.
Qed.

Lemma int_of_ulong_range (r : Z) :
  - 2 ^ (INT_BITS - 1) <= int_of_ulong r < 2 ^ (INT_BITS - 1).
Proof.
  unfold int_of_ulong, INT_BITS.
  change (2 ^ 32) with 4294967296. change (2 ^ (32 - 1)) with 2147483648.
  pose proof (Z.mod_pos_bound r 4294967296 ltac:(lia)) as H.
  destruct (Z.ltb_spec (r mod 4294967296) 2147483648); lia.
Qed.

(** X1: [mount_find_pri] has four outcomes: 0 with the priority left as
    it was when no option starts with pri; 1 with a priority in the
    range of an int; [-EINVAL] or [-ERANGE] with the priority left as it
    was. *)
Theorem mount_find_pri_outcome (me : mntent) (ret : Z) :
  (fst (mount_find_pri me ret) = 0
   /\ snd (mount_find_pri me ret) = ret /\ has_opt me "pri" = false)
  \/ (fst (mount_find_pri me ret) = 1
      /\ has_opt me "pri" = true
      /\ - 2 ^ (INT_BITS - 1) <= snd (mount_find_pri me ret)
         < 2 ^ (INT_BITS - 1))
  \/ ((fst (mount_find_pri me ret) = - EINVAL
       \/ fst (mount_find_pri me ret) = - ERANGE)
      /\ snd (mount_find_pri me ret) = ret /\ has_opt me "pri" = true).
Proof.
  unfold mount_find_pri, has_opt.
  destruct (hasmntopt me "pri") as [opt|]; [|left; repeat split].
  right.
  destruct (negb (Ascii.eqb (deref (advance_by (String.length "pri") opt)) "=")).
  { right. cbn [fst snd]. auto. }
  pose proof (strtoul_errno (advance (advance_by (String.length "pri") opt)))
    as Herr.
  destruct (strtoul (advance (advance_by (String.length "pri") opt)))
    as [[r end_] errno].
  cbn [snd] in Herr.
  destruct Herr as [-> | ->].
  - change (0 >? 0) with false. cbv iota.
    destruct (String.eqb end_ _ || _).
    + right. cbn [fst snd]. auto.
    + left. cbn [fst snd]. split; [reflexivity|]. split; [reflexivity|].
      apply int_of_ulong_range.
  - right. cbn [fst snd]. auto.
Qed.



Section SignedPriority.
Context {E : Env}.

End SignedPriority.


(** ** The world only grows *)

Lemma grows_refl (w : world) : grows w w.
Proof.
  exists [], [], []. rewrite !app_nil_r.
  repeat split; intros; contradiction.
Qed.

Lemma path_exists_true (w : world) (p : string) :
  path_exists w p = true
  <-> In p (map fst (files w)) \/ In p (map fst (links w)).
Proof.
  unfold path_exists. rewrite existsb_exists. split.
  - intros (x & Hin & Heq). apply String.eqb_eq in Heq. subst x.
    apply in_app_iff in Hin. exact Hin.
  - intros H. exists p. rewrite in_app_iff, String.eqb_refl. auto.
Qed.

Lemma path_exists_grows (w w' : world) (p : string) :
  grows w w' -> path_exists w p = true -> path_exists w' p = true.
Proof.
  intros (fa & la & lg & Hf & Hl & _) H.
  apply path_exists_true in H. apply path_exists_true.
  rewrite Hf, Hl, !map_app, !in_app_iff. tauto.
Qed.

Lemma path_exists_grows_false (w w' : world) (p : string) :
  grows w w' -> path_exists w' p = false -> path_exists w p = false.
Proof.
  intros Hg H. destruct (path_exists w p) eqn:Hp; [|reflexivity].
  rewrite (path_exists_grows w w' p Hg Hp) in H. discriminate.
Qed.

Lemma grows_trans (a b c : world) : grows a b -> grows b c -> grows a c.
Proof.
  intros Hab Hbc. pose proof Hab as (fa & la & lg & Hf & Hl & Hg & Hfr & Hln).
  destruct Hbc as (fb & lb & lgb & Hf' & Hl' & Hg' & Hfr' & Hln').
  exists (fa ++ fb)%list, (la ++ lb)%list, (lg ++ lgb)%list.
  rewrite Hf', Hl', Hg', Hf, Hl, Hg, !app_assoc.
  split; [reflexivity|]. split; [reflexivity|]. split; [reflexivity|].
  split.
  - intros p Hin. rewrite map_app, in_app_iff in Hin.
    destruct Hin as [Hin|Hin]; [auto|].
    apply (path_exists_grows_false a b p Hab). auto.
  - intros l t Hin. rewrite in_app_iff in Hin. rewrite map_app, in_app_iff.
    destruct Hin as [Hin|Hin].
    + destruct (Hln l t Hin). auto.
    + destruct (Hln' l t Hin). split; [|auto].
      apply (path_exists_grows_false a b l Hab). auto.
Qed.

Lemma grows_log (w0 W : world) (l : log_level) (m : string) :
  grows w0 W -> grows w0 (log_msg l m W).
Proof.
  intros (fa & la & lg & Hf & Hl & Hg & Hfr & Hln).
  exists fa, la, (lg ++ [(l, m)])%list. cbn [log_msg files links log].
  rewrite Hg, app_assoc. auto.
Qed.

Lemma grows_fopen (w0 W W1 : world) (p : string) :
  grows w0 W -> fopen_wx p W = Some W1 -> grows w0 W1.
Proof.
  intros Hg Hopen. apply (grows_trans w0 W W1 Hg).
  apply fopen_wx_inv in Hopen as (Hp & Hf & Hl & Hlog).
  exists [(p, [])], [], []. rewrite Hf, Hl, Hlog, !app_nil_r.
  repeat split; try contradiction.
  intros q [<-|[]]. exact Hp.
Qed.

Lemma fprintf_other (p : string) (ls : list string)
    (fs : list (string * list string)) :
  existsb (String.eqb p) (map fst fs) = false ->
  map (fun e => if String.eqb (fst e) p
                then (fst e, (snd e ++ ls)%list) else e) fs = fs.
Proof.
  induction fs as [|[q c] fs IH]; cbn [map existsb fst]; [reflexivity|].
  intros H. apply orb_false_iff in H as [Hq Hfs].
  rewrite String.eqb_sym, Hq, IH by exact Hfs. reflexivity.
Qed.

Lemma grows_fprintf (w0 W : world) (p : string) (ls : list string) :
  grows w0 W -> path_exists w0 p = false -> grows w0 (fprintf p ls W).
Proof.
  intros (fa & la & lg & Hf & Hl & Hg & Hfr & Hln) Hp.
  exists (map (fun e => if String.eqb (fst e) p
                        then (fst e, (snd e ++ ls)%list) else e) fa), la, lg.
  unfold fprintf. cbn [files links log].
  assert (Hkeys : map fst (map (fun e => if String.eqb (fst e) p
                        then (fst e, (snd e ++ ls)%list) else e) fa)
                  = map fst fa).
  { rewrite map_map. apply map_ext. intros [q c]. cbn [fst].
    destruct (String.eqb q p); reflexivity. }
  rewrite Hf, map_app, fprintf_other
    by (apply path_exists_files; exact Hp).
  rewrite Hkeys. auto.
Qed.

Lemma grows_if_fprintf (w0 W : world) (c : bool) (p : string)
    (ls : list string) :
  grows w0 W -> path_exists w0 p = false ->
  grows w0 (if c then fprintf p ls W else W).
Proof. intros Hg Hp. destruct c; [apply grows_fprintf|]; assumption. Qed.

Lemma grows_symlink (w0 W W1 : world) (t l : string) :
  grows w0 W -> path_exists w0 t = false -> In t (map fst (files W)) ->
  symlink t l W = Some W1 -> grows w0 W1.
Proof.
  intros Hg Ht Hin Hs. pose proof Hg as (fa & la & lg & Hf & Hl & Hlg & Hfr & Hln).
  apply symlink_inv in Hs as (Hp & Hf1 & Hl1 & Hlog1).
  exists fa, (la ++ [(l, t)])%list, lg.
  rewrite Hf1, Hl1, Hlog1, Hf, Hl, Hlg, app_assoc.
  split; [reflexivity|]. split; [reflexivity|]. split; [reflexivity|].
  split; [exact Hfr|].
  intros l' t' Hin'. apply in_app_iff in Hin' as [Hin'|[[= <- <-]|[]]].
  - auto.
  - split; [apply (path_exists_grows_false w0 W l Hg Hp)|].
    rewrite Hf, map_app, in_app_iff in Hin. destruct Hin as [Hin|Hin]; [|exact Hin].
    assert (path_exists w0 t = true) by (apply path_exists_true; auto).
    congruence.
Qed.

(** Proving [grows w0 W] for a world built by the steps above. *)
Ltac grows_steps :=
  unfold log_error, log_warning, log_info, log_debug;
  repeat first
    [ apply grows_refl
    | assumption
    | apply grows_log
    | apply grows_fprintf; [|assumption]
    | apply grows_if_fprintf; [|assumption] ].

Lemma grows_below (w w' : world) : grows w w' -> below w w'.
Proof. intros Hg p. apply path_exists_grows. exact Hg. Qed.

Lemma below_trans (a b c : world) : below a b -> below b c -> below a c.
Proof. intros Hab Hbc p H. auto. Qed.

Lemma in_keys_exists (w : world) (p : string) :
  In p (map fst (files w)) -> path_exists w p = true.
Proof. intros H. apply path_exists_true. auto. Qed.

Section Growth.
Context {E : Env}.

(** Whatever [add_swap] returns, the world has only grown; and unless
    the entry was skipped or its priority rejected, the unit is there
    afterwards. *)
Lemma add_swap_after (g : globals) (what : string) (me : mntent)
    (noauto nofail : bool) (w : world) :
  grows w (snd (add_swap g what me noauto nofail w))
  /\ ((detect_container >? 0) = false ->
      (fst (mount_find_pri me (-1)) <? 0) = false ->
      path_exists (snd (add_swap g what me noauto nofail w))
        (unit_path (arg_dest g) (unit_name_from_path what ".swap")) = true).
Proof.
  unfold add_swap, unit_path.
  destruct (detect_container >? 0); cbn [snd];
    [split; [grows_steps|discriminate]|].
  destruct (mount_find_pri me (-1)) as [r pri]. cbn [fst].
  destruct (r <? 0); cbn [snd]; [split; [grows_steps|discriminate]|].
  cbv zeta. cbn [strjoin]. rewrite !append_empty_r.
  set (unit := arg_dest g ++ "/" ++ unit_name_from_path what ".swap").
  destruct (fopen_wx unit w) as [w1|] eqn:Hopen; cbn [snd].
  2:{ split; [grows_steps|]. intros _ _.
      unfold fopen_wx in Hopen. unfold log_error.
      rewrite path_exists_log_msg.
      destruct (path_exists w unit); [reflexivity|discriminate]. }
  pose proof (grows_fopen w w w1 _ (grows_refl w) Hopen) as Hg1.
  pose proof Hopen as Hfresh.
  apply fopen_wx_shape in Hfresh as (Hfresh & Hk1 & _).
  assert (Hin1 : In unit (map fst (files w1))).
  { rewrite Hk1, in_app_iff. right. left. reflexivity. }
  destruct (generator_write_timeouts _ _ _ _) as [r0 filtered].
  destruct (r0 <? 0); cbn [snd].
  { split; [grows_steps|]. intros _ _. apply in_keys_exists.
    shape_steps. exact Hin1. }
  destruct noauto; cbn [negb snd].
  { split; [grows_steps|]. intros _ _. apply in_keys_exists.
    shape_steps. exact Hin1. }
  match goal with
  | |- context [symlink ?t ?l ?W] =>
      destruct (symlink t l W) as [w2|] eqn:Hs; cbn [snd]
  end.
  - split.
    + eapply grows_symlink; [| |  |exact Hs]; [grows_steps|exact Hfresh|].
      shape_steps. exact Hin1.
    + intros _ _. apply in_keys_exists.
      apply symlink_shape in Hs as [-> _]. shape_steps. exact Hin1.
  - split; [grows_steps|]. intros _ _. apply in_keys_exists.
    shape_steps. exact Hin1.
Qed.

(** The same for [add_mount]. *)
Lemma add_mount_after (g : globals) (what where_ : string)
    (fstype : option string) (opts : string) (passno : Z)
    (noauto nofail automount : bool) (post : option string)
    (source : string) (w : world) :
  grows w (snd (add_mount g what where_ fstype opts passno noauto nofail
                  automount post source w))
  /\ (streq_ptr fstype (Some "autofs") = false ->
      is_path where_ = true ->
      (mount_point_is_api where_ || mount_point_ignore where_) = false ->
      path_exists (snd (add_mount g what where_ fstype opts passno noauto
                          nofail automount post source w))
        (unit_path (arg_dest g) (unit_name_from_path where_ ".mount"))
      = true).
Proof.
  unfold add_mount, unit_path.
  destruct (streq_ptr fstype (Some "autofs")); cbn [snd];
    [split; [grows_steps|discriminate]|].
  destruct (is_path where_); cbn [negb snd];
    [|split; [grows_steps|discriminate]].
  destruct (mount_point_is_api where_ || mount_point_ignore where_);
    cbn [snd]; [split; [grows_steps|discriminate]|].
  destruct (if path_equal where_ "/" then (false, false, false)
            else (automount, noauto, nofail)) as [[am na] nf].
  cbv zeta. cbn [strjoin]. rewrite !append_empty_r.
  set (unit := arg_dest g ++ "/" ++ unit_name_from_path where_ ".mount").
  destruct (fopen_wx unit w) as [w1|] eqn:Hopen; cbn [snd].
  2:{ split; [grows_steps|]. intros _ _ _.
      unfold fopen_wx in Hopen. unfold log_error.
      rewrite path_exists_log_msg.
      destruct (path_exists w unit); [reflexivity|discriminate]. }
  pose proof (grows_fopen w w w1 _ (grows_refl w) Hopen) as Hg1.
  pose proof Hopen as Hfresh.
  apply fopen_wx_shape in Hfresh as (Hfresh & Hk1 & _).
  assert (Hin1 : In unit (map fst (files w1))).
  { rewrite Hk1, in_app_iff. right. left. reflexivity. }
  destruct (if negb (passno =? 0)
            then generator_write_fsck_deps (arg_dest g) what where_ fstype
            else (0, [])) as [r fsck].
  set (W1 := match post with
             | Some p =>
                 if negb na && negb nf && negb am
                 then fprintf _ ["Before=" ++ p] _
                 else _
             | None => _
             end).
  assert (HgW1 : grows w W1).
  { subst W1. destruct post; grows_steps. }
  assert (HkW1 : In unit (map fst (files W1))).
  { subst W1. destruct post; shape_steps; exact Hin1. }
  clearbody W1.
  destruct (r <? 0); cbn [snd].
  { split; [grows_steps|]. intros _ _ _. apply in_keys_exists.
    shape_steps. exact HkW1. }
  destruct (generator_write_timeouts _ _ _ _) as [r0 filtered].
  destruct (r0 <? 0); cbn [snd].
  { split; [grows_steps|]. intros _ _ _. apply in_keys_exists.
    shape_steps. exact HkW1. }
  match goal with
  | |- context [symlink ?t ?l ?W] => set (W2 := W)
  end.
  assert (HgW2 : grows w W2) by (subst W2; grows_steps).
  assert (HkW2 : In unit (map fst (files W2))).
  { subst W2. shape_steps. exact HkW1. }
  clearbody W2.
  match goal with
  | |- context [if ?c then symlink ?t ?l W2 else Some W2] =>
      destruct (if c then symlink t l W2 else Some W2) as [w3|] eqn:Hs;
        cbn [snd]
  end.
  2:{ split; [grows_steps|]. intros _ _ _. apply in_keys_exists.
      shape_steps. exact HkW2. }
  assert (HgW3 : grows w w3 /\ In unit (map fst (files w3))).
  { destruct (negb na && negb (is_null post)).
    - split.
      + eapply grows_symlink; [exact HgW2|exact Hfresh|exact HkW2|exact Hs].
      + apply symlink_shape in Hs as [-> _]. exact HkW2.
    - injection Hs as <-. auto. }
  destruct HgW3 as [HgW3 HkW3].
  destruct am; cbn [snd].
  2:{ split; [exact HgW3|]. intros _ _ _. apply in_keys_exists. exact HkW3. }
  destruct (fopen_wx _ w3) as [w4|] eqn:Hopen2; cbn [snd].
  2:{ split; [grows_steps|]. intros _ _ _. apply in_keys_exists.
      shape_steps. exact HkW3. }
  pose proof (grows_fopen w w3 w4 _ HgW3 Hopen2) as Hg4.
  pose proof Hopen2 as Hfresh2.
  apply fopen_wx_shape in Hfresh2 as (Hfresh2 & Hk4 & _).
  apply (path_exists_grows_false w w3 _ HgW3) in Hfresh2.
  assert (Hin4 : In unit (map fst (files w4))).
  { rewrite Hk4, in_app_iff. left. exact HkW3. }
  match goal with
  | |- context [symlink ?t ?l ?W] =>
      destruct (symlink t l W) as [w5|] eqn:Hs2; cbn [snd]
  end.
  - split.
    + eapply grows_symlink; [|exact Hfresh2| |exact Hs2].
      * destruct post; grows_steps.
      * destruct post; shape_steps; rewrite Hk4, in_app_iff; right; left;
          reflexivity.
    + intros _ _ _. apply in_keys_exists.
      apply symlink_shape in Hs2 as [-> _].
      destruct post; shape_steps; exact Hin4.
  - split; [destruct post; grows_steps|]. intros _ _ _.
    apply in_keys_exists. destruct post; shape_steps; exact Hin4.
Qed.
End Growth.

(** ** Units that are already there *)

Lemma same_paths_refl (w : world) : same_paths w w.
Proof. split; reflexivity. Qed.

Lemma same_paths_log (w : world) (l : log_level) (m : string) :
  same_paths w (log_msg l m w).
Proof. split; reflexivity. Qed.

Lemma same_paths_trans (a b c : world) :
  same_paths a b -> same_paths b c -> same_paths a c.
Proof. intros [H1 H2] [H3 H4]. split; congruence. Qed.

Lemma same_paths_exists (w w' : world) (p : string) :
  same_paths w w' -> path_exists w' p = path_exists w p.
Proof. intros [Hf Hl]. unfold path_exists. now rewrite Hf, Hl. Qed.

Lemma same_paths_below (a b c : world) :
  below a b -> same_paths b c -> below a c.
Proof.
  intros Hab Hbc p H. rewrite (same_paths_exists b c p Hbc). auto.
Qed.

Section Settled.
Context {E : Env}.

Lemma add_swap_existing (g : globals) (what : string) (me : mntent)
    (noauto nofail : bool) (W : world) :
  path_exists W (unit_path (arg_dest g) (unit_name_from_path what ".swap"))
  = true ->
  same_paths W (snd (add_swap g what me noauto nofail W))
  /\ ((detect_container >? 0) = false ->
      (fst (mount_find_pri me (-1)) <? 0) = false ->
      fst (add_swap g what me noauto nofail W) = - EEXIST).
Proof.
  unfold add_swap, unit_path. intros Hex.
  destruct (detect_container >? 0); cbn [snd];
    [split; [apply same_paths_log|discriminate]|].
  destruct (mount_find_pri me (-1)) as [r pri]. cbn [fst].
  destruct (r <? 0); cbn [snd]; [split; [apply same_paths_log|discriminate]|].
  cbv zeta. cbn [strjoin]. rewrite !append_empty_r.
  unfold fopen_wx. rewrite Hex. cbn [fst snd].
  split; [apply same_paths_log|reflexivity].
Qed.

Lemma add_mount_existing (g : globals) (what where_ : string)
    (fstype : option string) (opts : string) (passno : Z)
    (noauto nofail automount : bool) (post : option string)
    (source : string) (W : world) :
  path_exists W (unit_path (arg_dest g) (unit_name_from_path where_ ".mount"))
  = true ->
  same_paths W (snd (add_mount g what where_ fstype opts passno noauto nofail
                       automount post source W))
  /\ (streq_ptr fstype (Some "autofs") = false ->
      is_path where_ = true ->
      (mount_point_is_api where_ || mount_point_ignore where_) = false ->
      fst (add_mount g what where_ fstype opts passno noauto nofail
             automount post source W) = - EEXIST).
Proof.
  unfold add_mount, unit_path. intros Hex.
  destruct (streq_ptr fstype (Some "autofs")); cbn [snd];
    [split; [apply same_paths_refl|discriminate]|].
  destruct (is_path where_); cbn [negb snd];
    [|split; [apply same_paths_log|discriminate]].
  destruct (mount_point_is_api where_ || mount_point_ignore where_);
    cbn [snd]; [split; [apply same_paths_refl|discriminate]|].
  destruct (if path_equal where_ "/" then (false, false, false)
            else (automount, noauto, nofail)) as [[am na] nf].
  cbv zeta. cbn [strjoin]. rewrite !append_empty_r.
  unfold fopen_wx. rewrite Hex. cbn [fst snd].
  split; [apply same_paths_log|reflexivity].
Qed.

(** A call repeated in a world that holds what the first call left
    makes nothing. *)
Lemma add_swap_settled (g : globals) (what : string) (me : mntent)
    (noauto nofail : bool) (w W : world) :
  below (snd (add_swap g what me noauto nofail w)) W ->
  same_paths W (snd (add_swap g what me noauto nofail W)).
Proof.
  intros Hb.
  destruct (detect_container >? 0) eqn:Hc.
  { unfold add_swap. rewrite Hc. apply same_paths_log. }
  destruct (fst (mount_find_pri me (-1)) <? 0) eqn:Hr.
  { unfold add_swap. rewrite Hc.
    destruct (mount_find_pri me (-1)) as [r pri]. cbn [fst] in Hr.
    rewrite Hr. apply same_paths_log. }
  apply add_swap_existing. apply Hb.
  apply (proj2 (add_swap_after g what me noauto nofail w) Hc Hr).
Qed.

Lemma add_mount_settled (g : globals) (what where_ : string)
    (fstype : option string) (opts : string) (passno : Z)
    (noauto nofail automount : bool) (post : option string)
    (source : string) (w W : world) :
  below (snd (add_mount g what where_ fstype opts passno noauto nofail
                automount post source w)) W ->
  same_paths W (snd (add_mount g what where_ fstype opts passno noauto nofail
                       automount post source W)).
Proof.
  intros Hb.
  destruct (streq_ptr fstype (Some "autofs")) eqn:Ha.
  { unfold add_mount. rewrite Ha. apply same_paths_refl. }
  destruct (is_path where_) eqn:Hp.
  2:{ unfold add_mount. rewrite Ha, Hp. apply same_paths_log. }
  destruct (mount_point_is_api where_ || mount_point_ignore where_) eqn:Hi.
  { unfold add_mount. rewrite Ha, Hp, Hi. apply same_paths_refl. }
  apply add_mount_existing. apply Hb.
  apply (proj2 (add_mount_after g what where_ fstype opts passno noauto
                  nofail automount post source w) Ha Hp Hi).
Qed.

Lemma parse_fstab_entry_grows (g : globals) (initrd : bool)
    (fstab_path : string) (me : mntent) (w : world) :
  grows w (snd (parse_fstab_entry g initrd fstab_path me w)).
Proof.
  unfold parse_fstab_entry.
  destruct (initrd && negb (mount_in_initrd me)); cbn [snd]; [grows_steps|].
  destruct ((detect_container >? 0) && is_device_path _); cbn [snd];
    [grows_steps|].
  cbv zeta.
  destruct (streq (mnt_type me) "swap").
  - eapply grows_trans; [|apply add_swap_after]. grows_steps.
  - eapply grows_trans; [|apply add_mount_after]. grows_steps.
Qed.

Lemma parse_fstab_entry_settled (g : globals) (initrd : bool)
    (fstab_path : string) (me : mntent) (w W : world) :
  below (snd (parse_fstab_entry g initrd fstab_path me w)) W ->
  same_paths W (snd (parse_fstab_entry g initrd fstab_path me W)).
Proof.
  unfold parse_fstab_entry.
  destruct (initrd && negb (mount_in_initrd me)); cbn [snd];
    [intros _; apply same_paths_refl|].
  destruct ((detect_container >? 0) && is_device_path _); cbn [snd];
    [intros _; apply same_paths_log|].
  cbv zeta.
  destruct (streq (mnt_type me) "swap"); intros Hb.
  - eapply same_paths_trans; [apply same_paths_log|].
    eapply add_swap_settled. eapply same_paths_below; [exact Hb|].
    apply same_paths_log.
  - eapply same_paths_trans; [apply same_paths_log|].
    eapply add_mount_settled. eapply same_paths_below; [exact Hb|].
    apply same_paths_log.
Qed.

Lemma parse_fstab_loop_grows (g : globals) (initrd : bool)
    (fstab_path : string) (entries : list mntent) :
  forall r w, grows w (snd (parse_fstab_loop g initrd fstab_path entries r w)).
Proof.
  induction entries as [|me rest IH]; intros r w; cbn [parse_fstab_loop snd].
  - apply grows_refl.
  - pose proof (parse_fstab_entry_grows g initrd fstab_path me w) as Hg.
    destruct (parse_fstab_entry g initrd fstab_path me w) as [k w1].
    cbn [snd] in Hg. eapply grows_trans; [exact Hg|apply IH].
Qed.

Lemma parse_fstab_loop_settled (g : globals) (initrd : bool)
    (fstab_path : string) (entries : list mntent) :
  forall r r' w W,
    below (snd (parse_fstab_loop g initrd fstab_path entries r w)) W ->
    same_paths W (snd (parse_fstab_loop g initrd fstab_path entries r' W)).
Proof.
  induction entries as [|me rest IH]; intros r r' w W;
    cbn [parse_fstab_loop snd].
  - intros _. apply same_paths_refl.
  - pose proof (parse_fstab_entry_grows g initrd fstab_path me w) as Hg.
    pose proof (parse_fstab_entry_settled g initrd fstab_path me w W) as Hs.
    destruct (parse_fstab_entry g initrd fstab_path me w) as [k w1].
    destruct (parse_fstab_entry g initrd fstab_path me W) as [k' W1].
    cbn [snd] in *. intros Hb.
    assert (Hw1 : below w1 W).
    { eapply below_trans; [|exact Hb]. apply grows_below.
      apply parse_fstab_loop_grows. }
    specialize (Hs Hw1).
    eapply same_paths_trans; [exact Hs|].
    eapply IH. eapply same_paths_below; [exact Hb|exact Hs].
Qed.

Lemma parse_fstab_grows (g : globals) (initrd : bool) (w : world) :
  grows w (snd (parse_fstab g initrd w)).
Proof.
  unfold parse_fstab. destruct (setmntent _) as [errno|entries].
  - destruct (errno =? ENOENT); cbn [snd]; grows_steps.
  - apply parse_fstab_loop_grows.
Qed.

Lemma parse_fstab_settled (g : globals) (initrd : bool) (w W : world) :
  below (snd (parse_fstab g initrd w)) W ->
  same_paths W (snd (parse_fstab g initrd W)).
Proof.
  unfold parse_fstab. destruct (setmntent _) as [errno|entries].
  - destruct (errno =? ENOENT); cbn [snd]; intros _;
      [apply same_paths_refl|apply same_paths_log].
  - apply parse_fstab_loop_settled.
Qed.
End Settled.

(** ** The boot-override pass and the run *)

Section RunGrowth.
Context {E : Env}.

Lemma add_mount_settled_status (g : globals) (what where_ : string)
    (fstype : option string) (opts : string) (passno : Z)
    (noauto nofail automount : bool) (post : option string)
    (source : string) (w W : world) :
  below (snd (add_mount g what where_ fstype opts passno noauto nofail
                automount post source w)) W ->
  fst (add_mount g what where_ fstype opts passno noauto nofail
         automount post source w) <> 0 ->
  fst (add_mount g what where_ fstype opts passno noauto nofail
         automount post source W) <> 0.
Proof.
  intros Hb Hne.
  destruct (streq_ptr fstype (Some "autofs")) eqn:Ha.
  { exfalso. apply Hne. unfold add_mount. rewrite Ha. reflexivity. }
  destruct (is_path where_) eqn:Hp.
  2:{ exfalso. apply Hne. unfold add_mount. rewrite Ha, Hp. reflexivity. }
  destruct (mount_point_is_api where_ || mount_point_ignore where_) eqn:Hi.
  { exfalso. apply Hne. unfold add_mount. rewrite Ha, Hp, Hi. reflexivity. }
  rewrite (proj2 (add_mount_existing g what where_ fstype opts passno noauto
                    nofail automount post source W
                    (Hb _ (proj2 (add_mount_after g what where_ fstype opts
                                    passno noauto nofail automount post
                                    source w) Ha Hp Hi))) Ha Hp Hi).
  discriminate.
Qed.

Lemma add_root_mount_grows (g : globals) (w : world) :
  grows w (snd (add_root_mount g w)).
Proof.
  unfold add_root_mount.
  destruct (arg_root_what g) as [rw|]; cbn [snd]; [|grows_steps].
  destruct (streq rw ""); cbn [snd]; [grows_steps|].
  destruct (negb (path_is_absolute _)); cbn [snd]; [grows_steps|].
  cbv zeta. eapply grows_trans; [|apply add_mount_after]. grows_steps.
Qed.

Lemma add_root_mount_settled (g : globals) (w W : world) :
  below (snd (add_root_mount g w)) W ->
  same_paths W (snd (add_root_mount g W))
  /\ (fst (add_root_mount g w) <> 0 -> fst (add_root_mount g W) <> 0).
Proof.
  unfold add_root_mount.
  destruct (arg_root_what g) as [rw|]; cbn [fst snd];
    [|intros _; split; [apply same_paths_log|congruence]].
  destruct (streq rw ""); cbn [fst snd];
    [intros _; split; [apply same_paths_log|congruence]|].
  destruct (negb (path_is_absolute _)); cbn [fst snd];
    [intros _; split; [apply same_paths_log|congruence]|].
  cbv zeta. intros Hb. split.
  - eapply same_paths_trans; [apply same_paths_log|].
    eapply add_mount_settled. eapply same_paths_below; [exact Hb|].
    apply same_paths_log.
  - eapply add_mount_settled_status. eapply same_paths_below; [exact Hb|].
    apply same_paths_log.
Qed.

Lemma add_usr_mount_grows (g : globals) (w : world) :
  grows w (snd (add_usr_mount g w)).
Proof.
  unfold add_usr_mount.
  destruct (is_null (arg_usr_what g) && is_null (arg_usr_fstype g)
            && is_null (arg_usr_options g)); cbn [snd]; [grows_steps|].
  cbv zeta.
  match goal with
  | |- context [match arg_usr_what ?x with _ => _ end] => set (g3 := x)
  end.
  destruct (arg_usr_what g3) as [uw|]; cbn [snd]; [|grows_steps].
  destruct (arg_usr_options g3) as [uo|]; cbn [snd]; [|grows_steps].
  destruct (negb (path_is_absolute _)); cbn [snd]; [grows_steps|].
  pose proof (add_mount_after g3
                (fstab_node_to_udev_node uw) "/sysroot/usr"
                (arg_usr_fstype g3) uo 1 false false false
                (Some SPECIAL_INITRD_ROOT_FS_TARGET) "/proc/cmdline"
                (log_debug ("Found entry what=" ++ fstab_node_to_udev_node uw
                            ++ " where=/sysroot/usr type="
                            ++ strna (arg_usr_fstype g3)) w)) as [Hg _].
  destruct (add_mount _ _ _ _ _ _ _ _ _ _ _ _) as [r w1]. cbn [snd] in *.
  eapply grows_trans; [|exact Hg]. grows_steps.
Qed.

Lemma add_usr_mount_settled (g : globals) (w W : world) :
  below (snd (add_usr_mount g w)) W ->
  same_paths W (snd (add_usr_mount g W)).
Proof.
  unfold add_usr_mount.
  destruct (is_null (arg_usr_what g) && is_null (arg_usr_fstype g)
            && is_null (arg_usr_options g)); cbn [snd];
    [intros _; apply same_paths_refl|].
  cbv zeta.
  match goal with
  | |- context [match arg_usr_what ?x with _ => _ end] => set (g3 := x)
  end.
  destruct (arg_usr_what g3) as [uw|]; cbn [snd];
    [|intros _; apply same_paths_refl].
  destruct (arg_usr_options g3) as [uo|]; cbn [snd];
    [|intros _; apply same_paths_refl].
  destruct (negb (path_is_absolute _)); cbn [snd];
    [intros _; apply same_paths_log|].
  set (msg := "Found entry what=" ++ fstab_node_to_udev_node uw
              ++ " where=/sysroot/usr type=" ++ strna (arg_usr_fstype g3)).
  pose proof (add_mount_settled g3
                (fstab_node_to_udev_node uw) "/sysroot/usr"
                (arg_usr_fstype g3) uo 1 false false false
                (Some SPECIAL_INITRD_ROOT_FS_TARGET) "/proc/cmdline"
                (log_debug msg w) (log_debug msg W)) as Hs.
  destruct (add_mount g3 _ _ _ _ _ _ _ _ _ _ (log_debug msg w)) as [r w1].
  destruct (add_mount g3 _ _ _ _ _ _ _ _ _ _ (log_debug msg W)) as [r' W1].
  cbn [snd] in *. intros Hb.
  eapply same_paths_trans; [apply same_paths_log|]. apply Hs.
  eapply same_paths_below; [exact Hb|]. apply same_paths_log.
Qed.

Lemma add_usr_mount_keeps (g : globals) (w : world) :
  arg_dest (snd (fst (add_usr_mount g w))) = arg_dest g
  /\ arg_fstab_enabled (snd (fst (add_usr_mount g w))) = arg_fstab_enabled g.
Proof.
  unfold add_usr_mount.
  destruct (is_null (arg_usr_what g) && is_null (arg_usr_fstype g)
            && is_null (arg_usr_options g)); cbn [fst snd]; [auto|].
  cbv zeta.
  match goal with
  | |- context [match arg_usr_what ?x with _ => _ end] => set (g3 := x)
  end.
  assert (Hg3 : arg_dest g3 = arg_dest g
                /\ arg_fstab_enabled g3 = arg_fstab_enabled g).
  { subst g3.
    repeat match goal with
           | |- context [if ?c then _ else _] => destruct c
           end; auto. }
  clearbody g3.
  match goal with
  | |- context [snd (fst ?M)] => assert (Hres : snd (fst M) = g3)
  end.
  { destruct (arg_usr_what g3) as [uw|]; [|reflexivity].
    destruct (arg_usr_options g3) as [uo|]; [|reflexivity].
    destruct (negb (path_is_absolute (fstab_node_to_udev_node uw)));
      [reflexivity|].
    destruct (add_mount _ _ _ _ _ _ _ _ _ _ _ _). reflexivity. }
  rewrite Hres. exact Hg3.
Qed.


Lemma add_boot_mounts_keeps (g : globals) (w : world) :
  arg_dest (snd (fst (add_boot_mounts g w))) = arg_dest g
  /\ arg_fstab_enabled (snd (fst (add_boot_mounts g w)))
     = arg_fstab_enabled g.
Proof.
  unfold add_boot_mounts. destruct (add_root_mount g w) as [r w1].
  destruct (r =? 0); [apply add_usr_mount_keeps|auto].
Qed.

Lemma add_boot_mounts_settled (g : globals) (w W : world) :
  below (snd (add_boot_mounts g w)) W ->
  same_paths W (snd (add_boot_mounts g W)).
Proof.
  unfold add_boot_mounts.
  pose proof (add_root_mount_grows g w) as Hgr.
  pose proof (add_root_mount_settled g w W) as Hrs.
  destruct (add_root_mount g w) as [r w1].
  destruct (add_root_mount g W) as [r' W1]. cbn [fst snd] in *.
  intros Hb.
  assert (Hw1 : below w1 W).
  { destruct (r =? 0); cbn [snd] in Hb; [|exact Hb].
    eapply below_trans; [|exact Hb]. apply grows_below.
    apply add_usr_mount_grows. }
  destruct (Hrs Hw1) as [Hsame Hstat].
  destruct (Z.eqb_spec r' 0) as [Hr'|Hr']; cbn [snd]; [|exact Hsame].
  destruct (Z.eqb_spec r 0) as [Hr|Hr]; [|exfalso; exact (Hstat Hr Hr')].
  cbn [snd] in Hb.
  eapply same_paths_trans; [exact Hsame|].
  eapply add_usr_mount_settled. eapply same_paths_below; [exact Hb|].
  exact Hsame.
Qed.

(** Reading the command line changes no file and no link, and what it
    collects does not depend on the world. *)
Lemma parse_proc_cmdline_from_world
    (items : list (string * option string)) :
  forall g w w',
    grows w (snd (parse_proc_cmdline_from items g w))
    /\ same_paths w (snd (parse_proc_cmdline_from items g w))
    /\ snd (fst (parse_proc_cmdline_from items g w))
       = snd (fst (parse_proc_cmdline_from items g w')).
Proof.
  induction items as [|[k v] items IH]; intros g w w'.
  - cbn. split; [apply grows_refl|]. split; [apply same_paths_refl|reflexivity].
  - cbn [parse_proc_cmdline_from].
    assert (Hitem : exists g1, forall w0,
               exists w1,
                 parse_proc_cmdline_item k v g w0 = (0, g1, w1)
                 /\ grows w0 w1 /\ same_paths w0 w1).
    { unfold parse_proc_cmdline_item.
      destruct v as [v|];
        repeat match goal with
               | |- context [if ?c then _ else _] => destruct c
               end;
        eexists; intros w0; eexists; (split; [reflexivity|]);
        (split; [grows_steps
                |first [apply same_paths_refl|apply same_paths_log]]). }
    destruct Hitem as (g1 & Hitem).
    destruct (Hitem w) as (w1 & -> & Hg & Hs).
    destruct (Hitem w') as (w1' & -> & _ & _).
    change (0 <? 0) with false. cbv iota.
    destruct (IH g1 w1 w1') as (IHg & IHs & IHe).
    split; [eapply grows_trans; [exact Hg|exact IHg]|].
    split; [eapply same_paths_trans; [exact Hs|exact IHs]|exact IHe].
Qed.

(** The generator uses the [arg_*] variables in the passes over the
    mount table only for the destination directory. *)
Lemma parse_fstab_dest (g g' : globals) (initrd : bool) (w : world) :
  arg_dest g = arg_dest g' -> parse_fstab g initrd w = parse_fstab g' initrd w.
Proof.
  intros Hd.
  assert (Hentry : forall path me w0,
             parse_fstab_entry g initrd path me w0
             = parse_fstab_entry g' initrd path me w0).
  { intros. unfold parse_fstab_entry, add_swap, add_mount.
    rewrite Hd. reflexivity. }
  assert (Hloop : forall path entries r w0,
             parse_fstab_loop g initrd path entries r w0
             = parse_fstab_loop g' initrd path entries r w0).
  { intros path entries. induction entries as [|me rest IH]; intros r w0;
      [reflexivity|].
    cbn [parse_fstab_loop]. rewrite Hentry.
    destruct (parse_fstab_entry g' initrd path me w0). apply IH. }
  unfold parse_fstab. destruct (setmntent _); [reflexivity|apply Hloop].
Qed.

Lemma below_log (w W : world) (l : log_level) (m : string) :
  below w W -> below (log_msg l m w) (log_msg l m W).
Proof. intros H p. rewrite !path_exists_log_msg. apply H. Qed.

End RunGrowth.

Lemma same_paths_is_below (a b : world) : same_paths a b -> below a b.
Proof. intros H p Hp. now rewrite (same_paths_exists a b p H). Qed.

Section Idempotence.
Context {E : Env}.

(** X4: a second run over the output of the first leaves the files and
    the links as they are. *)
Theorem main_settled (argv : list string) (w : world) :
  same_paths (snd (main argv w)) (snd (main argv (snd (main argv w)))).
Proof.
  set (F := snd (main argv w)).
  assert (HF : F = snd (main argv w)) by reflexivity.
  rewrite main_passes in HF. rewrite (main_passes argv F).
  cbv zeta in *.
  destruct ((Z.of_nat (length argv) >? 1)
            && negb (Z.of_nat (length argv) =? 4)); cbn [snd] in *;
    [apply same_paths_log|].
  set (g0 := if Z.of_nat (length argv) >? 1
             then set_dest (nth 1 argv "") initial_globals
             else initial_globals) in *.
  destruct (parse_proc_cmdline_from_world proc_cmdline g0 w F)
    as (Hga & _ & Hg1).
  destruct (parse_proc_cmdline_from_world proc_cmdline g0 F F)
    as (_ & HFa & _).
  unfold collected in *. unfold parse_proc_cmdline in *.
  rewrite <- Hg1. clear Hg1.
  set (g1 := snd (fst (parse_proc_cmdline_from proc_cmdline g0 w))) in *.
  set (wa := snd (parse_proc_cmdline_from proc_cmdline g0 w)) in *.
  set (Fa := snd (parse_proc_cmdline_from proc_cmdline g0 F)) in *.
  set (boot := if in_initrd then add_boot_mounts g1 wa else (0, g1, wa)) in *.
  set (boot' := if in_initrd then add_boot_mounts g1 Fa else (0, g1, Fa)).
  assert (Hkeep : arg_dest (snd (fst boot')) = arg_dest (snd (fst boot))
                  /\ arg_fstab_enabled (snd (fst boot'))
                     = arg_fstab_enabled (snd (fst boot))).
  { subst boot boot'. destruct in_initrd; [|auto].
    destruct (add_boot_mounts_keeps g1 wa) as [-> ->].
    destruct (add_boot_mounts_keeps g1 Fa) as [-> ->]. auto. }
  destruct Hkeep as [Hdest Hen].
  rewrite Hen.
  rewrite !(parse_fstab_dest (snd (fst boot')) (snd (fst boot)) _ _ Hdest).
  set (g2 := snd (fst boot)) in *.
  set (first := parse_fstab g2 false
                  (log_debug "Parsing /etc/fstab" (snd boot))) in *.
  set (second := parse_fstab g2 true
                   (log_debug "Parsing /sysroot/etc/fstab" (snd first))) in *.
  assert (Hb_first : below (snd boot) (snd first)).
  { subst first. apply grows_below.
    eapply grows_trans; [|apply parse_fstab_grows]. grows_steps. }
  assert (Hf_second : below (snd first) (snd second)).
  { subst second. apply grows_below.
    eapply grows_trans; [|apply parse_fstab_grows]. grows_steps. }
  assert (Hboot : below (snd boot) F -> same_paths F (snd boot')).
  { intros Hb. eapply same_paths_trans; [exact HFa|].
    subst boot boot'. destruct in_initrd; [|apply same_paths_refl].
    apply (add_boot_mounts_settled g1 wa).
    eapply same_paths_below; [exact Hb|exact HFa]. }
  assert (Hfirst : below (snd first) F -> same_paths F (snd boot') ->
                   same_paths F
                     (snd (parse_fstab g2 false
                             (log_debug "Parsing /etc/fstab" (snd boot'))))).
  { intros Hb Hs.
    eapply same_paths_trans; [exact Hs|].
    eapply same_paths_trans; [apply same_paths_log|].
    apply (parse_fstab_settled g2 false
             (log_debug "Parsing /etc/fstab" (snd boot))).
    eapply same_paths_below; [exact Hb|].
    eapply same_paths_trans; [exact Hs|apply same_paths_log]. }
  destruct (arg_fstab_enabled g2).
  - destruct in_initrd.
    + assert (Hs1 : same_paths F (snd boot')).
      { apply Hboot. rewrite HF.
        eapply below_trans; [exact Hb_first|exact Hf_second]. }
      assert (Hs2 : same_paths F
                      (snd (parse_fstab g2 false
                              (log_debug "Parsing /etc/fstab" (snd boot'))))).
      { apply Hfirst; [|exact Hs1]. rewrite HF. exact Hf_second. }
      eapply same_paths_trans; [exact Hs2|].
      eapply same_paths_trans; [apply same_paths_log|].
      apply (parse_fstab_settled g2 true
               (log_debug "Parsing /sysroot/etc/fstab" (snd first))).
      fold second. rewrite <- HF.
      eapply same_paths_below; [intros p Hp; exact Hp|].
      eapply same_paths_trans; [exact Hs2|apply same_paths_log].
    + apply Hfirst.
      * rewrite HF. intros p Hp. exact Hp.
      * apply Hboot. rewrite HF. exact Hb_first.
  - apply Hboot. rewrite HF. intros p Hp. exact Hp.
Qed.
End Idempotence.

(** ** Statuses of a pass *)

Lemma last_negative_in (ks : list Z) :
  forall r, last_negative r ks = r \/ In (last_negative r ks) ks.
Proof.
  unfold last_negative.
  induction ks as [|k ks IH]; intros r; cbn [fold_left In]; [auto|].
  destruct (IH (if k <? 0 then k else r)) as [H|H]; [|auto].
  rewrite H. destruct (k <? 0); auto.
Qed.

Section Statuses.
Context {E : Env}.

Lemma add_swap_status (g : globals) (what : string) (me : mntent)
    (noauto nofail : bool) (w : world) :
  fst (add_swap g what me noauto nofail w) <= 0.
Proof.
  unfold add_swap.
  destruct (detect_container >? 0); cbn [fst]; [lia|].
  destruct (mount_find_pri me (-1)) as [r pri].
  destruct (Z.ltb_spec r 0); cbn [fst]; [lia|].
  cbv zeta.
  destruct (fopen_wx _ w) as [w1|]; cbn [fst]; [|discriminate].
  destruct (generator_write_timeouts _ _ _ _) as [r0 filtered].
  destruct (Z.ltb_spec r0 0); cbn [fst]; [lia|].
  destruct noauto; cbn [negb fst]; [lia|].
  match goal with
  | |- context [symlink ?t ?l ?W] => destruct (symlink t l W)
  end; cbn [fst]; [lia|discriminate].
Qed.

Lemma add_mount_status (g : globals) (what where_ : string)
    (fstype : option string) (opts : string) (passno : Z)
    (noauto nofail automount : bool) (post : option string)
    (source : string) (w : world) :
  fst (add_mount g what where_ fstype opts passno noauto nofail
         automount post source w) <= 0.
Proof.
  unfold add_mount.
  destruct (streq_ptr fstype (Some "autofs")); cbn [fst]; [lia|].
  destruct (negb (is_path where_)); cbn [fst]; [lia|].
  destruct (mount_point_is_api where_ || mount_point_ignore where_);
    cbn [fst]; [lia|].
  destruct (if path_equal where_ "/" then (false, false, false)
            else (automount, noauto, nofail)) as [[am na] nf].
  cbv zeta.
  destruct (fopen_wx _ w) as [w1|]; cbn [fst]; [|discriminate].
  destruct (if negb (passno =? 0)
            then generator_write_fsck_deps (arg_dest g) what where_ fstype
            else (0, [])) as [r fsck].
  destruct (Z.ltb_spec r 0); cbn [fst]; [lia|].
  destruct (generator_write_timeouts _ _ _ _) as [r0 filtered].
  destruct (Z.ltb_spec r0 0); cbn [fst]; [lia|].
  match goal with
  | |- context [if ?c then symlink ?t ?l ?W else Some ?W] =>
      destruct (if c then symlink t l W else Some W)
  end; cbn [fst]; [|discriminate].
  destruct am; cbn [fst]; [|lia].
  destruct (fopen_wx _ _); cbn [fst]; [|discriminate].
  match goal with
  | |- context [symlink ?t ?l ?W] => destruct (symlink t l W)
  end; cbn [fst]; [lia|discriminate].
Qed.

Lemma parse_fstab_entry_status (g : globals) (initrd : bool)
    (fstab_path : string) (me : mntent) (w : world) :
  fst (parse_fstab_entry g initrd fstab_path me w) <= 0.
Proof.
  unfold parse_fstab_entry.
  destruct (initrd && negb (mount_in_initrd me)); cbn [fst]; [lia|].
  destruct ((detect_container >? 0) && is_device_path _); cbn [fst]; [lia|].
  cbv zeta.
  destruct (streq (mnt_type me) "swap");
    [apply add_swap_status|apply add_mount_status].
Qed.

Lemma entry_statuses_nonpositive (g : globals) (initrd : bool)
    (fstab_path : string) (entries : list mntent) :
  forall w k,
    In k (entry_statuses g initrd fstab_path entries w) -> k <= 0.
Proof.
  induction entries as [|me rest IH]; intros w k; cbn [entry_statuses].
  - intros [].
  - pose proof (parse_fstab_entry_status g initrd fstab_path me w) as Hk.
    destruct (parse_fstab_entry g initrd fstab_path me w) as [k0 w1].
    cbn [fst] in Hk. intros [<-|Hin]; [exact Hk|].
    exact (IH w1 k Hin).
Qed.

(** X5: no entry of a pass returns a positive status, and the pass
    returns 0 exactly when every entry did. *)
Theorem pass_status_zero_iff_all_zero (g : globals) (initrd : bool)
    (fstab_path : string) (entries : list mntent) (w : world) :
  (forall k, In k (entry_statuses g initrd fstab_path entries w) -> k <= 0)
  /\ fst (parse_fstab_loop g initrd fstab_path entries 0 w) <= 0
  /\ (fst (parse_fstab_loop g initrd fstab_path entries 0 w) = 0
      <-> forall k,
            In k (entry_statuses g initrd fstab_path entries w) -> k = 0).
Proof.
  pose proof (entry_statuses_nonpositive g initrd fstab_path entries w) as Hall.
  split; [exact Hall|].
  rewrite parse_fstab_loop_trace. cbn [fst].
  set (ks := entry_statuses g initrd fstab_path entries w) in *.
  pose proof (last_negative_in ks 0) as Hin.
  pose proof (last_negative_failure ks 0) as Hneg.
  assert (Hle : last_negative 0 ks <= 0).
  { destruct Hin as [->|Hin]; [lia|auto]. }
  split; [exact Hle|]. split.
  - intros H0 k Hk. pose proof (Hall k Hk).
    destruct (Z.eq_dec k 0) as [|Hnz]; [assumption|].
    assert (last_negative 0 ks < 0); [|lia].
    apply Hneg. right. exists k. split; [exact Hk|lia].
  - intros Hz. destruct Hin as [->|Hin]; [reflexivity|auto].
Qed.
End Statuses.

(** ** Duplicates, ignored entries and boot mounts *)

Section Duplicates.
Context {E : Env}.

(** X6: once a mount unit for a mount point has been made, every later
    [add_mount] for that mount point that is not an autofs fails with
    [-EEXIST] and leaves files and links as they are. *)
Theorem duplicate_mount_point_rejected (g : globals) (where_ : string)
    (what what' : string) (fstype fstype' : option string)
    (opts opts' : string) (passno passno' : Z)
    (noauto nofail automount noauto' nofail' automount' : bool)
    (post post' : option string) (source source' : string)
    (w w1 W : world) :
  add_mount g what where_ fstype opts passno noauto nofail automount
    post source w = (0, w1) ->
  path_exists w (unit_path (arg_dest g) (unit_name_from_path where_ ".mount"))
  = false ->
  path_exists w1 (unit_path (arg_dest g) (unit_name_from_path where_ ".mount"))
  = true ->
  grows w1 W ->
  streq_ptr fstype' (Some "autofs") = false ->
  fst (add_mount g what' where_ fstype' opts' passno' noauto' nofail'
         automount' post' source' W) = - EEXIST
  /\ files (snd (add_mount g what' where_ fstype' opts' passno' noauto'
                   nofail' automount' post' source' W)) = files W
  /\ links (snd (add_mount g what' where_ fstype' opts' passno' noauto'
                   nofail' automount' post' source' W)) = links W.
Proof.
  intros Hrun Hfresh Hnew HW Hauto.
  assert (Hnotskipped : is_path where_ = true
            /\ (mount_point_is_api where_ || mount_point_ignore where_)
               = false).
  { unfold add_mount in Hrun.
    destruct (streq_ptr fstype (Some "autofs")).
    { injection Hrun as <-. congruence. }
    destruct (is_path where_); cbn [negb] in Hrun.
    2:{ injection Hrun as <-. unfold log_warning in Hnew.
        rewrite path_exists_log_msg in Hnew. congruence. }
    destruct (mount_point_is_api where_ || mount_point_ignore where_).
    { injection Hrun as <-. congruence. }
    auto. }
  destruct Hnotskipped as [Hp Hi].
  assert (Hex : path_exists W
                  (unit_path (arg_dest g)
                     (unit_name_from_path where_ ".mount")) = true).
  { apply (path_exists_grows w1 W _ HW Hnew). }
  destruct (add_mount_existing g what' where_ fstype' opts' passno' noauto'
              nofail' automount' post' source' W Hex) as [[Hf Hl] Hst].
  split; [apply Hst; assumption|]. split; assumption.
Qed.

Lemma parse_fstab_entry_ignored (g : globals) (initrd : bool)
    (fstab_path : string) (me : mntent) (w : world) :
  entry_ignored initrd me = true ->
  fst (parse_fstab_entry g initrd fstab_path me w) = 0
  /\ same_paths w (snd (parse_fstab_entry g initrd fstab_path me w)).
Proof.
  unfold entry_ignored, parse_fstab_entry. intros H.
  destruct (initrd && negb (mount_in_initrd me)); cbn [fst snd];
    [split; [reflexivity|apply same_paths_refl]|].
  cbn [orb] in H.
  destruct (detect_container >? 0) eqn:Hc; cbn [andb] in H |- *.
  - destruct (is_device_path (fstab_node_to_udev_node (mnt_fsname me)));
      cbn [fst snd orb] in *;
      [split; [reflexivity|apply same_paths_log]|].
    cbv zeta. destruct (streq (mnt_type me) "swap"); cbn [negb andb orb] in H.
    + unfold add_swap. rewrite Hc. cbn [fst snd].
      split; [reflexivity|].
      eapply same_paths_trans; apply same_paths_log.
    + unfold add_mount. unfold streq_ptr.
      destruct (streq (mnt_type me) "autofs"); cbn [fst snd orb] in *;
        [split; [reflexivity|apply same_paths_log]|].
      destruct (is_path (fstab_where initrd me)); cbn [negb fst snd orb] in *.
      2:{ split; [reflexivity|].
          eapply same_paths_trans; apply same_paths_log. }
      rewrite H. cbn [fst snd].
      split; [reflexivity|apply same_paths_log].
  - cbv zeta. destruct (streq (mnt_type me) "swap"); cbn [negb andb orb] in H;
      [discriminate|].
    unfold add_mount. unfold streq_ptr.
    destruct (streq (mnt_type me) "autofs"); cbn [fst snd orb] in *;
      [split; [reflexivity|apply same_paths_log]|].
    destruct (is_path (fstab_where initrd me)); cbn [negb fst snd orb] in *.
    2:{ split; [reflexivity|].
        eapply same_paths_trans; apply same_paths_log. }
    rewrite H. cbn [fst snd].
    split; [reflexivity|apply same_paths_log].
Qed.

(** X7: a table of entries that are all ignored gives status 0 and
    changes neither files nor links. *)
Theorem ignored_entries_make_nothing (g : globals) (initrd : bool)
    (fstab_path : string) (entries : list mntent) (w : world) :
  forallb (entry_ignored initrd) entries = true ->
  fst (parse_fstab_loop g initrd fstab_path entries 0 w) = 0
  /\ files (snd (parse_fstab_loop g initrd fstab_path entries 0 w)) = files w
  /\ links (snd (parse_fstab_loop g initrd fstab_path entries 0 w)) = links w.
Proof.
  revert w. induction entries as [|me rest IH]; intros w H.
  - repeat split.
  - cbn [forallb] in H. apply andb_true_iff in H as [Hme Hrest].
    cbn [parse_fstab_loop].
    destruct (parse_fstab_entry_ignored g initrd fstab_path me w Hme)
      as [Hk [Hf Hl]].
    destruct (parse_fstab_entry g initrd fstab_path me w) as [k w1].
    cbn [fst snd] in *. subst k. change (0 <? 0) with false. cbv iota.
    destruct (IH w1 Hrest) as (H0 & H1 & H2).
    rewrite H0, H1, H2. auto.
Qed.

(** X8: with no options for the secondary volume and none for the root,
    [add_usr_mount] returns 0 and does nothing, whatever device was
    given. *)
Theorem usr_mount_needs_options (g : globals) (w : world) :
  arg_usr_options g = None -> arg_root_options g = None ->
  fst (fst (add_usr_mount g w)) = 0 /\ snd (add_usr_mount g w) = w.
Proof.
  intros Hu Hr. unfold add_usr_mount.
  destruct g as [dest en rw rf ro rrw uw uf uo].
  cbn [arg_usr_what arg_usr_fstype arg_usr_options arg_root_what
       arg_root_fstype arg_root_options] in *. subst.
  destruct rw, rf, uw, uf; cbn -[add_mount]; auto.
Qed.

(** X9: a boot-override mount that makes its unit makes that one file
    and one link, the strong one in initrd-root-fs.target.requires. *)
Theorem boot_mounts_are_required (g : globals) (w w' : world)
    (gu gu' : globals) (wu wu' : world) :
  (add_root_mount g w = (0, w') ->
   path_exists w (unit_path (arg_dest g)
                    (unit_name_from_path "/sysroot" ".mount")) = false ->
   path_exists w' (unit_path (arg_dest g)
                     (unit_name_from_path "/sysroot" ".mount")) = true ->
   links w'
   = (links w
      ++ [(link_path (arg_dest g) SPECIAL_INITRD_ROOT_FS_TARGET false
             (unit_name_from_path "/sysroot" ".mount"),
           unit_path (arg_dest g)
             (unit_name_from_path "/sysroot" ".mount"))])%list
   /\ map fst (files w')
      = (map fst (files w)
         ++ [unit_path (arg_dest g)
               (unit_name_from_path "/sysroot" ".mount")])%list)
  /\ (add_usr_mount gu wu = (0, gu', wu') ->
      path_exists wu (unit_path (arg_dest gu)
                        (unit_name_from_path "/sysroot/usr" ".mount"))
      = false ->
      path_exists wu' (unit_path (arg_dest gu)
                         (unit_name_from_path "/sysroot/usr" ".mount"))
      = true ->
      links wu'
      = (links wu
         ++ [(link_path (arg_dest gu) SPECIAL_INITRD_ROOT_FS_TARGET false
                (unit_name_from_path "/sysroot/usr" ".mount"),
              unit_path (arg_dest gu)
                (unit_name_from_path "/sysroot/usr" ".mount"))])%list
      /\ map fst (files wu')
         = (map fst (files wu)
            ++ [unit_path (arg_dest gu)
                  (unit_name_from_path "/sysroot/usr" ".mount")])%list).
Proof.
  split.
  - intros Hroot Hrf Hrn. unfold add_root_mount in Hroot.
    destruct (arg_root_what g) as [rw|].
    2:{ injection Hroot as <-. unfold log_debug in Hrn.
        rewrite path_exists_log_msg in Hrn. congruence. }
    destruct (streq rw "").
    { injection Hroot as <-. unfold log_debug in Hrn.
      rewrite path_exists_log_msg in Hrn. congruence. }
    destruct (negb (path_is_absolute _)).
    { injection Hroot as <-. unfold log_debug in Hrn.
      rewrite path_exists_log_msg in Hrn. congruence. }
    cbv zeta in Hroot.
    apply add_mount_emitted in Hroot; [|exact Hrf|exact Hrn].
    cbv zeta in Hroot. rewrite !andb_false_r in Hroot.
    cbn [orb] in Hroot. unfold log_debug in Hroot.
    rewrite links_log_msg, files_log_msg in Hroot. cbn [app] in Hroot.
    exact Hroot.
  - intros Husr Huf Hun. unfold add_usr_mount in Husr.
    destruct (is_null (arg_usr_what gu) && is_null (arg_usr_fstype gu)
              && is_null (arg_usr_options gu)).
    { injection Husr as _ <-. congruence. }
    cbv zeta in Husr.
    match type of Husr with
    | context [match arg_usr_what ?x with _ => _ end] =>
        assert (Hd : arg_dest x = arg_dest gu);
        [repeat match goal with
                | |- context [if ?c then _ else _] => destruct c
                end; reflexivity
        |set (g3 := x) in *]
    end.
    clearbody g3.
    destruct (arg_usr_what g3) as [uw|]; [|injection Husr as _ <-; congruence].
    destruct (arg_usr_options g3) as [uo|];
      [|injection Husr as _ <-; congruence].
    destruct (negb (path_is_absolute _)); [discriminate Husr|].
    destruct (add_mount _ _ _ _ _ _ _ _ _ _ _ _) as [r w1] eqn:Hcall.
    injection Husr as -> _ ->.
    rewrite <- Hd in Huf, Hun |- *.
    apply add_mount_emitted in Hcall; [|exact Huf|exact Hun].
    cbv zeta in Hcall. rewrite !andb_false_r in Hcall.
    cbn [orb] in Hcall. unfold log_debug in Hcall.
    rewrite links_log_msg, files_log_msg in Hcall. cbn [app] in Hcall.
    exact Hcall.
Qed.
End Duplicates.

Lemma duplicate_mount_point_rejected_witness :
  let E := Reference.host [] in
  let w1 := snd (@add_mount E initial_globals "/dev/sda3" "/home"
                   (Some "ext4") "defaults" 0 false false false
                   (Some "local-fs.target") "/etc/fstab" empty_world) in
  let again := @add_mount E initial_globals "/dev/sdb1" "/home" (Some "xfs")
                 "noauto" 0 true false false (Some "local-fs.target")
                 "/etc/fstab" w1 in
  map fst (files w1) = ["/tmp/home.mount"]
  /\ fst again = - EEXIST
  /\ files (snd again) = files w1 /\ links (snd again) = links w1.
Proof.
  intros E w1 again.
  split; [vm_compute; reflexivity|].
  apply (@duplicate_mount_point_rejected E initial_globals "/home"
           "/dev/sda3" "/dev/sdb1" (Some "ext4") (Some "xfs")
           "defaults" "noauto" 0 0 false false false true false false
           (Some "local-fs.target") (Some "local-fs.target")
           "/etc/fstab" "/etc/fstab" empty_world w1 w1).
  - vm_compute. reflexivity.
  - vm_compute. reflexivity.
  - vm_compute. reflexivity.
  - apply grows_refl.
  - reflexivity.
Defined.

Lemma ignored_entries_make_nothing_witness :
  let entries := [swap_entry "/dev/sda2" "defaults";
                  Reference.entry "/dev/sda1" "/" "ext4" "defaults" 1;
                  Reference.entry "proc" "/proc" "proc" "defaults" 0] in
  let E := Reference.env 1 false (Reference.etc_fstab entries) [] in
  let run := @parse_fstab_loop E initial_globals false "/etc/fstab" entries 0
               empty_world in
  fst run = 0 /\ files (snd run) = [] /\ links (snd run) = [].
Proof.
  intros entries E run.
  apply (@ignored_entries_make_nothing E initial_globals false "/etc/fstab"
           entries empty_world).
  vm_compute. reflexivity.
Defined.

Lemma usr_mount_needs_options_witness :
  let E := Reference.initrd [("mount.usr", Some "/dev/sda2")] in
  let g := set_usr_what (Some "/dev/sda2") initial_globals in
  fst (fst (@add_usr_mount E g empty_world)) = 0
  /\ snd (@add_usr_mount E g empty_world) = empty_world.
Proof.
  exact (@usr_mount_needs_options
           (Reference.initrd [("mount.usr", Some "/dev/sda2")])
           (set_usr_what (Some "/dev/sda2") initial_globals) empty_world
           eq_refl eq_refl).
Defined.

Lemma boot_mounts_are_required_witness :
  let E := Reference.initrd [] in
  let g := set_root_what (Some "/dev/sda1") initial_globals in
  let gu := set_usr_options (Some "ro")
              (set_usr_what (Some "/dev/sda2") initial_globals) in
  let w' := snd (@add_root_mount E g empty_world) in
  let wu' := snd (@add_usr_mount E gu empty_world) in
  (links w'
   = [("/tmp/initrd-root-fs.target.requires/sysroot.mount",
       "/tmp/sysroot.mount")]
   /\ map fst (files w') = ["/tmp/sysroot.mount"])
  /\ links wu'
     = [("/tmp/initrd-root-fs.target.requires/sysroot-usr.mount",
         "/tmp/sysroot-usr.mount")]
  /\ map fst (files wu') = ["/tmp/sysroot-usr.mount"].
Proof.
  intros E g gu w' wu'.
  destruct (@boot_mounts_are_required E g empty_world w' gu gu empty_world
              wu') as [Hroot Husr].
  split.
  - apply Hroot; vm_compute; reflexivity.
  - apply Husr; vm_compute; reflexivity.
Defined.

(** ** The fields of the command line *)

Section ParameterFields.
Context {E : Env}.

Ltac split_key k :=
  repeat match goal with
         | |- context [String.eqb k ?c] =>
             destruct (String.eqb_spec k c); [subst k; cbn|]
         end.

Lemma parse_proc_cmdline_item_fields (k : string) (v : option string)
    (g : globals) (w : world) :
  let g' := snd (fst (parse_proc_cmdline_item k v g w)) in
  arg_dest g' = arg_dest g
  /\ arg_fstab_enabled g' = switch_after (arg_fstab_enabled g) [(k, v)]
  /\ arg_root_fstype g'
     = last_of (arg_root_fstype g) (values_of "rootfstype" [(k, v)])
  /\ arg_root_rw g' = rw_after (arg_root_rw g) [(k, v)]
  /\ arg_usr_what g'
     = last_of (arg_usr_what g) (values_of "mount.usr" [(k, v)])
  /\ arg_usr_fstype g'
     = last_of (arg_usr_fstype g) (values_of "mount.usrfstype" [(k, v)])
  /\ arg_usr_options g'
     = join_flags (arg_usr_options g) (values_of "mount.usrflags" [(k, v)]).
Proof.
  unfold parse_proc_cmdline_item, streq, last_of, join_flags, switch_after,
    rw_after.
  destruct v as [v|]; cbn [values_of fold_left]; split_key k;
    try (repeat split; reflexivity).
  - destruct (parse_boolean v <? 0); repeat split; reflexivity.
  - destruct (parse_boolean v <? 0); repeat split; reflexivity.
  - destruct (arg_usr_options g); cbn; repeat split; try reflexivity.
    now rewrite append_empty_r.
Qed.

Lemma values_of_app_one (key k : string) (v : option string)
    (items : list (string * option string)) (old : option string) :
  last_of old (values_of key ((k, v) :: items))
  = last_of (last_of old (values_of key [(k, v)])) (values_of key items)
  /\ join_flags old (values_of key ((k, v) :: items))
     = join_flags (join_flags old (values_of key [(k, v)]))
         (values_of key items).
Proof.
  rewrite values_of_cons. unfold last_of, join_flags.
  rewrite !fold_left_app. auto.
Qed.

Lemma collected_fields (items : list (string * option string)) :
  forall (g : globals) (w : world),
    let g' := collected items g w in
    arg_dest g' = arg_dest g
    /\ arg_fstab_enabled g' = switch_after (arg_fstab_enabled g) items
    /\ arg_root_fstype g'
       = last_of (arg_root_fstype g) (values_of "rootfstype" items)
    /\ arg_root_rw g' = rw_after (arg_root_rw g) items
    /\ arg_usr_what g'
       = last_of (arg_usr_what g) (values_of "mount.usr" items)
    /\ arg_usr_fstype g'
       = last_of (arg_usr_fstype g) (values_of "mount.usrfstype" items)
    /\ arg_usr_options g'
       = join_flags (arg_usr_options g) (values_of "mount.usrflags" items)
    /\ fst (fst (parse_proc_cmdline_from items g w)) = 0
    /\ files (snd (parse_proc_cmdline_from items g w)) = files w
    /\ links (snd (parse_proc_cmdline_from items g w)) = links w.
Proof.
  induction items as [|[k v] items IH]; intros g w; cbv zeta.
  - repeat split.
  - rewrite collected_cons.
    destruct (IH (snd (fst (parse_proc_cmdline_item k v g w)))
                (snd (parse_proc_cmdline_item k v g w)))
      as (H1 & H2 & H3 & H4 & H5 & H6 & H7 & _).
    destruct (parse_proc_cmdline_item_fields k v g w)
      as (I1 & I2 & I3 & I4 & I5 & I6 & I7).
    cbv zeta in *.
    rewrite H1, H2, H3, H4, H5, H6, H7, I1, I2, I3, I4, I5, I6, I7.
    rewrite !(proj1 (values_of_app_one _ k v items _)).
    rewrite !(proj2 (values_of_app_one _ k v items _)).
    split; [reflexivity|]. split; [reflexivity|]. split; [reflexivity|].
    split; [reflexivity|]. split; [reflexivity|]. split; [reflexivity|].
    split; [reflexivity|].
    split; [apply parse_proc_cmdline_from_status|].
    destruct (parse_proc_cmdline_from_world ((k, v) :: items) g w w)
      as (_ & [Hf Hl] & _).
    auto.
Qed.

(** X10: the fields the command line leaves: the destination untouched;
    the switch by the last boolean fstab= or rd.fstab=; rootfstype=,
    mount.usr= and mount.usrfstype= by their last value; the write mode
    by the last bare rw or ro; mount.usrflags= joined with commas; the
    status 0, and neither files nor links changed. *)
Theorem boot_parameters_closed_form
    (items : list (string * option string)) (g : globals) (w : world) :
  let g' := collected items g w in
  arg_dest g' = arg_dest g
  /\ arg_fstab_enabled g' = switch_after (arg_fstab_enabled g) items
  /\ arg_root_fstype g'
     = last_of (arg_root_fstype g) (values_of "rootfstype" items)
  /\ arg_root_rw g' = rw_after (arg_root_rw g) items
  /\ arg_usr_what g'
     = last_of (arg_usr_what g) (values_of "mount.usr" items)
  /\ arg_usr_fstype g'
     = last_of (arg_usr_fstype g) (values_of "mount.usrfstype" items)
  /\ arg_usr_options g'
     = join_flags (arg_usr_options g) (values_of "mount.usrflags" items)
  /\ fst (fst (parse_proc_cmdline_from items g w)) = 0
  /\ files (snd (parse_proc_cmdline_from items g w)) = files w
  /\ links (snd (parse_proc_cmdline_from items g w)) = links w.
Proof. exact (collected_fields items g w). Qed.

(** X11: outside the initrd, with the mount table switched off on the
    command line, a run succeeds and changes neither files nor
    links. *)
Theorem fstab_switched_off (argv : list string) (w : world) :
  ((Z.of_nat (length argv) >? 1) && negb (Z.of_nat (length argv) =? 4))
  = false ->
  in_initrd = false ->
  switch_after true proc_cmdline = false ->
  fst (fst (main argv w)) = EXIT_SUCCESS
  /\ files (snd (main argv w)) = files w
  /\ links (snd (main argv w)) = links w.
Proof.
  intros Hargc Hin Hoff. rewrite main_passes. cbv zeta.
  rewrite Hargc, Hin. cbn [fst snd andb].
  set (g0 := if Z.of_nat (length argv) >? 1
             then set_dest (nth 1 argv "") initial_globals
             else initial_globals).
  destruct (collected_fields proc_cmdline g0 w)
    as (_ & Hen & _ & _ & _ & _ & _ & _ & Hf & Hl).
  cbv zeta in Hen.
  assert (Hg0 : arg_fstab_enabled g0 = true).
  { subst g0. destruct (Z.of_nat (length argv) >? 1); reflexivity. }
  rewrite Hg0, Hoff in Hen. rewrite Hen. cbn [andb orb].
  change (0 <? 0) with false. cbv iota.
  unfold parse_proc_cmdline. auto.
Qed.
End ParameterFields.

Lemma fstab_switched_off_witness :
  let E := Reference.env 0 false
             (Reference.etc_fstab
                [Reference.entry "/dev/sda1" "/" "ext4" "defaults" 1])
             [("fstab", Some "no")] in
  fst (fst (@main E ["systemd-fstab-generator"] empty_world)) = EXIT_SUCCESS
  /\ files (snd (@main E ["systemd-fstab-generator"] empty_world)) = []
  /\ links (snd (@main E ["systemd-fstab-generator"] empty_world)) = [].
Proof.
  intros E.
  apply (@fstab_switched_off E ["systemd-fstab-generator"] empty_world).
  - reflexivity.
  - reflexivity.
  - vm_compute. reflexivity.
Defined.

(** ** The text of the units *)

Lemma file_lines_fprintf_other (p q : string) (ls : list string)
    (w : world) :
  p <> q -> file_lines (fprintf p ls w) q = file_lines w q.
Proof.
  intros Hne. unfold file_lines, fprintf. cbn [files].
  induction (files w) as [|[k c] fs IH]; cbn [map find fst]; [reflexivity|].
  destruct (String.eqb_spec k p) as [->|Hk]; cbn [fst].
  - apply String.eqb_neq in Hne. rewrite Hne. exact IH.
  - destruct (String.eqb k q); [reflexivity|exact IH].
Qed.

Lemma file_lines_fopen_other (p q : string) (w w1 : world)
    (c : list string) :
  fopen_wx p w = Some w1 -> file_lines w q = Some c ->
  file_lines w1 q = Some c.
Proof.
  intros Hopen Hq. apply fopen_wx_inv in Hopen as (_ & Hf & _).
  unfold file_lines in *. rewrite Hf. clear Hf.
  induction (files w) as [|[k d] fs IH]; cbn [find app fst] in *;
    [discriminate|].
  destruct (String.eqb k q); [exact Hq|apply IH; exact Hq].
Qed.

Lemma file_lines_exists (w : world) (p : string) (c : list string) :
  file_lines w p = Some c -> path_exists w p = true.
Proof.
  unfold file_lines. intros H. apply path_exists_true. left.
  destruct (find _ (files w)) as [[k d]|] eqn:Hfind; [|discriminate].
  apply find_some in Hfind as [Hin Heq]. apply String.eqb_eq in Heq.
  cbn [fst] in Heq. subst k. apply in_map_iff. exists (p, d). auto.
Qed.

Section UnitText.
Context {E : Env}.

Lemma add_mount_files (g : globals) (what where_ : string)
    (fstype : option string) (opts : string) (passno : Z)
    (noauto nofail automount : bool) (p source : string) (w w' : world) :
  let unit := unit_path (arg_dest g) (unit_name_from_path where_ ".mount") in
  let aunit :=
    unit_path (arg_dest g) (unit_name_from_path where_ ".automount") in
  add_mount g what where_ fstype opts passno noauto nofail automount
    (Some p) source w = (0, w') ->
  path_exists w unit = false -> path_exists w' unit = true ->
  let root := path_equal where_ "/" in
  let na := negb root && noauto in
  let nf := negb root && nofail in
  let am := negb root && automount in
  file_lines w' unit
  = Some (mount_unit_lines source (negb na && negb nf && negb am) p
            (if negb (passno =? 0)
             then snd (generator_write_fsck_deps (arg_dest g) what where_
                         fstype)
             else [])
            what where_ fstype
            (snd (generator_write_timeouts (arg_dest g) what where_ opts)))
  /\ (am = true ->
      file_lines w' aunit = Some (automount_unit_lines source p where_)).
Proof.
  intros unit aunit Hrun Hfresh Hnew root na nf am.
  unfold add_mount in Hrun.
  destruct (streq_ptr fstype (Some "autofs")).
  { injection Hrun as <-. congruence. }
  destruct (negb (is_path where_)).
  { injection Hrun as <-. unfold log_warning in Hnew.
    rewrite path_exists_log_msg in Hnew. congruence. }
  destruct (mount_point_is_api where_ || mount_point_ignore where_).
  { injection Hrun as <-. congruence. }
  assert (Hflags :
    (if path_equal where_ "/" then (false, false, false)
     else (automount, noauto, nofail)) = (am, na, nf)).
  { unfold am, na, nf, root. destruct (path_equal where_ "/"); reflexivity. }
  rewrite Hflags in Hrun. clear Hflags.
  generalize dependent am. generalize dependent na. generalize dependent nf.
  clear root. intros nf na am Hrun.
  cbv beta iota zeta in Hrun.
  cbn [strjoin is_null negb] in Hrun. rewrite !append_empty_r in Hrun.
  fold (unit_path (arg_dest g) (unit_name_from_path where_ ".mount")) in Hrun.
  fold (unit_path (arg_dest g) (unit_name_from_path where_ ".automount"))
    in Hrun.
  fold unit in Hrun. fold aunit in Hrun.
  destruct (fopen_wx unit w) as [w1|] eqn:Hopen; [|discriminate Hrun].
  pose proof (file_lines_fopen _ _ _ Hopen) as Hl1.
  unfold mount_unit_lines, automount_unit_lines, before_lines, type_lines,
    options_lines, unit_header, mount_section, automount_section.
  destruct (negb (passno =? 0));
    [destruct (generator_write_fsck_deps (arg_dest g) what where_ fstype)
       as [r fsck]|]; cbn [snd];
    (match type of Hrun with
     | context [?r <? 0] =>
         destruct (Z.ltb_spec r 0) as [Hr|_];
           [first [exfalso; lia|injection Hrun as Hr0 _; lia]|]
     end);
    destruct (generator_write_timeouts (arg_dest g) what where_ opts)
      as [r0 filtered]; cbn [snd];
    (destruct (Z.ltb_spec r0 0) as [Hr|_];
       [injection Hrun as Hr0 _; lia|]);
    assert (Herr : forall (x : world), (- EEXIST, x) = (0, w') -> False)
      by (intros x H; injection H as H _; discriminate H);
    destruct (negb (isempty fstype) && negb (streq_ptr fstype (Some "auto")));
    destruct (negb (isempty filtered)
              && negb (streq_ptr filtered (Some "defaults")));
    destruct na, nf, am; cbn [negb andb orb] in Hrun |- *.
  all: try match type of Hrun with
       | context [symlink ?t ?l ?W] =>
           destruct (symlink t l W) as [w3|] eqn:Hs3;
             [|exfalso; exact (Herr _ Hrun)]
       end.
  all: try match type of Hrun with
       | context [fopen_wx ?q ?W] =>
           eassert (HW : file_lines W unit = Some _)
             by (file_lines_steps; rewrite Hl1; reflexivity);
           destruct (fopen_wx q W) as [w4|] eqn:Ho4;
             [|exfalso; exact (Herr _ Hrun)];
           assert (Hne : aunit <> unit)
             by (intros Heq; pose proof Ho4 as Hp;
                 apply fopen_wx_inv in Hp as (Hp & _);
                 rewrite Heq in Hp;
                 rewrite (file_lines_exists _ _ _ HW) in Hp; discriminate);
           pose proof (file_lines_fopen_other _ _ _ _ _ Ho4 HW) as HW4;
           pose proof (file_lines_fopen _ _ _ Ho4) as HA4
       end.
  all: try match type of Hrun with
       | context [symlink ?t ?l ?W] =>
           destruct (symlink t l W) as [w5|] eqn:Hs5;
             [|exfalso; exact (Herr _ Hrun)]
       end.
  all: injection Hrun as <-.
  all: split; [|first [discriminate|intros _]].
  all: try (file_lines_steps; rewrite Hl1; cbn [option_map];
            rewrite <- ?app_assoc; reflexivity).
  all: try (rewrite (file_lines_symlink _ _ _ _ unit Hs5);
            rewrite !file_lines_fprintf_other by exact Hne;
            rewrite HW4; rewrite <- ?app_assoc; reflexivity).
  all: rewrite (file_lines_symlink _ _ _ _ aunit Hs5);
       rewrite !file_lines_fprintf; rewrite HA4; reflexivity.
Qed.

(** X12: the text of the units [add_mount] writes: the mount unit has
    the header, Before= only if none of noauto, nofail and automount is
    in force, the fsck lines if passno is not 0, What=, Where=, Type=
    unless empty or auto, and Options= unless empty or defaults; the
    automount unit has the header, Before= and Where=; with the links
    of each. *)
Theorem add_mount_unit_text (g : globals) (what where_ : string)
    (fstype : option string) (opts : string) (passno : Z)
    (noauto nofail automount : bool) (p source : string) (w w' : world) :
  let unit := unit_path (arg_dest g) (unit_name_from_path where_ ".mount") in
  let aunit :=
    unit_path (arg_dest g) (unit_name_from_path where_ ".automount") in
  add_mount g what where_ fstype opts passno noauto nofail automount
    (Some p) source w = (0, w') ->
  path_exists w unit = false -> path_exists w' unit = true ->
  let root := path_equal where_ "/" in
  let na := negb root && noauto in
  let nf := negb root && nofail in
  let am := negb root && automount in
  let required := negb na && negb nf && negb am in
  file_lines w' unit
  = Some (mount_unit_lines source required p
            (if negb (passno =? 0)
             then snd (generator_write_fsck_deps (arg_dest g) what where_
                         fstype)
             else [])
            what where_ fstype
            (snd (generator_write_timeouts (arg_dest g) what where_ opts)))
  /\ (am = true ->
      file_lines w' aunit = Some (automount_unit_lines source p where_))
  /\ links w'
     = (links w
        ++ (if na then []
            else [(link_path (arg_dest g) p (negb required)
                     (unit_name_from_path where_ ".mount"), unit)])
        ++ (if am
            then [(link_path (arg_dest g) p nf
                     (unit_name_from_path where_ ".automount"), aunit)]
            else []))%list.
Proof.
  intros unit aunit Hrun Hfresh Hnew root na nf am required.
  destruct (add_mount_files g what where_ fstype opts passno noauto nofail
              automount p source w w' Hrun Hfresh Hnew) as [Hu Ha].
  split; [exact Hu|]. split; [exact Ha|].
  pose proof (add_mount_emitted g what where_ fstype opts passno noauto
                nofail automount p source w w' Hrun Hfresh Hnew) as Hlinks.
  cbv zeta in Hlinks. destruct Hlinks as [Hlinks _].
  rewrite Hlinks. unfold required, na, nf, am, root, unit, aunit, unit_path.
  destruct (negb (path_equal where_ "/") && noauto); [reflexivity|].
  cbn [negb andb]. rewrite <- negb_orb, negb_involutive. reflexivity.
Qed.
End UnitText.

Lemma add_mount_unit_text_witness :
  let E := Reference.host [] in
  let w' := snd (@add_mount E initial_globals "/dev/sda3" "/home"
                   (Some "ext4") "x-systemd.automount" 2 false false true
                   (Some "local-fs.target") "/etc/fstab" empty_world) in
  file_lines w' "/tmp/home.mount"
  = Some ["# Automatically generated by systemd-fstab-generator"; "";
          "[Unit]"; "SourcePath=/etc/fstab";
          "Documentation=man:fstab(5) man:systemd-fstab-generator(8)";
          "RequiresOverridable=systemd-fsck@dev-sda3.service";
          "After=systemd-fsck@dev-sda3.service"; ""; "[Mount]";
          "What=/dev/sda3"; "Where=/home"; "Type=ext4";
          "Options=x-systemd.automount"]
  /\ file_lines w' "/tmp/home.automount"
     = Some ["# Automatically generated by systemd-fstab-generator"; "";
             "[Unit]"; "SourcePath=/etc/fstab";
             "Documentation=man:fstab(5) man:systemd-fstab-generator(8)";
             "Before=local-fs.target"; "[Automount]"; "Where=/home"]
  /\ links w'
     = [("/tmp/local-fs.target.wants/home.mount", "/tmp/home.mount");
        ("/tmp/local-fs.target.requires/home.automount",
         "/tmp/home.automount")].
Proof.
  intros E w'.
  destruct (@add_mount_unit_text E initial_globals "/dev/sda3" "/home"
              (Some "ext4") "x-systemd.automount" 2 false false true
              "local-fs.target" "/etc/fstab" empty_world w')
    as (Hunit & Hauto & Hlinks);
    [vm_compute; reflexivity ..|].
  split; [|split].
  - refine (eq_trans Hunit _). vm_compute. reflexivity.
  - refine (eq_trans (Hauto eq_refl) _). vm_compute. reflexivity.
  - refine (eq_trans Hlinks _). vm_compute. reflexivity.
Defined.
